(** * wx-msg-api: reconciliation schedulers, persistence gateway,
      message-bot selection and outbound sends

    A shallow embedding of the Go sources
      - models (WxRobotConfig, WxUserLogin, WxGroup),
      - wx_client.go (WxAPIClient),
      - the service layer (wxRobotService: SaveUser, SaveOrUpdateGroup, ...),
      - the three schedulers (initialization, group sync, login status),
      - message_strategy.go (round-robin / random selection),
      - the sendTextAndImage HTTP handler,
    followed by the properties proved about them.

    Conventions.  Go's [int], [uint] and [int64] are [Z]; no arithmetic of
    the modelled code can leave the 64-bit range (counters bounded by list
    lengths, indices taken modulo a length).  A [time.Time] is a [Z]
    (instant on an abstract time line) whose zero value is [0].  The
    relational store is a record of tables, each table a list of rows; the
    external HTTP endpoints and the storage faults are an explicit
    environment [Env], so every function of the embedding is a total,
    executable function of (environment, store, arguments). *)

From Stdlib Require Import ZArith List String Bool Lia DecimalString.
Import ListNotations.
Open Scope string_scope.
Open Scope list_scope.
Open Scope Z_scope.

(* ===================================================================== *)
(** ** Errors and Go's [(value, error)] results *)
(* ===================================================================== *)

Inductive error : Type :=
| ErrRecordNotFound                 (* gorm.ErrRecordNotFound *)
| ErrDuplicateKey                   (* primary / unique key violation *)
| ErrStorage                        (* any other storage-layer failure *)
| ErrTransport (detail : string)    (* httpClient.Do / io.ReadAll failed *)
| ErrUnmarshal (detail : string)    (* json.Unmarshal failed *)
| ErrAPI (text : string)            (* fmt.Errorf("API调用失败: %s", resp.Text) *)
| ErrMsg (msg : string).            (* any other fmt.Errorf *)

(** [err.Error()], as far as the code formats it itself. *)
Definition Error (e : error) : string :=
  match e with
  | ErrRecordNotFound => "record not found"
  | ErrDuplicateKey => "duplicate key"
  | ErrStorage => "storage failure"
  | ErrTransport d => "do request: " ++ d
  | ErrUnmarshal d => "unmarshal response: " ++ d
  | ErrAPI t => "API调用失败: " ++ t
  | ErrMsg m => m
  end%string.

(** A Go call returning [(T, error)] where the value is meaningful only
    when the error is nil. *)
Inductive result (A : Type) : Type :=
| Ok (a : A)
| Err (e : error).
Arguments Ok {A} a.
Arguments Err {A} e.

(** A client call returning a response pointer and an error: on an
    application-level
    failure the client returns the decoded envelope together with the
    error ([return &resp, fmt.Errorf(...)]). *)
Inductive reply (A : Type) : Type :=
| Done (a : A)
| Failed (partial : option A) (err : error).
Arguments Done {A} a.
Arguments Failed {A} partial err.

(** What one HTTP round trip yields before the envelope is inspected.
    [NetworkFailure] stands for every way of not obtaining a body (building
    the request, the round trip, reading the answer); the embedding renders
    it with the message of the round trip. *)
Inductive HttpReply (A : Type) : Type :=
| NetworkFailure (detail : string)
| MalformedBody (detail : string)
| Parsed (a : A).
Arguments NetworkFailure {A} detail.
Arguments MalformedBody {A} detail.
Arguments Parsed {A} a.

(* ===================================================================== *)
(** ** Database models (models.go) *)
(* ===================================================================== *)

Module WxRobotConfig.
Record t : Type := mk {
  ID : Z;
  Address : string;
  AdminKey : string;
  OwnerID : Z;
  Description : string;
  AdminUsers : string;
  CreateTime : Z;
  UpdateTime : Z
}.
End WxRobotConfig.

Module WxUserLogin.
Record t : Type := mk {
  ID : Z;
  RobotID : Z;
  Token : string;
  WxID : string;
  NickName : string;
  ExtensionTime : Z;
  HasSecurityRisk : Z;
  ExpirationTime : Z;
  Status : Z;               (* 1 normal, 2 risk, 3 needs re-login *)
  IsInitialized : Z;        (* 0 / 1 *)
  IsMessageBot : Z;         (* 0 / 1 *)
  CreateTime : Z;
  UpdateTime : Z
}.

Definition with_ID (v : Z) (u : t) : t :=
  mk v (RobotID u) (Token u) (WxID u) (NickName u) (ExtensionTime u)
     (HasSecurityRisk u) (ExpirationTime u) (Status u) (IsInitialized u)
     (IsMessageBot u) (CreateTime u) (UpdateTime u).
Definition with_Status (v : Z) (u : t) : t :=
  mk (ID u) (RobotID u) (Token u) (WxID u) (NickName u) (ExtensionTime u)
     (HasSecurityRisk u) (ExpirationTime u) v (IsInitialized u)
     (IsMessageBot u) (CreateTime u) (UpdateTime u).
Definition with_IsInitialized (v : Z) (u : t) : t :=
  mk (ID u) (RobotID u) (Token u) (WxID u) (NickName u) (ExtensionTime u)
     (HasSecurityRisk u) (ExpirationTime u) (Status u) v
     (IsMessageBot u) (CreateTime u) (UpdateTime u).
Definition with_CreateTime (v : Z) (u : t) : t :=
  mk (ID u) (RobotID u) (Token u) (WxID u) (NickName u) (ExtensionTime u)
     (HasSecurityRisk u) (ExpirationTime u) (Status u) (IsInitialized u)
     (IsMessageBot u) v (UpdateTime u).
Definition with_UpdateTime (v : Z) (u : t) : t :=
  mk (ID u) (RobotID u) (Token u) (WxID u) (NickName u) (ExtensionTime u)
     (HasSecurityRisk u) (ExpirationTime u) (Status u) (IsInitialized u)
     (IsMessageBot u) (CreateTime u) v.
End WxUserLogin.

Module WxGroup.
Record t : Type := mk {
  ID : Z;
  WxID : string;
  GroupID : string;
  GroupNickName : string;
  CreateTime : Z;
  UpdateTime : Z
}.

Definition with_ID (v : Z) (g : t) : t :=
  mk v (WxID g) (GroupID g) (GroupNickName g) (CreateTime g) (UpdateTime g).
Definition with_GroupNickName (v : string) (g : t) : t :=
  mk (ID g) (WxID g) (GroupID g) v (CreateTime g) (UpdateTime g).
Definition with_CreateTime (v : Z) (g : t) : t :=
  mk (ID g) (WxID g) (GroupID g) (GroupNickName g) v (UpdateTime g).
Definition with_UpdateTime (v : Z) (g : t) : t :=
  mk (ID g) (WxID g) (GroupID g) (GroupNickName g) (CreateTime g) v.
End WxGroup.

(** The relational store: the three tables the core reads and writes
    (database.sql), with the AUTO_INCREMENT counters of the two tables the
    core inserts into. *)
Record DB : Type := mkDB {
  wx_robot_configs : list WxRobotConfig.t;
  wx_user_logins : list WxUserLogin.t;
  wx_groups : list WxGroup.t;
  users_auto_increment : Z;
  groups_auto_increment : Z
}.

Definition set_users (us : list WxUserLogin.t) (db : DB) : DB :=
  mkDB (wx_robot_configs db) us (wx_groups db)
       (users_auto_increment db) (groups_auto_increment db).

Definition set_groups (gs : list WxGroup.t) (db : DB) : DB :=
  mkDB (wx_robot_configs db) (wx_user_logins db) gs
       (users_auto_increment db) (groups_auto_increment db).

(* ===================================================================== *)
(** ** External API envelopes (wx_client.go) *)
(* ===================================================================== *)

(** Only the fields some caller in the core reads are kept besides the
    envelope [{Code, Data, Text}]. *)

Module CheckCanSetAliasResponse.
Record result_item : Type := mkItem {
  Title : string;
  Result : string;
  IsPass : bool
}.
Record t : Type := mk {
  Code : Z;
  Results : list result_item;     (* Data.results *)
  Text : string
}.
End CheckCanSetAliasResponse.

Module GetInitStatusResponse.
Record t : Type := mk {
  Code : Z;
  Data : bool;
  Text : string
}.
End GetInitStatusResponse.

Module GroupListResponse.
Record group : Type := mkGroup {
  UserName : string;              (* userName.str *)
  NickName : string;              (* nickName.str *)
  ChatRoomOwner : string
}.
Record t : Type := mk {
  Code : Z;
  GroupList : list group;         (* Data.GroupList *)
  IsInitFinished : bool;          (* Data.IsInitFinished *)
  Count : Z;                      (* Data.count *)
  Text : string
}.
End GroupListResponse.

(** Outbound sends: the caller-facing requests and responses, and the raw
    envelopes of [/message/SendTextMessage] and
    [/message/SendImageNewMessage]. *)

Record SendTextRequest : Type := mkSendTextRequest {
  text_TextContent : string;
  text_ToUserName : string
}.

Record SendTextResponse : Type := mkSendTextResponse {
  textresp_ToUserName : string;
  textresp_ClientMsgId : Z;
  textresp_CreateTime : Z;
  textresp_NewMsgId : Z
}.

Record SendImageRequest : Type := mkSendImageRequest {
  image_ImageContent : string;
  image_ToUserName : string
}.

Record SendImageResponse : Type := mkSendImageResponse {
  imageresp_MsgId : Z;
  imageresp_FromUserName : string;
  imageresp_ToUserName : string;
  imageresp_CreateTime : Z;
  imageresp_NewMsgId : Z
}.

Record SendTextAndImageRequest : Type := mkSendTextAndImageRequest {
  TextContent : string;
  ImageContent : string;
  ToUserName : string
}.

Record SendTextAndImageResponse : Type := mkSendTextAndImageResponse {
  Success : bool;
  Message : string
}.

Module SendTextMessageRawResponse.
Record chat_send_ret : Type := mkRet {
  Ret : Z;                          (* chat_send_ret_list[i].ret *)
  RetToUserName : string;           (* toUserName.str *)
  MsgId : Z;
  ClientMsgId : Z;
  CreateTime : Z;
  ServerTime : Z;
  NewMsgId : Z
}.
Record resp : Type := mkResp {
  BaseResponseRet : Z;              (* base_response.ret *)
  BaseResponseErrMsg : string;      (* base_response.errMsg.str *)
  Count : Z;
  ChatSendRetList : list chat_send_ret
}.
Record item : Type := mkItem {
  IsSendSuccess : bool;
  ItemTextContent : string;
  ItemToUserName : string;
  Resp : option resp                (* pointer, nil when omitted *)
}.
Record t : Type := mk {
  Code : Z;
  Text : string;
  Data : list item
}.
End SendTextMessageRawResponse.

Module SendImageNewMessageRawResponse.
Record resp : Type := mkResp {
  BaseResponseRet : Z;              (* baseResponse.ret *)
  BaseResponseErrMsg : string;      (* baseResponse.errMsg.str *)
  MsgId : Z;
  FromUserName : string;
  RespToUserName : string;
  CreateTime : Z;
  NewMsgId : Z
}.
Record item : Type := mkItem {
  ErrMsg : string;
  ImageId : string;
  IsSendSuccess : bool;
  ItemToUserName : string;
  Resp : option resp
}.
Record t : Type := mk {
  Code : Z;
  Text : string;
  Data : list item
}.
End SendImageNewMessageRawResponse.

(* ===================================================================== *)
(** ** The environment of one tick or one request *)
(* ===================================================================== *)

(** The statements the persistence gateway issues, as far as a storage
    fault can be attached to them. *)
Inductive DbOp : Type :=
| QueryActiveUsers
| QueryInitializedUsers
| QueryUninitializedUsers
| QueryRobotByID (id : Z)
| QueryUserByKey (robotId : Z) (wxId : string)
| InsertUser (robotId : Z) (wxId : string)
| SaveUserRow (id : Z)
| UpdateStatusColumn (id : Z)
| UpdateInitializedColumn (id : Z)
| QueryGroupByKey (wxId groupId : string)
| InsertGroup (wxId groupId : string)
| SaveGroupRow (id : Z)
| DeleteGroups (wxId : string)
| QueryGroupsByWxID (wxId : string)
| QueryMessageBots (groupId : string).

(** Everything outside the process: the clock, which statements fail in
    the storage layer, what the external robot API answers to each call
    [(robotAddress, key)], and the next draw of the pseudo-random source.
    A failed statement leaves the store as it was. *)
Record Env : Type := mkEnv {
  now : Z;
  fault : DbOp -> bool;
  http_CheckCanSetAlias : string -> string -> HttpReply CheckCanSetAliasResponse.t;
  http_GetInItStatus : string -> string -> HttpReply GetInitStatusResponse.t;
  http_GroupList : string -> string -> HttpReply GroupListResponse.t;
  http_SendTextMessage :
    string -> string -> SendTextRequest -> HttpReply SendTextMessageRawResponse.t;
  http_SendImageNewMessage :
    string -> string -> SendImageRequest -> HttpReply SendImageNewMessageRawResponse.t;
  rand_Int63 : Z
}.

(* ===================================================================== *)
(** ** External Robot API client (wx_client.go) *)
(* ===================================================================== *)

Definition isSuccess (code : Z) : bool := code =? 200.

(** [CheckCanSetAlias]: codes 200 and 300 are both regular answers. *)
Definition CheckCanSetAlias (env : Env) (robotAddress authKey : string)
  : reply CheckCanSetAliasResponse.t :=
  match http_CheckCanSetAlias env robotAddress authKey with
  | NetworkFailure d => Failed None (ErrTransport d)
  | MalformedBody d => Failed None (ErrUnmarshal d)
  | Parsed resp =>
      if negb (CheckCanSetAliasResponse.Code resp =? 200)
         && negb (CheckCanSetAliasResponse.Code resp =? 300)
      then Failed (Some resp) (ErrAPI (CheckCanSetAliasResponse.Text resp))
      else Done resp
  end.

Definition GetInitStatus (env : Env) (robotAddress authKey : string)
  : reply GetInitStatusResponse.t :=
  match http_GetInItStatus env robotAddress authKey with
  | NetworkFailure d => Failed None (ErrTransport d)
  | MalformedBody d => Failed None (ErrUnmarshal d)
  | Parsed resp =>
      if negb (isSuccess (GetInitStatusResponse.Code resp))
      then Failed (Some resp) (ErrAPI (GetInitStatusResponse.Text resp))
      else Done resp
  end.

Definition GetGroupList (env : Env) (robotAddress authKey : string)
  : reply GroupListResponse.t :=
  match http_GroupList env robotAddress authKey with
  | NetworkFailure d => Failed None (ErrTransport d)
  | MalformedBody d => Failed None (ErrUnmarshal d)
  | Parsed resp =>
      if negb (isSuccess (GroupListResponse.Code resp))
      then Failed (Some resp) (ErrAPI (GroupListResponse.Text resp))
      else Done resp
  end.

(* ===================================================================== *)
(** ** The ORM statements the gateway is written with *)
(* ===================================================================== *)

(** [Where(p).First(&x)]: the matching row of least primary key. *)
Fixpoint first_by {A : Type} (key : A -> Z) (p : A -> bool) (rows : list A)
  : option A :=
  match rows with
  | [] => None
  | x :: rest =>
      if p x then
        match first_by key p rest with
        | Some y => if key y <? key x then Some y else Some x
        | None => Some x
        end
      else first_by key p rest
  end.

(** [UPDATE ... WHERE id = ?]: every row of that primary key is rewritten. *)
Definition update_where_id {A : Type} (key : A -> Z) (id : Z) (f : A -> A)
  (rows : list A) : list A :=
  map (fun x => if key x =? id then f x else x) rows.

Definition user_key_is (robotId : Z) (wxId : string) (u : WxUserLogin.t) : bool :=
  (WxUserLogin.RobotID u =? robotId) && String.eqb (WxUserLogin.WxID u) wxId.

Definition group_key_is (wxId groupId : string) (g : WxGroup.t) : bool :=
  String.eqb (WxGroup.WxID g) wxId && String.eqb (WxGroup.GroupID g) groupId.

(** [db.Create(user)] on [wx_user_logins]: a zero [ID] takes the
    AUTO_INCREMENT value, a zero [Status] the column default 1, zero time
    stamps the current time ([autoCreateTime], [autoUpdateTime]).  Returns
    the row as written back into the caller's struct. *)
Definition create_user (env : Env) (db : DB) (user : WxUserLogin.t)
  : result WxUserLogin.t * DB :=
  if fault env (InsertUser (WxUserLogin.RobotID user) (WxUserLogin.WxID user))
  then (Err ErrStorage, db)
  else
    let id := if WxUserLogin.ID user =? 0
              then users_auto_increment db else WxUserLogin.ID user in
    if existsb (fun u => WxUserLogin.ID u =? id) (wx_user_logins db)
    then (Err ErrDuplicateKey, db)
    else
      let row :=
        WxUserLogin.with_ID id
          (WxUserLogin.with_Status
             (if WxUserLogin.Status user =? 0 then 1 else WxUserLogin.Status user)
             (WxUserLogin.with_CreateTime
                (if WxUserLogin.CreateTime user =? 0
                 then now env else WxUserLogin.CreateTime user)
                (WxUserLogin.with_UpdateTime
                   (if WxUserLogin.UpdateTime user =? 0
                    then now env else WxUserLogin.UpdateTime user)
                   user))) in
      (Ok row,
       mkDB (wx_robot_configs db) (wx_user_logins db ++ [row]) (wx_groups db)
            (Z.max (users_auto_increment db) (id + 1))
            (groups_auto_increment db)).

(** [db.Save(user)]: without primary key it is [db.Create(user)]; with one,
    all columns of the row of that key are overwritten, [update_time] with
    the current time. *)
Definition save_user (env : Env) (db : DB) (user : WxUserLogin.t)
  : result WxUserLogin.t * DB :=
  if WxUserLogin.ID user =? 0 then create_user env db user
  else if fault env (SaveUserRow (WxUserLogin.ID user))
  then (Err ErrStorage, db)
  else
    let row := WxUserLogin.with_UpdateTime (now env) user in
    (Ok row,
     set_users (update_where_id WxUserLogin.ID (WxUserLogin.ID user)
                  (fun _ => row) (wx_user_logins db)) db).

(** [db.Create(group)] on [wx_groups]; the table carries
    [UNIQUE KEY uk_wx_group (wx_id, group_id)]. *)
Definition create_group (env : Env) (db : DB) (group : WxGroup.t)
  : option error * DB :=
  if fault env (InsertGroup (WxGroup.WxID group) (WxGroup.GroupID group))
  then (Some ErrStorage, db)
  else
    let id := if WxGroup.ID group =? 0
              then groups_auto_increment db else WxGroup.ID group in
    if existsb (fun g => (WxGroup.ID g =? id)
                         || group_key_is (WxGroup.WxID group) (WxGroup.GroupID group) g)
               (wx_groups db)
    then (Some ErrDuplicateKey, db)
    else
      let row :=
        WxGroup.with_ID id
          (WxGroup.with_CreateTime
             (if WxGroup.CreateTime group =? 0
              then now env else WxGroup.CreateTime group)
             (WxGroup.with_UpdateTime
                (if WxGroup.UpdateTime group =? 0
                 then now env else WxGroup.UpdateTime group)
                group)) in
      (None,
       mkDB (wx_robot_configs db) (wx_user_logins db) (wx_groups db ++ [row])
            (users_auto_increment db)
            (Z.max (groups_auto_increment db) (id + 1))).

(** [db.Save(&existing)] on [wx_groups]: an insert when the struct has no
    primary key, else the overwrite of the row of that key. *)
Definition save_group (env : Env) (db : DB) (existing : WxGroup.t)
  : option error * DB :=
  if WxGroup.ID existing =? 0 then create_group env db existing
  else if fault env (SaveGroupRow (WxGroup.ID existing))
  then (Some ErrStorage, db)
  else
    (None,
     set_groups (update_where_id WxGroup.ID (WxGroup.ID existing)
                   (fun _ => WxGroup.with_UpdateTime (now env) existing)
                   (wx_groups db)) db).

(* ===================================================================== *)
(** ** Persistence gateway (wxRobotService) *)
(* ===================================================================== *)

Definition GetRobotByID (env : Env) (db : DB) (id : Z) : result WxRobotConfig.t :=
  if fault env (QueryRobotByID id) then Err ErrStorage
  else
    match first_by WxRobotConfig.ID (fun r => WxRobotConfig.ID r =? id)
                   (wx_robot_configs db) with
    | Some robot => Ok robot
    | None => Err ErrRecordNotFound
    end.

(** SaveUser: look the pair [(robot_id, wx_id)] up; update in place keeping
    [ID] and [CreateTime], or create. *)
Definition SaveUser (env : Env) (db : DB) (user : WxUserLogin.t)
  : option error * DB :=
  if fault env (QueryUserByKey (WxUserLogin.RobotID user) (WxUserLogin.WxID user))
  then (Some ErrStorage, db)
  else
    match first_by WxUserLogin.ID
            (user_key_is (WxUserLogin.RobotID user) (WxUserLogin.WxID user))
            (wx_user_logins db) with
    | Some existingUser =>
        let user1 := WxUserLogin.with_ID (WxUserLogin.ID existingUser) user in
        let user2 := WxUserLogin.with_CreateTime
                       (WxUserLogin.CreateTime existingUser) user1 in
        let user3 := WxUserLogin.with_UpdateTime (now env) user2 in
        match save_user env db user3 with
        | (Err err, db') => (Some err, db')
        | (Ok _, db') => (None, db')
        end
    | None =>
        match create_user env db user with
        | (Err err, db') => (Some err, db')
        | (Ok _, db') => (None, db')
        end
    end.

Definition GetInitializedUsers (env : Env) (db : DB) : result (list WxUserLogin.t) :=
  if fault env QueryInitializedUsers then Err ErrStorage
  else Ok (filter (fun u => (WxUserLogin.IsInitialized u =? 1)
                            && (WxUserLogin.Status u =? 1))
                  (wx_user_logins db)).

Definition GetUninitializedUsers (env : Env) (db : DB) : result (list WxUserLogin.t) :=
  if fault env QueryUninitializedUsers then Err ErrStorage
  else Ok (filter (fun u => (WxUserLogin.IsInitialized u =? 0)
                            && (WxUserLogin.Status u =? 1))
                  (wx_user_logins db)).

Definition GetActiveUsers (env : Env) (db : DB) : result (list WxUserLogin.t) :=
  if fault env QueryActiveUsers then Err ErrStorage
  else Ok (filter (fun u => WxUserLogin.Status u =? 1) (wx_user_logins db)).

(** Single-column updates through [Model(&WxUserLogin{})]: the ORM also
    stamps [update_time]. *)
Definition UpdateUserInitializationStatus (env : Env) (db : DB) (userID : Z)
  : option error * DB :=
  if fault env (UpdateInitializedColumn userID) then (Some ErrStorage, db)
  else
    (None,
     set_users (update_where_id WxUserLogin.ID userID
                  (fun u => WxUserLogin.with_UpdateTime (now env)
                              (WxUserLogin.with_IsInitialized 1 u))
                  (wx_user_logins db)) db).

Definition UpdateUserStatus (env : Env) (db : DB) (userID : Z) (status : Z)
  : option error * DB :=
  if fault env (UpdateStatusColumn userID) then (Some ErrStorage, db)
  else
    (None,
     set_users (update_where_id WxUserLogin.ID userID
                  (fun u => WxUserLogin.with_UpdateTime (now env)
                              (WxUserLogin.with_Status status u))
                  (wx_user_logins db)) db).

(** SaveOrUpdateGroup: any failure of the lookup takes the create branch;
    an existing row is written only when the nick name differs. *)
Definition SaveOrUpdateGroup (env : Env) (db : DB) (group : WxGroup.t)
  : option error * DB :=
  let found :=
    if fault env (QueryGroupByKey (WxGroup.WxID group) (WxGroup.GroupID group))
    then None
    else first_by WxGroup.ID
           (group_key_is (WxGroup.WxID group) (WxGroup.GroupID group))
           (wx_groups db) in
  match found with
  | None => create_group env db group
  | Some existing =>
      if negb (String.eqb (WxGroup.GroupNickName existing)
                          (WxGroup.GroupNickName group))
      then save_group env db
             (WxGroup.with_GroupNickName (WxGroup.GroupNickName group) existing)
      else (None, db)
  end.

(** DeleteGroupsByWxIDNotInList: an empty list wipes the groups of [wxID]. *)
Definition DeleteGroupsByWxIDNotInList (env : Env) (db : DB) (wxID : string)
  (groupIDs : list string) : option error * DB :=
  if (Z.of_nat (List.length groupIDs) =? 0) then
    if fault env (DeleteGroups wxID) then (Some ErrStorage, db)
    else
      (None,
       set_groups (filter (fun g => negb (String.eqb (WxGroup.WxID g) wxID))
                          (wx_groups db)) db)
  else
    if fault env (DeleteGroups wxID) then (Some ErrStorage, db)
    else
      (None,
       set_groups
         (filter (fun g =>
                    negb (String.eqb (WxGroup.WxID g) wxID
                          && negb (existsb (String.eqb (WxGroup.GroupID g)) groupIDs)))
                 (wx_groups db)) db).

Definition GetGroupsByWxID (env : Env) (db : DB) (wxID : string)
  : result (list WxGroup.t) :=
  if fault env (QueryGroupsByWxID wxID) then Err ErrStorage
  else Ok (filter (fun g => String.eqb (WxGroup.WxID g) wxID) (wx_groups db)).

(* ===================================================================== *)
(** ** Login-status scheduler *)
(* ===================================================================== *)

(** The counters a login-status tick keeps and logs when it ends. *)
Record LoginTally : Type := mkLoginTally {
  login_successCount : Z;
  login_errorCount : Z;
  login_reloginCount : Z
}.

Definition login_zero : LoginTally := mkLoginTally 0 0 0.

Definition login_success (t : LoginTally) : LoginTally :=
  mkLoginTally (login_successCount t + 1) (login_errorCount t) (login_reloginCount t).
Definition login_error (t : LoginTally) : LoginTally :=
  mkLoginTally (login_successCount t) (login_errorCount t + 1) (login_reloginCount t).
Definition login_relogin (t : LoginTally) : LoginTally :=
  mkLoginTally (login_successCount t) (login_errorCount t) (login_reloginCount t + 1).

(** Body of the [for _, user := range users] loop of CheckLoginStatus. *)
Definition loginStatusStep (env : Env) (st : DB * LoginTally)
  (user : WxUserLogin.t) : DB * LoginTally :=
  let (db, t) := st in
  match GetRobotByID env db (WxUserLogin.RobotID user) with
  | Err _ => (db, login_error t)
  | Ok robot =>
      match CheckCanSetAlias env (WxRobotConfig.Address robot)
                             (WxUserLogin.Token user) with
      | Failed _ _ => (db, login_error t)
      | Done resp =>
          if CheckCanSetAliasResponse.Code resp =? 300 then
            match UpdateUserStatus env db (WxUserLogin.ID user) 3 with
            | (Some _, db') => (db', login_error t)
            | (None, db') => (db', login_relogin t)
            end
          else (db, login_success t)
      end
  end.

Definition CheckLoginStatus (env : Env) (db : DB)
  : option error * DB * LoginTally :=
  match GetActiveUsers env db with
  | Err err => (Some err, db, login_zero)
  | Ok users =>
      if Z.of_nat (List.length users) =? 0 then (None, db, login_zero)
      else
        let (db', t) := fold_left (loginStatusStep env) users (db, login_zero) in
        (None, db', t)
  end.

(* ===================================================================== *)
(** ** Group-sync scheduler *)
(* ===================================================================== *)

(** The upsert loop of processGroupSync, which also collects the listed
    group ids; it stops at the first failed upsert. *)
Fixpoint processGroupSync_upserts (env : Env) (db : DB) (wxID : string)
  (groupList : list GroupListResponse.group) (currentGroupIDs : list string)
  : option error * DB * list string :=
  match groupList with
  | [] => (None, db, currentGroupIDs)
  | group :: rest =>
      let groupID := GroupListResponse.UserName group in
      let groupNickName := GroupListResponse.NickName group in
      let currentGroupIDs' := currentGroupIDs ++ [groupID] in
      let wxGroup := WxGroup.mk 0 wxID groupID groupNickName 0 0 in
      match SaveOrUpdateGroup env db wxGroup with
      | (Some err, db') => (Some err, db', currentGroupIDs')
      | (None, db') => processGroupSync_upserts env db' wxID rest currentGroupIDs'
      end
  end.

Definition processGroupSync (env : Env) (db : DB) (wxID : string)
  (groupResp : GroupListResponse.t) : option error * DB :=
  match processGroupSync_upserts env db wxID
          (GroupListResponse.GroupList groupResp) [] with
  | (Some err, db', _) => (Some err, db')
  | (None, db', currentGroupIDs) =>
      DeleteGroupsByWxIDNotInList env db' wxID currentGroupIDs
  end.

Definition syncGroupsForUser (env : Env) (db : DB) (user : WxUserLogin.t)
  : option error * DB :=
  match GetRobotByID env db (WxUserLogin.RobotID user) with
  | Err err => (Some err, db)
  | Ok robot =>
      match GetGroupList env (WxRobotConfig.Address robot)
                         (WxUserLogin.Token user) with
      | Failed _ err => (Some err, db)
      | Done groupResp =>
          if negb (GroupListResponse.Code groupResp =? 200)
          then (None, db)            (* not counted as an error *)
          else processGroupSync env db (WxUserLogin.WxID user) groupResp
      end
  end.

Record SyncTally : Type := mkSyncTally {
  sync_successCount : Z;
  sync_errorCount : Z
}.

Definition sync_zero : SyncTally := mkSyncTally 0 0.

Definition syncStep (env : Env) (st : DB * SyncTally) (user : WxUserLogin.t)
  : DB * SyncTally :=
  let (db, t) := st in
  match syncGroupsForUser env db user with
  | (Some _, db') => (db', mkSyncTally (sync_successCount t) (sync_errorCount t + 1))
  | (None, db') => (db', mkSyncTally (sync_successCount t + 1) (sync_errorCount t))
  end.

Definition SyncGroupsForAllUsers (env : Env) (db : DB)
  : option error * DB * SyncTally :=
  match GetInitializedUsers env db with
  | Err err => (Some err, db, sync_zero)
  | Ok users =>
      if Z.of_nat (List.length users) =? 0 then (None, db, sync_zero)
      else
        let (db', t) := fold_left (syncStep env) users (db, sync_zero) in
        (None, db', t)
  end.

(* ===================================================================== *)
(** ** Initialization scheduler *)
(* ===================================================================== *)

Fixpoint saveGroupInfo_upserts (env : Env) (db : DB) (wxID : string)
  (groupList : list GroupListResponse.group) : option error * DB :=
  match groupList with
  | [] => (None, db)
  | group :: rest =>
      let wxGroup := WxGroup.mk 0 wxID (GroupListResponse.UserName group)
                                (GroupListResponse.NickName group) 0 0 in
      match SaveOrUpdateGroup env db wxGroup with
      | (Some err, db') => (Some err, db')
      | (None, db') => saveGroupInfo_upserts env db' wxID rest
      end
  end.

Definition saveGroupInfo (env : Env) (db : DB) (wxID : string)
  (groupResp : GroupListResponse.t) : option error * DB :=
  if negb (GroupListResponse.Code groupResp =? 200)
     || (Z.of_nat (List.length (GroupListResponse.GroupList groupResp)) =? 0)
  then (None, db)
  else saveGroupInfo_upserts env db wxID (GroupListResponse.GroupList groupResp).

Definition processUser (env : Env) (db : DB) (user : WxUserLogin.t)
  : option error * DB :=
  match GetRobotByID env db (WxUserLogin.RobotID user) with
  | Err err => (Some err, db)
  | Ok robot =>
      match GetInitStatus env (WxRobotConfig.Address robot)
                          (WxUserLogin.Token user) with
      | Failed _ err => (Some err, db)
      | Done initResp =>
          let isInitialized :=
            (GetInitStatusResponse.Code initResp =? 200)
            && GetInitStatusResponse.Data initResp in
          if negb isInitialized then
            match GetGroupsByWxID env db (WxUserLogin.WxID user) with
            | Err err => (Some err, db)
            | Ok groups =>
                if Z.of_nat (List.length groups) >? 0
                then (None, db)      (* already has groups: skip *)
                else (None, db)      (* keep waiting *)
            end
          else
            match GetGroupList env (WxRobotConfig.Address robot)
                               (WxUserLogin.Token user) with
            | Failed _ err => (Some err, db)
            | Done groupResp =>
                match saveGroupInfo env db (WxUserLogin.WxID user) groupResp with
                | (Some err, db') => (Some err, db')
                | (None, db') =>
                    UpdateUserInitializationStatus env db' (WxUserLogin.ID user)
                end
            end
      end
  end.

Definition getUninitializedUsers (env : Env) (db : DB)
  : result (list WxUserLogin.t) :=
  GetUninitializedUsers env db.

Definition CheckInitializationStatus (env : Env) (db : DB) : option error * DB :=
  match getUninitializedUsers env db with
  | Err err => (Some err, db)
  | Ok users =>
      if Z.of_nat (List.length users) =? 0 then (None, db)
      else (None, fold_left (fun d user => snd (processUser env d user)) users db)
  end.

(** One tick of one of the three jobs, and a run of ticks, each in its own
    environment. *)
Inductive Job : Type := InitializationJob | GroupSyncJob | LoginStatusJob.

Definition tick (jt : Job * Env) (db : DB) : DB :=
  match fst jt with
  | InitializationJob => snd (CheckInitializationStatus (snd jt) db)
  | GroupSyncJob => snd (fst (SyncGroupsForAllUsers (snd jt) db))
  | LoginStatusJob => snd (fst (CheckLoginStatus (snd jt) db))
  end.

Definition run_ticks (schedule : list (Job * Env)) (db : DB) : DB :=
  fold_left (fun d jt => tick jt d) schedule db.

(* ===================================================================== *)
(** ** Message-bot selection (message_strategy.go) *)
(* ===================================================================== *)

Record MessageBotInfo : Type := mkMessageBotInfo {
  User : WxUserLogin.t;
  Robot : WxRobotConfig.t
}.

Record messageBotQueryResult : Type := mkQueryResult {
  UserID : Z;
  UserToken : string;
  UserWxID : string;
  UserNickName : string;
  RobotID : Z;
  RobotAddress : string;
  RobotAdminKey : string
}.

(** The two policies; the round-robin one owns its cursor. *)
Inductive MessageSendStrategy : Type :=
| RoundRobinMessageSendStrategy (currentIndex : Z)
| RandomMessageSendStrategy.

Definition NewRoundRobinMessageSendStrategy : MessageSendStrategy :=
  RoundRobinMessageSendStrategy 0.

Definition NewRandomMessageSendStrategy : MessageSendStrategy :=
  RandomMessageSendStrategy.

(** The join [wx_groups g JOIN wx_user_logins u ON g.wx_id = u.wx_id JOIN
    wx_robot_configs r ON u.robot_id = r.id] with its WHERE clause. *)
Definition queryMessageBots (env : Env) (db : DB) (groupId : string)
  : result (list messageBotQueryResult) :=
  if fault env (QueryMessageBots groupId) then Err ErrStorage
  else
    let results :=
      flat_map (fun g =>
        if String.eqb (WxGroup.GroupID g) groupId then
          flat_map (fun u =>
            if String.eqb (WxGroup.WxID g) (WxUserLogin.WxID u)
               && (WxUserLogin.Status u =? 1)
               && (WxUserLogin.IsMessageBot u =? 1)
               && (WxUserLogin.HasSecurityRisk u =? 0)
            then
              flat_map (fun r =>
                if WxUserLogin.RobotID u =? WxRobotConfig.ID r then
                  [mkQueryResult (WxUserLogin.ID u) (WxUserLogin.Token u)
                     (WxUserLogin.WxID u) (WxUserLogin.NickName u)
                     (WxRobotConfig.ID r) (WxRobotConfig.Address r)
                     (WxRobotConfig.AdminKey r)]
                else [])
                (wx_robot_configs db)
            else [])
            (wx_user_logins db)
        else [])
        (wx_groups db) in
    if Z.of_nat (List.length results) =? 0
    then Err (ErrMsg "未找到可用的消息机器人")
    else Ok results.

Definition buildMessageBotInfo (result : messageBotQueryResult) : MessageBotInfo :=
  mkMessageBotInfo
    (WxUserLogin.mk (UserID result) (RobotID result) (UserToken result)
       (UserWxID result) (UserNickName result) 0 0 0 0 0 0 0 0)
    (WxRobotConfig.mk (RobotID result) (RobotAddress result)
       (RobotAdminKey result) 0 "" "" 0 0).

(** [results[i]]; an index outside the slice is a run-time panic. *)
Definition index {A : Type} (results : list A) (i : Z) : result A :=
  if i <? 0 then Err (ErrMsg "panic: index out of range")
  else match nth_error results (Z.to_nat i) with
       | Some x => Ok x
       | None => Err (ErrMsg "panic: index out of range")
       end.

(** [GetMessageBot] of either policy: the selected bot and the strategy
    instance after the call.  [%] is Go's truncated remainder;
    [rand.Intn n] is the next draw of the source reduced into [0, n). *)
Definition GetMessageBot (s : MessageSendStrategy) (env : Env) (db : DB)
  (groupId : string) : result MessageBotInfo * MessageSendStrategy :=
  match queryMessageBots env db groupId with
  | Err err => (Err err, s)
  | Ok results =>
      let n := Z.of_nat (List.length results) in
      match s with
      | RoundRobinMessageSendStrategy currentIndex =>
          let selectedIndex := Z.rem currentIndex n in
          let s' := RoundRobinMessageSendStrategy (Z.rem (currentIndex + 1) n) in
          match index results selectedIndex with
          | Ok r => (Ok (buildMessageBotInfo r), s')
          | Err e => (Err e, s')
          end
      | RandomMessageSendStrategy =>
          let selectedIndex := Z.modulo (rand_Int63 env) n in
          match index results selectedIndex with
          | Ok r => (Ok (buildMessageBotInfo r), s)
          | Err e => (Err e, s)
          end
      end
  end.

Definition GetMessageBotByStrategy (env : Env) (db : DB) (groupId : string)
  (strategy : MessageSendStrategy) : result MessageBotInfo * MessageSendStrategy :=
  GetMessageBot strategy env db groupId.

(** [k] consecutive selections for the same group against the same store:
    the answers in call order and the strategy instance left behind. *)
Fixpoint select_many (k : nat) (s : MessageSendStrategy) (env : Env) (db : DB)
  (groupId : string) : list (result MessageBotInfo) * MessageSendStrategy :=
  match k with
  | O => ([], s)
  | S k' =>
      let (r, s1) := GetMessageBot s env db groupId in
      let (rs, s2) := select_many k' s1 env db groupId in
      (r :: rs, s2)
  end.

(* ===================================================================== *)
(** ** Outbound sends (wx_client.go) *)
(* ===================================================================== *)

(** Go's string concatenation. *)
Notation "a +++ b" := (String.append a b) (at level 60, right associativity).

(** [%d] of an [int]. *)
Definition itoa (n : Z) : string := NilZero.string_of_int (Z.to_int n).

(** SendText: decided by the first item of [Data] alone. *)
Definition SendText (env : Env) (robotAddress authKey : string)
  (req : SendTextRequest) : result SendTextResponse :=
  match http_SendTextMessage env robotAddress authKey req with
  | NetworkFailure d => Err (ErrMsg ("SendText 发送HTTP请求失败: " +++ d))
  | MalformedBody d => Err (ErrMsg ("SendText 解析响应数据失败: " +++ d))
  | Parsed rawResponse =>
      match SendTextMessageRawResponse.Data rawResponse with
      | [] => Err (ErrMsg "SendText 发送文本消息失败: 无响应数据")
      | firstResult :: _ =>
          if negb (SendTextMessageRawResponse.IsSendSuccess firstResult)
          then Err (ErrMsg "SendText 发送文本消息失败: 发送状态为失败")
          else
            match SendTextMessageRawResponse.Resp firstResult with
            | None => Err (ErrMsg "SendText 发送文本消息失败: 响应数据不完整")
            | Some resp =>
                if negb (SendTextMessageRawResponse.BaseResponseRet resp =? 0)
                then
                  let errMsg := SendTextMessageRawResponse.BaseResponseErrMsg resp in
                  let errMsg := if String.eqb errMsg "" then "未知错误" else errMsg in
                  Err (ErrMsg ("SendText 发送文本消息失败: " +++ errMsg))
                else
                  match SendTextMessageRawResponse.ChatSendRetList resp with
                  | [] => Err (ErrMsg "SendText 发送文本消息失败: 无发送结果数据")
                  | sendRet :: _ =>
                      if negb (SendTextMessageRawResponse.Ret sendRet =? 0)
                      then Err (ErrMsg ("SendText 发送文本消息失败: 发送结果状态码 "
                                        +++ itoa (SendTextMessageRawResponse.Ret sendRet)))
                      else
                        Ok (mkSendTextResponse
                              (SendTextMessageRawResponse.RetToUserName sendRet)
                              (SendTextMessageRawResponse.ClientMsgId sendRet)
                              (SendTextMessageRawResponse.CreateTime sendRet)
                              (SendTextMessageRawResponse.NewMsgId sendRet))
                  end
            end
      end
  end.

(** SendImage: decided by the first item of [Data] alone. *)
Definition SendImage (env : Env) (robotAddress authKey : string)
  (req : SendImageRequest) : result SendImageResponse :=
  match http_SendImageNewMessage env robotAddress authKey req with
  | NetworkFailure d => Err (ErrMsg ("发送HTTP请求失败: " +++ d))
  | MalformedBody d => Err (ErrMsg ("解析响应数据失败: " +++ d))
  | Parsed rawResponse =>
      match SendImageNewMessageRawResponse.Data rawResponse with
      | [] => Err (ErrMsg "发送图片消息失败: 无响应数据")
      | firstResult :: _ =>
          if negb (String.eqb (SendImageNewMessageRawResponse.ErrMsg firstResult) "")
          then Err (ErrMsg ("发送图片消息失败: "
                            +++ SendImageNewMessageRawResponse.ErrMsg firstResult))
          else
            match SendImageNewMessageRawResponse.Resp firstResult with
            | None => Err (ErrMsg "发送图片消息失败: 响应数据不完整")
            | Some resp =>
                if negb (SendImageNewMessageRawResponse.BaseResponseRet resp =? 0)
                then
                  let errMsg := SendImageNewMessageRawResponse.BaseResponseErrMsg resp in
                  let errMsg := if String.eqb errMsg "" then "未知错误" else errMsg in
                  Err (ErrMsg ("发送图片消息失败: " +++ errMsg))
                else
                  Ok (mkSendImageResponse
                        (SendImageNewMessageRawResponse.MsgId resp)
                        (SendImageNewMessageRawResponse.FromUserName resp)
                        (SendImageNewMessageRawResponse.RespToUserName resp)
                        (SendImageNewMessageRawResponse.CreateTime resp)
                        (SendImageNewMessageRawResponse.NewMsgId resp))
            end
      end
  end.

(** The error of an optional send: nil when the send was not attempted. *)
Definition send_error {A : Type} (attempted : bool) (r : result A) : option error :=
  if attempted then match r with Ok _ => None | Err e => Some e end else None.

(** SendTextAndImage: both sends are attempted whenever their content is
    present; the outcome is reported in the response, the error stays nil
    unless both contents are empty. *)
Definition SendTextAndImage (env : Env) (robotAddress authKey : string)
  (req : SendTextAndImageRequest) : reply SendTextAndImageResponse :=
  let hasText := negb (String.eqb (TextContent req) "") in
  let hasImage := negb (String.eqb (ImageContent req) "") in
  if negb hasText && negb hasImage then
    Failed (Some (mkSendTextAndImageResponse false "文本内容和图片内容不能都为空"))
           (ErrMsg "SendTextAndImage 文本内容和图片内容不能都为空")
  else
    let textErr :=
      send_error hasText
        (SendText env robotAddress authKey
           (mkSendTextRequest (TextContent req) (ToUserName req))) in
    let imageErr :=
      send_error hasImage
        (SendImage env robotAddress authKey
           (mkSendImageRequest (ImageContent req) (ToUserName req))) in
    let success0 := true in
    let failureReasons0 : list string := [] in
    let (success1, failureReasons1) :=
      match textErr with
      | Some e =>
          if hasText
          then (false, failureReasons0 ++ [("文本消息发送失败: " +++ Error e)%string])
          else (success0, failureReasons0)
      | None => (success0, failureReasons0)
      end in
    let (success, failureReasons) :=
      match imageErr with
      | Some e =>
          if hasImage
          then (false, failureReasons1 ++ [("图片消息发送失败: " +++ Error e)%string])
          else (success1, failureReasons1)
      | None => (success1, failureReasons1)
      end in
    let message :=
      if success then "消息发送成功" else String.concat "; " failureReasons in
    Done (mkSendTextAndImageResponse success message).

(* ===================================================================== *)
(** ** The sendTextAndImage HTTP handler (router) *)
(* ===================================================================== *)

(** The [data] member of the handler's JSON answer. *)
Inductive ResponseData : Type :=
| NoData
| TextAndImageData (resp : SendTextAndImageResponse).

Record APIResponse : Type := mkAPIResponse {
  api_Code : Z;
  api_Message : string;
  api_Data : ResponseData
}.

(** What [c.JSON(status, body)] writes. *)
Record HttpResponse : Type := mkHttpResponse {
  StatusCode : Z;
  Body : APIResponse
}.

Definition successResponse (message : string) (data : ResponseData) : HttpResponse :=
  mkHttpResponse 200 (mkAPIResponse 0 message data).

Definition errorResponse (statusCode : Z) (message : string) : HttpResponse :=
  mkHttpResponse statusCode (mkAPIResponse (-1) message NoData).

Definition badRequestResponse (message : string) : HttpResponse :=
  errorResponse 400 message.
Definition notFoundResponse (message : string) : HttpResponse :=
  errorResponse 404 message.
Definition internalErrorResponse (message : string) : HttpResponse :=
  errorResponse 500 message.

(** The decoded JSON body of a send-text-image request. *)
Record sendTextAndImageBody : Type := mkBody {
  text_content : string;
  image_content : string;
  to_user_name : string
}.

(** [c.ShouldBindJSON(&req)]: a body that is not JSON, or an empty
    [to_user_name] (tag [binding:"required"]), is a binding error. *)
Definition ShouldBindJSON (body : HttpReply sendTextAndImageBody)
  : result sendTextAndImageBody :=
  match body with
  | NetworkFailure d => Err (ErrMsg d)
  | MalformedBody d => Err (ErrMsg d)
  | Parsed req =>
      if String.eqb (to_user_name req) ""
      then Err (ErrMsg "Key: 'ToUserName' Error:Field validation for 'ToUserName' failed on the 'required' tag")
      else Ok req
  end.

(** The handler: the JSON answer written, and the router's strategy
    instance after the request. *)
Definition sendTextAndImage (env : Env) (db : DB)
  (messageSendStrategy : MessageSendStrategy)
  (body : HttpReply sendTextAndImageBody) : HttpResponse * MessageSendStrategy :=
  match ShouldBindJSON body with
  | Err err => (badRequestResponse ("参数错误: " +++ Error err), messageSendStrategy)
  | Ok req =>
      if String.eqb (text_content req) "" && String.eqb (image_content req) ""
      then (badRequestResponse "文本内容和图片内容不能都为空", messageSendStrategy)
      else
        match GetMessageBotByStrategy env db (to_user_name req) messageSendStrategy with
        | (Err _, s') => (notFoundResponse "未找到对应的消息机器人", s')
        | (Ok botInfo, s') =>
            let sendReq := mkSendTextAndImageRequest (text_content req)
                             (image_content req) (to_user_name req) in
            match SendTextAndImage env (WxRobotConfig.Address (Robot botInfo))
                                   (WxUserLogin.Token (User botInfo)) sendReq with
            | Failed _ err =>
                (internalErrorResponse ("发送文字和图片失败: " +++ Error err), s')
            | Done resp =>
                (successResponse "消息发送完成" (TextAndImageData resp), s')
            end
        end
  end.

(* ===================================================================== *)
(** ** Specification-side vocabulary *)
(* ===================================================================== *)

(** An environment in which storage never fails and every external call
    is answered by the given replies. *)
Definition quiet_env (clock : Z)
  (alias : string -> string -> HttpReply CheckCanSetAliasResponse.t)
  (init : string -> string -> HttpReply GetInitStatusResponse.t)
  (groups : string -> string -> HttpReply GroupListResponse.t) : Env :=
  mkEnv clock (fun _ => false) alias init groups
        (fun _ _ _ => NetworkFailure "connection refused")
        (fun _ _ _ => NetworkFailure "connection refused")
        0.

Definition offline_env (clock : Z) : Env :=
  quiet_env clock (fun _ _ => NetworkFailure "connection refused")
            (fun _ _ => NetworkFailure "connection refused")
            (fun _ _ => NetworkFailure "connection refused").

(** The row of primary key [id], if any. *)
Definition user_by_id (id : Z) (db : DB) : option WxUserLogin.t :=
  find (fun u => WxUserLogin.ID u =? id) (wx_user_logins db).

Definition user_ids (db : DB) : list Z := map WxUserLogin.ID (wx_user_logins db).
Definition group_ids (db : DB) : list Z := map WxGroup.ID (wx_groups db).

(** Sample rows used to exercise the definitions. *)
Definition robot1 : WxRobotConfig.t :=
  WxRobotConfig.mk 1 "http://10.0.0.1:8080" "admin" 7 "" "" 100 100.

Definition session (id : Z) (wxId nick : string) (status initialized : Z)
  : WxUserLogin.t :=
  WxUserLogin.mk id 1 ("tok-" +++ wxId) wxId nick 900 0 900 status initialized 1 100 100.

Definition group_row (id : Z) (wxId groupId nick : string) : WxGroup.t :=
  WxGroup.mk id wxId groupId nick 100 100.

Definition listed (groupId nick : string) : GroupListResponse.group :=
  GroupListResponse.mkGroup groupId nick "".

Definition group_list_reply (code : Z) (gs : list GroupListResponse.group)
  : HttpReply GroupListResponse.t :=
  Parsed (GroupListResponse.mk code gs true (Z.of_nat (List.length gs)) "").

Definition rr_db : DB :=
  mkDB [robot1]
       [session 1 "wx_a" "A" 1 1; session 2 "wx_b" "B" 1 1; session 3 "wx_c" "C" 1 1]
       [group_row 1 "wx_a" "g@chatroom" "G"; group_row 2 "wx_b" "g@chatroom" "G";
        group_row 3 "wx_c" "g@chatroom" "G"]
       4 4.

(** What SendText requires of the decoded envelope: its first item is
    flagged sent, carries a [resp] whose base response has [ret = 0], and
    the first entry of [chat_send_ret_list] has [ret = 0]. *)
Definition text_accepted (raw : SendTextMessageRawResponse.t) : Prop :=
  exists first others resp sendRet rets,
    SendTextMessageRawResponse.Data raw = first :: others
    /\ SendTextMessageRawResponse.IsSendSuccess first = true
    /\ SendTextMessageRawResponse.Resp first = Some resp
    /\ SendTextMessageRawResponse.BaseResponseRet resp = 0
    /\ SendTextMessageRawResponse.ChatSendRetList resp = sendRet :: rets
    /\ SendTextMessageRawResponse.Ret sendRet = 0.

(** What SendImage requires: the first item has no error message and
    carries a [resp] whose base response has [ret = 0]. *)
Definition image_accepted (raw : SendImageNewMessageRawResponse.t) : Prop :=
  exists first others resp,
    SendImageNewMessageRawResponse.Data raw = first :: others
    /\ SendImageNewMessageRawResponse.ErrMsg first = ""
    /\ SendImageNewMessageRawResponse.Resp first = Some resp
    /\ SendImageNewMessageRawResponse.BaseResponseRet resp = 0.

Definition image_flagged_sent (raw : SendImageNewMessageRawResponse.t) : Prop :=
  exists first others,
    SendImageNewMessageRawResponse.Data raw = first :: others
    /\ SendImageNewMessageRawResponse.IsSendSuccess first = true.

Definition is_ok {A : Type} (r : result A) : Prop := exists a, r = Ok a.

(** A text envelope with application code 500 around a well-formed,
    accepted first item. *)
Definition text_reply_500 : SendTextMessageRawResponse.t :=
  SendTextMessageRawResponse.mk 500 "internal error"
    [SendTextMessageRawResponse.mkItem true "hi" "g@chatroom"
       (Some (SendTextMessageRawResponse.mkResp 0 "" 1
                [SendTextMessageRawResponse.mkRet 0 "g@chatroom" 11 12 13 14 15]))].

Definition env_text_500 : Env :=
  mkEnv 5 (fun _ => false)
        (fun _ _ => NetworkFailure "connection refused")
        (fun _ _ => NetworkFailure "connection refused")
        (fun _ _ => NetworkFailure "connection refused")
        (fun _ _ _ => Parsed text_reply_500)
        (fun _ _ _ => NetworkFailure "connection refused")
        0.

(** The errors of the two sends of a combined request (nil for a send
    that is not attempted), and the failure reasons in the order the code
    appends them. *)
Definition text_send_error (env : Env) (robotAddress authKey : string)
  (req : SendTextAndImageRequest) : option error :=
  send_error (negb (String.eqb (TextContent req) ""))
    (SendText env robotAddress authKey
       (mkSendTextRequest (TextContent req) (ToUserName req))).

Definition image_send_error (env : Env) (robotAddress authKey : string)
  (req : SendTextAndImageRequest) : option error :=
  send_error (negb (String.eqb (ImageContent req) ""))
    (SendImage env robotAddress authKey
       (mkSendImageRequest (ImageContent req) (ToUserName req))).

Definition failure_reasons (env : Env) (robotAddress authKey : string)
  (req : SendTextAndImageRequest) : list string :=
  match text_send_error env robotAddress authKey req with
  | Some e => ["文本消息发送失败: " +++ Error e]
  | None => []
  end
  ++
  match image_send_error env robotAddress authKey req with
  | Some e => ["图片消息发送失败: " +++ Error e]
  | None => []
  end.

(** The row a login-status tick writes for a session that must log in
    again. *)
Definition relogin_row (env : Env) (u : WxUserLogin.t) : WxUserLogin.t :=
  WxUserLogin.with_UpdateTime (now env) (WxUserLogin.with_Status 3 u).

(** How the login-status loop disposes of one session, read off the loop
    body: which counter it bumps. *)
Inductive LoginOutcome : Type := StillValid | MustRelogin | Errored.

Definition LoginOutcome_eqb (a b : LoginOutcome) : bool :=
  match a, b with
  | StillValid, StillValid | MustRelogin, MustRelogin | Errored, Errored => true
  | _, _ => false
  end.

Definition login_outcome (env : Env) (db : DB) (user : WxUserLogin.t)
  : LoginOutcome :=
  match GetRobotByID env db (WxUserLogin.RobotID user) with
  | Err _ => Errored
  | Ok robot =>
      match CheckCanSetAlias env (WxRobotConfig.Address robot)
                             (WxUserLogin.Token user) with
      | Failed _ _ => Errored
      | Done resp =>
          if CheckCanSetAliasResponse.Code resp =? 300 then
            if fault env (UpdateStatusColumn (WxUserLogin.ID user))
            then Errored else MustRelogin
          else StillValid
      end
  end.

Definition count_outcome (o : LoginOutcome) (env : Env) (db : DB)
  (users : list WxUserLogin.t) : Z :=
  Z.of_nat (List.length
              (filter (fun u => LoginOutcome_eqb (login_outcome env db u) o) users)).



(** What a scheduler may do to a session row: keep its identity and its
    message-bot flag, leave the status or set it to 3, leave
    [is_initialized] or set it to 1. *)
Definition lifecycle_kept (u u' : WxUserLogin.t) : Prop :=
  WxUserLogin.ID u' = WxUserLogin.ID u
  /\ WxUserLogin.RobotID u' = WxUserLogin.RobotID u
  /\ WxUserLogin.WxID u' = WxUserLogin.WxID u
  /\ WxUserLogin.IsMessageBot u' = WxUserLogin.IsMessageBot u
  /\ (WxUserLogin.Status u' = WxUserLogin.Status u \/ WxUserLogin.Status u' = 3)
  /\ (WxUserLogin.IsInitialized u' = WxUserLogin.IsInitialized u
      \/ WxUserLogin.IsInitialized u' = 1).

Definition sessions_kept (db db' : DB) : Prop :=
  Forall2 lifecycle_kept (wx_user_logins db) (wx_user_logins db').

(** The rows a whole pass over [users] rewrites: those whose primary key
    is the key of a session of [users] that must log in again. *)
Definition relogin_pass (env : Env) (db : DB) (users : list WxUserLogin.t)
  (row : WxUserLogin.t) : WxUserLogin.t :=
  if existsb (fun u => LoginOutcome_eqb (login_outcome env db u) MustRelogin
                       && (WxUserLogin.ID u =? WxUserLogin.ID row)) users
  then relogin_row env row else row.

Definition add_outcomes (env : Env) (db : DB) (users : list WxUserLogin.t)
  (t : LoginTally) : LoginTally :=
  mkLoginTally (login_successCount t + count_outcome StillValid env db users)
               (login_errorCount t + count_outcome Errored env db users)
               (login_reloginCount t + count_outcome MustRelogin env db users).

(** A tick in which session 1 answers code 300 and session 2 code 200. *)
Definition env_relogin : Env :=
  quiet_env 50
    (fun _ token =>
       Parsed (CheckCanSetAliasResponse.mk
                 (if String.eqb token "tok-wx_a" then 300 else 200) [] ""))
    (fun _ _ => NetworkFailure "connection refused")
    (fun _ _ => NetworkFailure "connection refused").

Definition db_two_sessions : DB :=
  mkDB [robot1] [session 1 "wx_a" "A" 1 1; session 2 "wx_b" "B" 1 1] [] 3 1.



(** The row the first save of a fresh session inserts. *)
Definition inserted_user (env : Env) (db : DB) (user : WxUserLogin.t)
  : WxUserLogin.t :=
  WxUserLogin.with_ID (users_auto_increment db)
    (WxUserLogin.with_Status
       (if WxUserLogin.Status user =? 0 then 1 else WxUserLogin.Status user)
       (WxUserLogin.with_CreateTime
          (if WxUserLogin.CreateTime user =? 0
           then now env else WxUserLogin.CreateTime user)
          (WxUserLogin.with_UpdateTime
             (if WxUserLogin.UpdateTime user =? 0
              then now env else WxUserLogin.UpdateTime user)
             user))).

(** The row a later save of the same pair leaves: the fields of the new
    request, the primary key and creation time of the stored row. *)
Definition overwritten_user (env : Env) (stored user : WxUserLogin.t)
  : WxUserLogin.t :=
  WxUserLogin.with_UpdateTime (now env)
    (WxUserLogin.with_CreateTime (WxUserLogin.CreateTime stored)
       (WxUserLogin.with_ID (WxUserLogin.ID stored) user)).

Definition db_one_session : DB :=
  mkDB [robot1] [session 1 "wx_a" "A" 1 1] [] 2 1.

Definition fresh_login (nick : string) (token : string) : WxUserLogin.t :=
  WxUserLogin.mk 0 1 token "wx_z" nick 900 0 900 1 0 0 0 0.

(** A group row keeps its identity: primary key, natural key, creation
    time. *)
Definition same_identity (r r' : WxGroup.t) : Prop :=
  WxGroup.ID r' = WxGroup.ID r
  /\ WxGroup.WxID r' = WxGroup.WxID r
  /\ WxGroup.GroupID r' = WxGroup.GroupID r
  /\ WxGroup.CreateTime r' = WxGroup.CreateTime r.

(** Primary keys of [wx_groups] are unique, positive and behind the
    AUTO_INCREMENT counter. *)
Definition groups_wf (db : DB) : Prop :=
  0 < groups_auto_increment db
  /\ NoDup (group_ids db)
  /\ Forall (fun g => 0 < WxGroup.ID g < groups_auto_increment db) (wx_groups db).

(** The effect of upserting the group ids [S] for session [X]: every old
    row survives with its identity, rows of other sessions survive
    unchanged, every row is an old row or a new row of [X] for an id of
    [S] with a key the counter had not issued, and every id of [S] has a
    row of [X]. *)
Definition evolves (X : string) (S : list string) (db db' : DB) : Prop :=
  groups_wf db ->
  groups_wf db'
  /\ wx_robot_configs db' = wx_robot_configs db
  /\ wx_user_logins db' = wx_user_logins db
  /\ groups_auto_increment db <= groups_auto_increment db'
  /\ (forall r, In r (wx_groups db) ->
        exists r', In r' (wx_groups db') /\ same_identity r r'
                   /\ (WxGroup.WxID r <> X -> r' = r))
  /\ (forall r', In r' (wx_groups db') ->
        (exists r, In r (wx_groups db) /\ same_identity r r')
        \/ (WxGroup.WxID r' = X /\ In (WxGroup.GroupID r') S
            /\ groups_auto_increment db <= WxGroup.ID r'))
  /\ (forall gid, In gid S ->
        exists r', In r' (wx_groups db') /\ WxGroup.WxID r' = X
                   /\ WxGroup.GroupID r' = gid).

(** The rows [DeleteGroupsByWxIDNotInList wxID groupIDs] keeps. *)
Definition kept_by_delete (wxID : string) (groupIDs : list string) (g : WxGroup.t)
  : bool :=
  negb (String.eqb (WxGroup.WxID g) wxID
        && negb (existsb (String.eqb (WxGroup.GroupID g)) groupIDs)).



(** What any processing of session [X] leaves in place: well-formedness,
    the robots, the counter's monotonicity, the rows of other sessions. *)
Definition frame_for (X : string) (db db' : DB) : Prop :=
  groups_wf db'
  /\ wx_robot_configs db' = wx_robot_configs db
  /\ groups_auto_increment db <= groups_auto_increment db'
  /\ (forall r, WxGroup.WxID r <> X ->
        (In r (wx_groups db') <-> In r (wx_groups db))).

(** Session wx_a persists groups A, B, C; its group list answers B, C, D;
    session wx_b's call answers code 500. *)
Definition env_bcd : Env :=
  quiet_env 70
    (fun _ _ => NetworkFailure "connection refused")
    (fun _ _ => NetworkFailure "connection refused")
    (fun _ token =>
       if String.eqb token "tok-wx_a"
       then group_list_reply 200 [listed "gB" "B"; listed "gC" "C2"; listed "gD" "D"]
       else group_list_reply 500 []).

Definition db_abc : DB :=
  mkDB [robot1]
       [session 1 "wx_a" "A" 1 1; session 2 "wx_b" "B" 1 1]
       [group_row 1 "wx_a" "gA" "A"; group_row 2 "wx_a" "gB" "B";
        group_row 3 "wx_a" "gC" "C"; group_row 4 "wx_b" "gZ" "Z"]
       3 5.

(* ===================================================================== *)
(** ** Further vocabulary: selection, upserts, ticks *)
(* ===================================================================== *)

(** The rows the eligible-bot query joins for group [groupId]: a group row
    of that id, a session of the same wxId that is normal, flagged as
    message bot and without security risk, and the session's robot. *)
Definition eligible (db : DB) (groupId : string)
  (g : WxGroup.t) (u : WxUserLogin.t) (r : WxRobotConfig.t) : Prop :=
  In g (wx_groups db) /\ In u (wx_user_logins db) /\ In r (wx_robot_configs db)
  /\ WxGroup.GroupID g = groupId
  /\ WxGroup.WxID g = WxUserLogin.WxID u
  /\ WxUserLogin.Status u = 1
  /\ WxUserLogin.IsMessageBot u = 1
  /\ WxUserLogin.HasSecurityRisk u = 0
  /\ WxUserLogin.RobotID u = WxRobotConfig.ID r.

(** The columns the query selects from a joined pair. *)
Definition selected_columns (u : WxUserLogin.t) (r : WxRobotConfig.t)
  : messageBotQueryResult :=
  mkQueryResult (WxUserLogin.ID u) (WxUserLogin.Token u) (WxUserLogin.WxID u)
                (WxUserLogin.NickName u) (WxRobotConfig.ID r)
                (WxRobotConfig.Address r) (WxRobotConfig.AdminKey r).

(** A strategy instance whose cursor, if it has one, is not negative. *)
Definition cursor_ok (s : MessageSendStrategy) : Prop :=
  match s with
  | RoundRobinMessageSendStrategy currentIndex => 0 <= currentIndex
  | RandomMessageSendStrategy => True
  end.

(** Selections for a sequence of requests, each against its own
    environment, store and group: the answers in order and the strategy
    instance left behind. *)
Fixpoint select_each (calls : list (Env * DB * string)) (s : MessageSendStrategy)
  : list (result MessageBotInfo) * MessageSendStrategy :=
  match calls with
  | [] => ([], s)
  | (env, db, groupId) :: rest =>
      let (r, s1) := GetMessageBot s env db groupId in
      let (rs, s2) := select_each rest s1 in
      (r :: rs, s2)
  end.

(** A selection answers the query's error or one of the query's rows. *)
Definition answers_query (call : Env * DB * string) (r : result MessageBotInfo)
  : Prop :=
  match queryMessageBots (fst (fst call)) (snd (fst call)) (snd call) with
  | Err e => r = Err e
  | Ok candidates => exists c, In c candidates /\ r = Ok (buildMessageBotInfo c)
  end.

(** Every old group row is still there, with its identity. *)
Definition groups_kept (db db' : DB) : Prop :=
  forall r, In r (wx_groups db) ->
    exists r', In r' (wx_groups db') /\ same_identity r r'.

(** Session wx_a lists B, C, D; the insert of D fails in storage. *)
Definition env_insert_fails : Env :=
  mkEnv 70
        (fun op => match op with
                   | InsertGroup _ groupId => String.eqb groupId "gD"
                   | _ => false
                   end)
        (fun _ _ => NetworkFailure "connection refused")
        (fun _ _ => NetworkFailure "connection refused")
        (fun _ _ => group_list_reply 200
                      [listed "gB" "B"; listed "gC" "C2"; listed "gD" "D"])
        (fun _ _ _ => NetworkFailure "connection refused")
        (fun _ _ _ => NetworkFailure "connection refused")
        0.

(** The row the initialization job writes for a session it marks. *)
Definition initialized_row (env : Env) (u : WxUserLogin.t) : WxUserLogin.t :=
  WxUserLogin.with_UpdateTime (now env) (WxUserLogin.with_IsInitialized 1 u).

(** What the initialization job may do to a session row: leave it, or mark
    it when its id is one of [ids]. *)
Definition init_marks (env : Env) (ids : list Z) (u u' : WxUserLogin.t) : Prop :=
  u' = u \/ (In (WxUserLogin.ID u) ids /\ u' = initialized_row env u).

(** Session wx_a is active and not yet initialized; its robot reports the
    initialization complete and lists group B. *)
Definition env_init_ready : Env :=
  quiet_env 80
    (fun _ _ => NetworkFailure "connection refused")
    (fun _ _ => Parsed (GetInitStatusResponse.mk 200 true ""))
    (fun _ _ => group_list_reply 200 [listed "gB" "B"]).

Definition db_uninitialized : DB :=
  mkDB [robot1]
       [session 1 "wx_a" "A" 1 0; session 2 "wx_b" "B" 1 1]
       [group_row 4 "wx_b" "gZ" "Z"]
       3 5.

(** No active session (status 1) carries the wxId [X]. *)
Definition no_active_session (X : string) (db : DB) : Prop :=
  forall u, In u (wx_user_logins db) -> WxUserLogin.Status u = 1 ->
            WxUserLogin.WxID u <> X.

(** Session wx_a has been sent to re-login; wx_b is active. *)
Definition db_relogin_pending : DB :=
  mkDB [robot1]
       [session 1 "wx_a" "A" 3 1; session 2 "wx_b" "B" 1 1]
       [group_row 1 "wx_a" "gA" "A"; group_row 2 "wx_a" "gB" "B";
        group_row 3 "wx_a" "gC" "C"; group_row 4 "wx_b" "gZ" "Z"]
       3 5.

(* ===================================================================== *)
(** ** Further handlers of the router (database.go) *)
(* ===================================================================== *)

(** What a handler writes with [successResponse] / [errorResponse] when
    its [data] member has type [D]: HTTP status, [code], [message] and
    [data] ([nil] on an error answer). *)
Record Answer (D : Type) : Type := mkAnswer {
  answer_Status : Z;
  answer_Code : Z;
  answer_Message : string;
  answer_Data : option D
}.
Arguments mkAnswer {D} _ _ _ _.
Arguments answer_Status {D} _.
Arguments answer_Code {D} _.
Arguments answer_Message {D} _.
Arguments answer_Data {D} _.

(** [rm.successResponse], [rm.errorResponse] and its three callers. *)
Definition respondSuccess {D : Type} (message : string) (data : D) : Answer D :=
  mkAnswer 200 0 message (Some data).

Definition respondError {D : Type} (statusCode : Z) (message : string) : Answer D :=
  mkAnswer statusCode (-1) message None.

Definition respondBadRequest {D : Type} (message : string) : Answer D :=
  respondError 400 message.
Definition respondNotFound {D : Type} (message : string) : Answer D :=
  respondError 404 message.
Definition respondInternalError {D : Type} (message : string) : Answer D :=
  respondError 500 message.

(** The validator's message for the fields that fail [binding:"required"],
    one line per field, in the order of the struct. *)
Definition required_failed (field : string) : string :=
  "Key: '" +++ field +++ "' Error:Field validation for '" +++ field
  +++ "' failed on the 'required' tag".

Definition newline : string := String (Ascii.ascii_of_nat 10) EmptyString.

Definition required_fields (fields : list (string * string)) : option error :=
  match filter (fun f => String.eqb (snd f) "") fields with
  | [] => None
  | missing => Some (ErrMsg (String.concat newline
                               (map (fun f => required_failed (fst f)) missing)))
  end.

(** [c.ShouldBindJSON(&req)] for a body whose string fields are all
    [binding:"required"]. *)
Definition bindRequired {B : Type} (fields : B -> list (string * string))
  (body : HttpReply B) : result B :=
  match body with
  | NetworkFailure d => Err (ErrMsg d)
  | MalformedBody d => Err (ErrMsg d)
  | Parsed req =>
      match required_fields (fields req) with
      | Some err => Err err
      | None => Ok req
      end
  end.

Module SendTextBody.
Record t : Type := mk {
  text_content : string;
  to_user_name : string
}.
Definition fields (req : t) : list (string * string) :=
  [("TextContent", text_content req); ("ToUserName", to_user_name req)].
End SendTextBody.

Module SendImageBody.
Record t : Type := mk {
  image_content : string;
  to_user_name : string
}.
Definition fields (req : t) : list (string * string) :=
  [("ImageContent", image_content req); ("ToUserName", to_user_name req)].
End SendImageBody.

(** The sendText handler: the JSON answer written, and the router's
    strategy instance after the request. *)
Definition sendText (env : Env) (db : DB)
  (messageSendStrategy : MessageSendStrategy)
  (body : HttpReply SendTextBody.t)
  : Answer SendTextResponse * MessageSendStrategy :=
  match bindRequired SendTextBody.fields body with
  | Err err => (respondBadRequest ("参数错误: " +++ Error err), messageSendStrategy)
  | Ok req =>
      match GetMessageBotByStrategy env db (SendTextBody.to_user_name req)
                                    messageSendStrategy with
      | (Err _, s') => (respondNotFound "未找到对应的消息机器人", s')
      | (Ok botInfo, s') =>
          let sendReq := mkSendTextRequest (SendTextBody.text_content req)
                                           (SendTextBody.to_user_name req) in
          match SendText env (WxRobotConfig.Address (Robot botInfo))
                         (WxUserLogin.Token (User botInfo)) sendReq with
          | Err err =>
              (respondInternalError ("发送文本消息失败: " +++ Error err), s')
          | Ok resp => (respondSuccess "文本消息发送成功" resp, s')
          end
      end
  end.

(** The sendImage handler. *)
Definition sendImage (env : Env) (db : DB)
  (messageSendStrategy : MessageSendStrategy)
  (body : HttpReply SendImageBody.t)
  : Answer SendImageResponse * MessageSendStrategy :=
  match bindRequired SendImageBody.fields body with
  | Err err => (respondBadRequest ("参数错误: " +++ Error err), messageSendStrategy)
  | Ok req =>
      match GetMessageBotByStrategy env db (SendImageBody.to_user_name req)
                                    messageSendStrategy with
      | (Err _, s') => (respondNotFound "未找到对应的消息机器人", s')
      | (Ok botInfo, s') =>
          let sendReq := mkSendImageRequest (SendImageBody.image_content req)
                                            (SendImageBody.to_user_name req) in
          match SendImage env (WxRobotConfig.Address (Robot botInfo))
                          (WxUserLogin.Token (User botInfo)) sendReq with
          | Err err =>
              (respondInternalError ("发送图片消息失败: " +++ Error err), s')
          | Ok resp => (respondSuccess "图片消息发送成功" resp, s')
          end
      end
  end.

(** The setMessageStrategy handler; the answer's data is the map
    [{"strategy": req.Strategy}], given by its one value. *)
Definition setMessageStrategy (messageSendStrategy : MessageSendStrategy)
  (body : HttpReply string) : Answer string * MessageSendStrategy :=
  match bindRequired (fun strategy => [("Strategy", strategy)]) body with
  | Err err => (respondBadRequest ("参数错误: " +++ Error err), messageSendStrategy)
  | Ok strategy =>
      if String.eqb strategy "round_robin"
      then (respondSuccess "策略设置成功" strategy, NewRoundRobinMessageSendStrategy)
      else if String.eqb strategy "random"
      then (respondSuccess "策略设置成功" strategy, NewRandomMessageSendStrategy)
      else (respondBadRequest "无效的策略类型，支持: round_robin, random",
            messageSendStrategy)
  end.

(** The robot accepts every picture. *)
Definition image_reply_ok : SendImageNewMessageRawResponse.t :=
  SendImageNewMessageRawResponse.mk 200 ""
    [SendImageNewMessageRawResponse.mkItem "" "img-1" true "g@chatroom"
       (Some (SendImageNewMessageRawResponse.mkResp 0 "" 11 "wx_a" "g@chatroom" 7 12))].

Definition env_image_ok : Env :=
  mkEnv 5 (fun _ => false)
        (fun _ _ => NetworkFailure "connection refused")
        (fun _ _ => NetworkFailure "connection refused")
        (fun _ _ => NetworkFailure "connection refused")
        (fun _ _ _ => NetworkFailure "connection refused")
        (fun _ _ _ => Parsed image_reply_ok)
        0.

(** [time.Hour]: times and durations are counted in nanoseconds. *)
Definition Hour : Z := 3600 * 1000000000.

(** The validator's message for the zero fields of a named struct that
    are [binding:"required"]. *)
Definition required_failed_in (structName field : string) : string :=
  "Key: '" +++ structName +++ "." +++ field +++ "' Error:Field validation for '"
  +++ field +++ "' failed on the 'required' tag".

Definition required_nonzero (structName : string) (fields : list (string * bool))
  : option error :=
  match filter snd fields with
  | [] => None
  | missing =>
      Some (ErrMsg (String.concat newline
                      (map (fun f => required_failed_in structName (fst f)) missing)))
  end.

Record SaveUserRequest : Type := mkSaveUserRequest {
  req_RobotID : Z;
  req_Token : string;
  req_WxID : string;
  req_NickName : string;
  req_HasSecurityRisk : Z;
  req_IsMessageBot : Z
}.

(** [c.ShouldBindJSON(&req)] for a [SaveUserRequest]: [robot_id], [token]
    and [wx_id] are required. *)
Definition bindSaveUserRequest (body : HttpReply SaveUserRequest)
  : result SaveUserRequest :=
  match body with
  | NetworkFailure d => Err (ErrMsg d)
  | MalformedBody d => Err (ErrMsg d)
  | Parsed req =>
      match required_nonzero "SaveUserRequest"
              [("RobotID", req_RobotID req =? 0);
               ("Token", String.eqb (req_Token req) "");
               ("WxID", String.eqb (req_WxID req) "")] with
      | Some err => Err err
      | None => Ok req
      end
  end.

(** SaveUser once more, this time with what it leaves in the caller's
    struct when it succeeds (the handler answers with that struct). *)
Definition SaveUser_written (env : Env) (db : DB) (user : WxUserLogin.t)
  : result WxUserLogin.t * DB :=
  if fault env (QueryUserByKey (WxUserLogin.RobotID user) (WxUserLogin.WxID user))
  then (Err ErrStorage, db)
  else
    match first_by WxUserLogin.ID
            (user_key_is (WxUserLogin.RobotID user) (WxUserLogin.WxID user))
            (wx_user_logins db) with
    | Some existingUser =>
        let user1 := WxUserLogin.with_ID (WxUserLogin.ID existingUser) user in
        let user2 := WxUserLogin.with_CreateTime
                       (WxUserLogin.CreateTime existingUser) user1 in
        let user3 := WxUserLogin.with_UpdateTime (now env) user2 in
        save_user env db user3
    | None => create_user env db user
    end.

(** The risk the saveUser handler records: the request's own value when
    it is not 0; else 1 when the alias probe succeeds and reports a check
    that did not pass; else 0. *)
Definition probed_risk (env : Env) (robot : WxRobotConfig.t) (req : SaveUserRequest)
  : Z :=
  let hasRisk := req_HasSecurityRisk req in
  if hasRisk =? 0 then
    match CheckCanSetAlias env (WxRobotConfig.Address robot) (req_Token req) with
    | Done riskResp =>
        if existsb (fun result => negb (CheckCanSetAliasResponse.IsPass result))
                   (CheckCanSetAliasResponse.Results riskResp)
        then 1 else hasRisk
    | Failed _ _ => hasRisk
    end
  else hasRisk.

(** The saveUser handler: the JSON answer and the store it leaves. *)
Definition saveUser (env : Env) (db : DB) (body : HttpReply SaveUserRequest)
  : Answer WxUserLogin.t * DB :=
  match bindSaveUserRequest body with
  | Err err => (respondBadRequest ("参数错误: " +++ Error err), db)
  | Ok req =>
      match GetRobotByID env db (req_RobotID req) with
      | Err _ => (respondNotFound "关联的机器人不存在", db)
      | Ok robot =>
          let hasRisk := probed_risk env robot req in
          let user :=
            WxUserLogin.mk 0 (req_RobotID req) (req_Token req) (req_WxID req)
              (req_NickName req) (now env + 24 * Hour * 365) hasRisk
              (now env + 24 * Hour * 365) 1 0 (req_IsMessageBot req) 0 0 in
          match SaveUser_written env db user with
          | (Err _, db') => (respondInternalError "保存用户数据失败", db')
          | (Ok written, db') => (respondSuccess "保存成功" written, db')
          end
      end
  end.

(* ===================================================================== *)
(** ** Further statements and calls *)
(* ===================================================================== *)

(** Statements of gateway functions outside the three jobs. *)
Inductive DbOpX : Type :=
| QueryUserByID (id : Z)
| UpdateMessageBotColumn (id : Z)
| QueryUserByToken (robotId : Z) (token : string).

Module CheckLoginStatusResponse.
Record t : Type := mk {
  Code : Z;
  State : Z;                      (* Data.state *)
  WxID : string;                  (* Data.wxid *)
  NickName : string;              (* Data.nick_name *)
  Text : string
}.
End CheckLoginStatusResponse.

(** What a bare [GET url] of the health probe comes to: the request could
    not be built, the round trip failed, or an answer with a status code. *)
Inductive ProbeReply : Type :=
| RequestNotBuilt (detail : string)
| RoundTripFailed (detail : string)
| Answered (statusCode : Z).

(** The environment of a request to one of the further handlers: the
    environment of the core, the faults of the further statements, and
    the further calls. *)
Record EnvX : Type := mkEnvX {
  core : Env;
  faultX : DbOpX -> bool;
  http_CheckLoginStatus :
    string -> string -> HttpReply CheckLoginStatusResponse.t;
  http_Get : string -> ProbeReply
}.

(** [strconv.ParseUint(s, 10, bitSize)]: decimal digits only, at least
    one, and a value below [2^bitSize]. *)
Definition digit_value (c : Ascii.ascii) : option Z :=
  let n := Z.of_nat (Ascii.nat_of_ascii c) in
  if (48 <=? n) && (n <=? 57) then Some (n - 48) else None.

Fixpoint parse_digits (s : string) (acc : Z) : option Z :=
  match s with
  | EmptyString => Some acc
  | String c rest =>
      match digit_value c with
      | Some d => parse_digits rest (10 * acc + d)
      | None => None
      end
  end.

Definition ParseUint (s : string) (bitSize : Z) : result Z :=
  match s with
  | EmptyString => Err (ErrMsg "invalid syntax")
  | _ =>
      match parse_digits s 0 with
      | None => Err (ErrMsg "invalid syntax")
      | Some n => if n <? 2 ^ bitSize then Ok n
                  else Err (ErrMsg "value out of range")
      end
  end.

(** The client's CheckLoginStatus: codes 200 and 300 are both regular
    answers. *)
Definition WxAPIClient_CheckLoginStatus (envx : EnvX) (robotAddress authKey : string)
  : reply CheckLoginStatusResponse.t :=
  match http_CheckLoginStatus envx robotAddress authKey with
  | NetworkFailure d => Failed None (ErrTransport d)
  | MalformedBody d => Failed None (ErrUnmarshal d)
  | Parsed resp =>
      if negb (CheckLoginStatusResponse.Code resp =? 200)
         && negb (CheckLoginStatusResponse.Code resp =? 300)
      then Failed (Some resp) (ErrAPI (CheckLoginStatusResponse.Text resp))
      else Done resp
  end.

Record LoginStatusResponse : Type := mkLoginStatusResponse {
  login_Status : Z;
  login_WxID : string;
  login_NickName : string;
  login_Message : string
}.

(** The checkLoginStatus handler, called with the path parameters. *)
Definition checkLoginStatus (envx : EnvX) (db : DB) (robotIdStr token : string)
  : Answer LoginStatusResponse :=
  if String.eqb robotIdStr "" || String.eqb token ""
  then respondBadRequest "robotId和token不能为空"
  else
    match ParseUint robotIdStr 32 with
    | Err _ => respondBadRequest "robotId参数错误"
    | Ok robotId =>
        match GetRobotByID (core envx) db robotId with
        | Err _ => respondNotFound "机器人不存在"
        | Ok robot =>
            match WxAPIClient_CheckLoginStatus envx (WxRobotConfig.Address robot)
                                               token with
            | Failed _ err =>
                respondInternalError ("检查登录状态失败: " +++ Error err)
            | Done loginResp =>
                let status :=
                  if CheckLoginStatusResponse.Code loginResp =? 200 then
                    if CheckLoginStatusResponse.State loginResp =? 2
                    then mkLoginStatusResponse 2
                           (CheckLoginStatusResponse.WxID loginResp)
                           (CheckLoginStatusResponse.NickName loginResp)
                           "登录成功"
                    else mkLoginStatusResponse 0 "" "" "二维码已过期或不存在"
                  else if CheckLoginStatusResponse.Code loginResp =? 300
                  then mkLoginStatusResponse 0 "" "" "二维码已过期或不存在"
                  else mkLoginStatusResponse 3 "" "" "检查登录状态失败" in
                respondSuccess "检查成功" status
            end
        end
    end.

Definition with_IsMessageBot (v : Z) (u : WxUserLogin.t) : WxUserLogin.t :=
  WxUserLogin.mk (WxUserLogin.ID u) (WxUserLogin.RobotID u) (WxUserLogin.Token u)
    (WxUserLogin.WxID u) (WxUserLogin.NickName u) (WxUserLogin.ExtensionTime u)
    (WxUserLogin.HasSecurityRisk u) (WxUserLogin.ExpirationTime u)
    (WxUserLogin.Status u) (WxUserLogin.IsInitialized u) v
    (WxUserLogin.CreateTime u) (WxUserLogin.UpdateTime u).

(** UpdateMessageBotStatus: the session is looked up first, a missing one
    is an error; then the one column is written. *)
Definition UpdateMessageBotStatus (envx : EnvX) (db : DB) (userID : Z)
  (isMessageBot : Z) : option error * DB :=
  if faultX envx (QueryUserByID userID) then (Some ErrStorage, db)
  else
    match first_by WxUserLogin.ID (fun u => WxUserLogin.ID u =? userID)
                   (wx_user_logins db) with
    | None => (Some ErrRecordNotFound, db)
    | Some _ =>
        if faultX envx (UpdateMessageBotColumn userID) then (Some ErrStorage, db)
        else
          (None,
           set_users (update_where_id WxUserLogin.ID userID
                        (fun u => WxUserLogin.with_UpdateTime (now (core envx))
                                    (with_IsMessageBot isMessageBot u))
                        (wx_user_logins db)) db)
    end.

(** The data of a successful updateMessageBotStatus answer: the map
    [{"id": ..., "is_message_bot": ...}]. *)
Record MessageBotStatusData : Type := mkMessageBotStatusData {
  data_id : Z;
  data_is_message_bot : Z
}.

(** The updateMessageBotStatus handler, called with the path parameter
    and the decoded body (its one field, not required). *)
Definition updateMessageBotStatus (envx : EnvX) (db : DB) (id : string)
  (body : HttpReply Z) : Answer MessageBotStatusData * DB :=
  if String.eqb id "" then (respondBadRequest "ID不能为空", db)
  else
    match ParseUint id 32 with
    | Err _ => (respondBadRequest "ID格式错误", db)
    | Ok parsedId =>
        match body with
        | NetworkFailure d => (respondBadRequest ("参数错误: " +++ d), db)
        | MalformedBody d => (respondBadRequest ("参数错误: " +++ d), db)
        | Parsed isMessageBot =>
            if negb (isMessageBot =? 0) && negb (isMessageBot =? 1)
            then (respondBadRequest "is_message_bot参数必须为0或1", db)
            else
              match UpdateMessageBotStatus envx db parsedId isMessageBot with
              | (Some _, db') =>
                  (respondInternalError "更新消息机器人状态失败", db')
              | (None, db') =>
                  (respondSuccess "更新成功"
                     (mkMessageBotStatusData parsedId isMessageBot), db')
              end
        end
    end.

(** CheckRobotHealth: an address without scheme is probed over http. *)
Definition CheckRobotHealth (envx : EnvX) (robotAddress : string) : result bool :=
  let robotAddress :=
    if negb (String.prefix "http://" robotAddress)
       && negb (String.prefix "https://" robotAddress)
    then "http://" +++ robotAddress else robotAddress in
  match http_Get envx robotAddress with
  | RequestNotBuilt d => Err (ErrMsg ("创建请求失败: " +++ d))
  | RoundTripFailed d => Err (ErrMsg ("请求失败: " +++ d))
  | Answered statusCode => Ok (statusCode =? 200)
  end.

(** The data of a checkRobotHealth answer, without its [response_time]
    (a formatted duration). *)
Record RobotHealthData : Type := mkRobotHealthData {
  health_status : string;
  health_address : string;
  health_error : option string
}.

(** The checkRobotHealth handler; its unhealthy answers carry data too. *)
Definition checkRobotHealth (envx : EnvX) (db : DB) (id : string)
  : Answer RobotHealthData :=
  if String.eqb id "" then respondBadRequest "机器人ID不能为空"
  else
    match ParseUint id 32 with
    | Err _ => respondBadRequest "机器人ID格式错误"
    | Ok robotId =>
        match GetRobotByID (core envx) db robotId with
        | Err _ => respondNotFound "机器人不存在"
        | Ok robot =>
            match CheckRobotHealth envx (WxRobotConfig.Address robot) with
            | Err err =>
                mkAnswer 503 (-1) ("机器人不健康: " +++ Error err)
                  (Some (mkRobotHealthData "unhealthy" (WxRobotConfig.Address robot)
                           (Some (Error err))))
            | Ok isHealthy =>
                if negb isHealthy
                then mkAnswer 503 (-1) "机器人不健康"
                       (Some (mkRobotHealthData "unhealthy"
                                (WxRobotConfig.Address robot) None))
                else respondSuccess "机器人健康"
                       (mkRobotHealthData "healthy" (WxRobotConfig.Address robot) None)
            end
        end
    end.

(** The row UpdateMessageBotStatus writes for a session. *)
Definition message_bot_row (envx : EnvX) (isMessageBot : Z) (u : WxUserLogin.t)
  : WxUserLogin.t :=
  WxUserLogin.with_UpdateTime (now (core envx)) (with_IsMessageBot isMessageBot u).

(** The url CheckRobotHealth probes for an address. *)
Definition probe_url (robotAddress : string) : string :=
  if negb (String.prefix "http://" robotAddress)
     && negb (String.prefix "https://" robotAddress)
  then "http://" +++ robotAddress else robotAddress.

(* ===================================================================== *)
(** ** Bill list (wxRobotService.GetBillList and its handler) *)
(* ===================================================================== *)


Module WxBillInfo.
Record t : Type := mk {
  ID : Z;
  GroupName : string;
  GroupID : string;
  Dollar : string;
  Rate : string;
  Amount : string;
  Remark : string;
  Operator : string;
  MsgTime : Z;
  Status : string;
  OwnerID : Z;
  CreateTime : Z;
  UpdateTime : Z
}.
End WxBillInfo.


























Definition with_Expiry (newExpiry : Z) (u : WxUserLogin.t) : WxUserLogin.t :=
  WxUserLogin.mk (WxUserLogin.ID u) (WxUserLogin.RobotID u) (WxUserLogin.Token u)
    (WxUserLogin.WxID u) (WxUserLogin.NickName u) newExpiry
    (WxUserLogin.HasSecurityRisk u) newExpiry
    (WxUserLogin.Status u) (WxUserLogin.IsInitialized u) (WxUserLogin.IsMessageBot u)
    (WxUserLogin.CreateTime u) (WxUserLogin.UpdateTime u).

(** UpdateUserExtension: the session of the robot and token gets the new
    expiry written into [extension_time] and [expiration_time]; a lookup
    that fails, for whatever reason, makes the function return nil. *)
Definition UpdateUserExtension (envx : EnvX) (db : DB) (robotId : Z)
  (token : string) (newExpiry : Z) : option error * DB :=
  if faultX envx (QueryUserByToken robotId token) then (None, db)
  else
    match first_by WxUserLogin.ID
            (fun u => (WxUserLogin.RobotID u =? robotId)
                      && String.eqb (WxUserLogin.Token u) token)
            (wx_user_logins db) with
    | Some user =>
        let user := with_Expiry newExpiry user in
        match save_user (core envx) db user with
        | (Err err, db') => (Some err, db')
        | (Ok _, db') => (None, db')
        end
    | None => (None, db)
    end.

(** Primary keys of [wx_user_logins] are unique and positive. *)
Definition users_wf (db : DB) : Prop :=
  NoDup (user_ids db) /\ Forall (fun u => 0 < WxUserLogin.ID u) (wx_user_logins db).

(** The row a successful extension leaves for a session. *)
Definition extended_row (envx : EnvX) (newExpiry : Z) (u : WxUserLogin.t)
  : WxUserLogin.t :=
  WxUserLogin.with_UpdateTime (now (core envx)) (with_Expiry newExpiry u).

Definition envx_quiet (env : Env) : EnvX :=
  mkEnvX env (fun _ => false)
         (fun _ _ => NetworkFailure "connection refused")
         (fun _ => RoundTripFailed "connection refused").

(** What the sendText handler answers once the request [req] is bound and
    the candidate [c] is selected. *)
Definition text_answer_through (env : Env) (c : messageBotQueryResult)
  (req : SendTextBody.t) : Answer SendTextResponse :=
  match SendText env (RobotAddress c) (UserToken c)
          (mkSendTextRequest (SendTextBody.text_content req)
                             (SendTextBody.to_user_name req)) with
  | Ok resp => respondSuccess "文本消息发送成功" resp
  | Err err => respondInternalError ("发送文本消息失败: " +++ Error err)
  end.





(* ===================================================================== *)
(** * Properties *)
(* ===================================================================== *)

(** ** Lookups *)

Lemma first_by_In {A : Type} (key : A -> Z) (p : A -> bool) (rows : list A) x :
  first_by key p rows = Some x -> In x rows /\ p x = true.
Proof.
  revert x; induction rows as [|a rows IH]; simpl; intros x H; [discriminate|].
  destruct (p a) eqn:Hp.
  - destruct (first_by key p rows) as [y|] eqn:Hf.
    + destruct (key y <? key a); inversion H; subst.
      * destruct (IH _ eq_refl); auto.
      * auto.
    + inversion H; subst; auto.
  - destruct (IH _ H); auto.
Qed.

Lemma first_by_None {A : Type} (key : A -> Z) (p : A -> bool) (rows : list A) :
  first_by key p rows = None <-> (forall x, In x rows -> p x = false).
Proof.
  induction rows as [|a rows IH]; simpl.
  - split; [intros _ x []|reflexivity].
  - destruct (p a) eqn:Hp.
    + split.
      * destruct (first_by key p rows) as [y|]; [destruct (key y <? key a)|]; discriminate.
      * intros H. rewrite (H a) in Hp by auto. discriminate.
    + rewrite IH. split.
      * intros H x [->|Hx]; auto.
      * intros H x Hx; auto.
Qed.

Lemma first_by_found {A : Type} (key : A -> Z) (p : A -> bool) (rows : list A) x :
  In x rows -> p x = true -> exists y, first_by key p rows = Some y.
Proof.
  intros Hin Hp. destruct (first_by key p rows) as [y|] eqn:Hf; [eauto|].
  rewrite first_by_None in Hf. rewrite (Hf x Hin) in Hp. discriminate.
Qed.

(** ** C5: intake of the initialization job *)

(** C5 (amended).  When the intake query does not fail, the sessions the
    initialization tick processes are exactly the persisted sessions with
    [is_initialized = 0] and [status = 1]: the query filters on the status
    as well, and the tick folds [processUser] over that list. *)
Theorem C5_initialization_intake (env : Env) (db : DB) :
  fault env QueryUninitializedUsers = false ->
  exists users,
    getUninitializedUsers env db = Ok users
    /\ (forall u, In u users <->
                  In u (wx_user_logins db)
                  /\ WxUserLogin.IsInitialized u = 0
                  /\ WxUserLogin.Status u = 1)
    /\ CheckInitializationStatus env db =
       (None, fold_left (fun d user => snd (processUser env d user)) users db).
Proof.
  intros Hf. unfold CheckInitializationStatus, getUninitializedUsers, GetUninitializedUsers.
  rewrite Hf. eexists. split; [reflexivity|]. split.
  - intros u. rewrite filter_In, andb_true_iff, !Z.eqb_eq. tauto.
  - destruct (filter _ _) as [|u us] eqn:E; simpl; [reflexivity|].
    replace (Z.pos (Pos.of_succ_nat (List.length us)) =? 0) with false; [reflexivity|].
    symmetry. apply Z.eqb_neq. lia.
Qed.

Lemma C5_initialization_intake_witness :
  exists users,
    getUninitializedUsers (offline_env 5)
      (mkDB [robot1] [session 1 "wx_a" "A" 1 0; session 2 "wx_b" "B" 3 0] [] 3 1)
    = Ok users
    /\ (forall u, In u users <->
                  In u [session 1 "wx_a" "A" 1 0; session 2 "wx_b" "B" 3 0]
                  /\ WxUserLogin.IsInitialized u = 0
                  /\ WxUserLogin.Status u = 1)
    /\ CheckInitializationStatus (offline_env 5)
         (mkDB [robot1] [session 1 "wx_a" "A" 1 0; session 2 "wx_b" "B" 3 0] [] 3 1)
       = (None, fold_left (fun d user => snd (processUser (offline_env 5) d user)) users
                  (mkDB [robot1] [session 1 "wx_a" "A" 1 0; session 2 "wx_b" "B" 3 0] [] 3 1)).
Proof.
  apply (C5_initialization_intake (offline_env 5)
           (mkDB [robot1] [session 1 "wx_a" "A" 1 0; session 2 "wx_b" "B" 3 0] [] 3 1)).
  reflexivity.
Defined.

(** C5 as stated fails: a session with [is_initialized = 0] whose status is
    3 (needs re-login) is persisted, yet the intake is empty. *)
Lemma C5_intake_filters_on_status :
  In (session 2 "wx_b" "B" 3 0)
     (wx_user_logins (mkDB [robot1] [session 2 "wx_b" "B" 3 0] [] 3 1))
  /\ WxUserLogin.IsInitialized (session 2 "wx_b" "B" 3 0) = 0
  /\ getUninitializedUsers (offline_env 5)
       (mkDB [robot1] [session 2 "wx_b" "B" 3 0] [] 3 1) = Ok [].
Proof. repeat split; simpl; auto. Qed.

(** ** C7: round-robin selection *)

Lemma index_middle {A : Type} (pre suf : list A) (x : A) :
  index (pre ++ x :: suf) (Z.of_nat (List.length pre)) = Ok x.
Proof.
  unfold index.
  destruct (Z.of_nat (List.length pre) <? 0) eqn:E; [apply Z.ltb_lt in E; lia|].
  rewrite Nat2Z.id, nth_error_app2, Nat.sub_diag by lia. reflexivity.
Qed.

Lemma select_many_app (a b : nat) s env db groupId :
  select_many (a + b) s env db groupId =
  let (r1, s1) := select_many a s env db groupId in
  let (r2, s2) := select_many b s1 env db groupId in
  (r1 ++ r2, s2).
Proof.
  revert s; induction a as [|a IH]; intros s; simpl.
  - destruct (select_many b s env db groupId); reflexivity.
  - destruct (GetMessageBot s env db groupId) as [r s1].
    rewrite IH. destruct (select_many a s1 env db groupId) as [r1 s2].
    destruct (select_many b s2 env db groupId); reflexivity.
Qed.

Section RoundRobin.
Variables (env : Env) (db : DB) (groupId : string).
Variable candidates : list messageBotQueryResult.
Hypothesis Hquery : queryMessageBots env db groupId = Ok candidates.

Lemma round_robin_step (pre suf : list messageBotQueryResult) x :
  candidates = pre ++ x :: suf ->
  GetMessageBot (RoundRobinMessageSendStrategy (Z.of_nat (List.length pre)))
                env db groupId =
  (Ok (buildMessageBotInfo x),
   RoundRobinMessageSendStrategy
     (match suf with [] => 0 | _ => Z.of_nat (List.length (pre ++ [x])) end)).
Proof.
  intros Hc. unfold GetMessageBot. rewrite Hquery.
  assert (HN : Z.of_nat (List.length candidates) =
               Z.of_nat (List.length pre) + 1 + Z.of_nat (List.length suf)).
  { rewrite Hc, length_app. simpl. lia. }
  rewrite HN.
  rewrite Z.rem_small by lia.
  replace (index candidates (Z.of_nat (List.length pre))) with (Ok x)
    by (rewrite Hc; symmetry; apply index_middle).
  f_equal. f_equal. destruct suf as [|y suf'].
  - simpl. rewrite Z.add_0_r. apply Z.rem_same. lia.
  - rewrite Z.rem_small by (simpl List.length; lia).
    rewrite length_app. simpl. lia.
Qed.

Lemma round_robin_sweep (suf pre : list messageBotQueryResult) :
  candidates = pre ++ suf -> suf <> [] ->
  select_many (List.length suf)
    (RoundRobinMessageSendStrategy (Z.of_nat (List.length pre))) env db groupId =
  (map (fun c => Ok (buildMessageBotInfo c)) suf, RoundRobinMessageSendStrategy 0).
Proof.
  revert pre; induction suf as [|x suf IH]; intros pre Hc Hne; [congruence|].
  simpl select_many. rewrite (round_robin_step pre suf x Hc).
  destruct suf as [|y suf'].
  - reflexivity.
  - rewrite IH.
    + reflexivity.
    + rewrite <- app_assoc. exact Hc.
    + discriminate.
Qed.
End RoundRobin.

(** C7.  For a fixed candidate list of size N (the eligible-bot query
    answers the same non-empty list at every call), N consecutive
    selections of a fresh round-robin strategy return the candidates once
    each in index order, selection N+1 returns candidate 0 again, and a
    selection with cursor [c >= 0] picks [candidates[c % N]]. *)
Theorem C7_round_robin_fairness (env : Env) (db : DB) (groupId : string)
  (candidates : list messageBotQueryResult) :
  queryMessageBots env db groupId = Ok candidates ->
  exists c0 rest,
    candidates = c0 :: rest
    /\ fst (select_many (List.length candidates) NewRoundRobinMessageSendStrategy
              env db groupId)
       = map (fun c => Ok (buildMessageBotInfo c)) candidates
    /\ fst (select_many (List.length candidates + 1) NewRoundRobinMessageSendStrategy
              env db groupId)
       = map (fun c => Ok (buildMessageBotInfo c)) candidates
         ++ [Ok (buildMessageBotInfo c0)]
    /\ forall cursor, 0 <= cursor ->
         fst (GetMessageBot (RoundRobinMessageSendStrategy cursor) env db groupId)
         = Ok (buildMessageBotInfo
                 (nth (Z.to_nat (cursor mod Z.of_nat (List.length candidates)))
                      candidates c0)).
Proof.
  intros Hq.
  destruct candidates as [|c0 rest] eqn:Hc.
  { unfold queryMessageBots in Hq. destruct (fault env _); [discriminate|].
    destruct (Z.of_nat _ =? 0) eqn:E; [discriminate|].
    injection Hq as Hq. rewrite Hq in E. discriminate. }
  rewrite <- Hc in *. exists c0, rest. split; [assumption|].
  assert (Hsweep :
    select_many (List.length candidates) NewRoundRobinMessageSendStrategy env db groupId
    = (map (fun c => Ok (buildMessageBotInfo c)) candidates,
       RoundRobinMessageSendStrategy 0)).
  { apply (@round_robin_sweep env db groupId candidates Hq candidates []); [reflexivity|].
    rewrite Hc; discriminate. }
  split; [rewrite Hsweep; reflexivity|]. split.
  - rewrite select_many_app, Hsweep. simpl select_many.
    pose proof (@round_robin_step env db groupId candidates Hq [] rest c0 Hc) as Hstep.
    cbn [List.length Z.of_nat] in Hstep. rewrite Hstep. reflexivity.
  - intros cursor Hcur. unfold GetMessageBot. rewrite Hq.
    set (n := Z.of_nat (List.length candidates)).
    assert (Hn : 0 < n) by (unfold n; rewrite Hc; simpl List.length; lia).
    rewrite Z.rem_mod_nonneg by lia.
    pose proof (Z.mod_pos_bound cursor n Hn) as Hb.
    unfold index. destruct (cursor mod n <? 0) eqn:E; [apply Z.ltb_lt in E; lia|].
    destruct (nth_error candidates (Z.to_nat (cursor mod n))) as [x|] eqn:En.
    + simpl. f_equal. f_equal. symmetry. apply nth_error_nth. exact En.
    + apply nth_error_None in En. unfold n in *. lia.
Qed.

Lemma C7_round_robin_fairness_witness :
  exists cs c0 rest,
    queryMessageBots (offline_env 5) rr_db "g@chatroom" = Ok cs
    /\ cs = c0 :: rest
    /\ List.length cs = 3%nat
    /\ fst (select_many (List.length cs + 1) NewRoundRobinMessageSendStrategy
              (offline_env 5) rr_db "g@chatroom")
       = map (fun c => Ok (buildMessageBotInfo c)) cs ++ [Ok (buildMessageBotInfo c0)].
Proof.
  destruct (queryMessageBots (offline_env 5) rr_db "g@chatroom") as [cs|e] eqn:Hq;
    [|vm_compute in Hq; discriminate].
  destruct (C7_round_robin_fairness (offline_env 5) rr_db "g@chatroom" cs Hq)
    as (c0 & rest & Hc & _ & Hn1 & _).
  exists cs, c0, rest. repeat split; try assumption.
  vm_compute in Hq. injection Hq as <-. reflexivity.
Defined.

(** ** C8: when an outbound send succeeds *)

Lemma SendText_ok_iff env robotAddress authKey req :
  is_ok (SendText env robotAddress authKey req) <->
  exists raw,
    http_SendTextMessage env robotAddress authKey req = Parsed raw
    /\ text_accepted raw.
Proof.
  unfold SendText, is_ok, text_accepted. split.
  - intros [a H].
    destruct (http_SendTextMessage env robotAddress authKey req) as [d|d|raw];
      try discriminate.
    exists raw. split; [reflexivity|].
    destruct (SendTextMessageRawResponse.Data raw) as [|first others]; [discriminate|].
    destruct (SendTextMessageRawResponse.IsSendSuccess first) eqn:Hs; [|discriminate].
    destruct (SendTextMessageRawResponse.Resp first) as [resp|] eqn:Hresp; [|discriminate].
    simpl in H.
    destruct (SendTextMessageRawResponse.BaseResponseRet resp =? 0) eqn:Hr;
      [|discriminate].
    destruct (SendTextMessageRawResponse.ChatSendRetList resp) as [|sendRet rets] eqn:Hl;
      [discriminate|].
    simpl in H.
    destruct (SendTextMessageRawResponse.Ret sendRet =? 0) eqn:Hr2; [|discriminate].
    apply Z.eqb_eq in Hr, Hr2.
    exists first, others, resp, sendRet, rets. repeat split; auto.
  - intros (raw & Hraw & first & others & resp & sendRet & rets
            & Hd & Hs & Hresp & Hr & Hl & Hr2).
    rewrite Hraw, Hd, Hs, Hresp. simpl. rewrite Hr, Hl. simpl. rewrite Hr2. simpl.
    eexists; reflexivity.
Qed.

Lemma SendImage_ok_iff env robotAddress authKey req :
  is_ok (SendImage env robotAddress authKey req) <->
  exists raw,
    http_SendImageNewMessage env robotAddress authKey req = Parsed raw
    /\ image_accepted raw.
Proof.
  unfold SendImage, is_ok, image_accepted. split.
  - intros [a H].
    destruct (http_SendImageNewMessage env robotAddress authKey req) as [d|d|raw];
      try discriminate.
    exists raw. split; [reflexivity|].
    destruct (SendImageNewMessageRawResponse.Data raw) as [|first others];
      [discriminate|].
    destruct (String.eqb (SendImageNewMessageRawResponse.ErrMsg first) "") eqn:He;
      [|discriminate].
    destruct (SendImageNewMessageRawResponse.Resp first) as [resp|] eqn:Hresp; [|discriminate].
    simpl in H.
    destruct (SendImageNewMessageRawResponse.BaseResponseRet resp =? 0) eqn:Hr;
      [|discriminate].
    apply String.eqb_eq in He. apply Z.eqb_eq in Hr.
    exists first, others, resp. repeat split; auto.
  - intros (raw & Hraw & first & others & resp & Hd & He & Hresp & Hr).
    rewrite Hraw, Hd, He, Hresp. simpl. rewrite Hr. simpl. eexists; reflexivity.
Qed.

(** C8 (amended).  SendText returns success exactly when the body decodes
    and the first data item has [isSendSuccess], a [resp] with
    [base_response.ret = 0] and a first [chat_send_ret_list] entry with
    [ret = 0]; SendImage returns success only when the body decodes and the
    first data item has an empty [errMsg] and a [resp] with
    [baseResponse.ret = 0], and does return success when in addition the
    item is flagged [isSendSuccess].  The envelope [Code] is consulted by
    neither: two answers that differ in [Code] alone give the same
    result. *)
Theorem C8_send_success_conditions (env : Env) (robotAddress authKey : string)
  (treq : SendTextRequest) (ireq : SendImageRequest) :
  (is_ok (SendText env robotAddress authKey treq) <->
   exists raw,
     http_SendTextMessage env robotAddress authKey treq = Parsed raw
     /\ text_accepted raw)
  /\ (is_ok (SendImage env robotAddress authKey ireq) ->
      exists raw,
        http_SendImageNewMessage env robotAddress authKey ireq = Parsed raw
        /\ image_accepted raw)
  /\ (forall raw,
        http_SendImageNewMessage env robotAddress authKey ireq = Parsed raw ->
        image_accepted raw -> image_flagged_sent raw ->
        is_ok (SendImage env robotAddress authKey ireq))
  /\ (forall env' code code' text data,
        http_SendTextMessage env robotAddress authKey treq
        = Parsed (SendTextMessageRawResponse.mk code text data) ->
        http_SendTextMessage env' robotAddress authKey treq
        = Parsed (SendTextMessageRawResponse.mk code' text data) ->
        SendText env robotAddress authKey treq
        = SendText env' robotAddress authKey treq)
  /\ (forall env' code code' text data,
        http_SendImageNewMessage env robotAddress authKey ireq
        = Parsed (SendImageNewMessageRawResponse.mk code text data) ->
        http_SendImageNewMessage env' robotAddress authKey ireq
        = Parsed (SendImageNewMessageRawResponse.mk code' text data) ->
        SendImage env robotAddress authKey ireq
        = SendImage env' robotAddress authKey ireq).
Proof.
  split; [apply SendText_ok_iff|].
  split; [apply SendImage_ok_iff|].
  split.
  - intros raw Hraw Hacc _. apply SendImage_ok_iff. eauto.
  - split; intros env' code code' text data H H'.
    + unfold SendText. rewrite H, H'. reflexivity.
    + unfold SendImage. rewrite H, H'. reflexivity.
Qed.

(** C8 as stated fails: with envelope [Code = 500] SendText still returns
    success. *)
Lemma C8_text_success_despite_code_500 :
  http_SendTextMessage env_text_500 "http://10.0.0.1:8080" "tok"
    (mkSendTextRequest "hi" "g@chatroom") = Parsed text_reply_500
  /\ SendTextMessageRawResponse.Code text_reply_500 <> 200
  /\ SendText env_text_500 "http://10.0.0.1:8080" "tok"
       (mkSendTextRequest "hi" "g@chatroom")
     = Ok (mkSendTextResponse "g@chatroom" 12 13 15).
Proof. repeat split. discriminate. Qed.

(** ** C9: the combined text-and-image send *)

Lemma SendTextAndImage_report env robotAddress authKey req :
  TextContent req <> "" \/ ImageContent req <> "" ->
  SendTextAndImage env robotAddress authKey req =
  Done (mkSendTextAndImageResponse
          (match text_send_error env robotAddress authKey req,
                 image_send_error env robotAddress authKey req with
           | None, None => true
           | _, _ => false
           end)
          (match text_send_error env robotAddress authKey req,
                 image_send_error env robotAddress authKey req with
           | None, None => "消息发送成功"
           | _, _ => String.concat "; " (failure_reasons env robotAddress authKey req)
           end)).
Proof.
  intros Hne. unfold SendTextAndImage, failure_reasons, text_send_error,
    image_send_error.
  destruct (String.eqb (TextContent req) "") eqn:Et;
    destruct (String.eqb (ImageContent req) "") eqn:Ei; simpl negb; simpl andb.
  - apply String.eqb_eq in Et, Ei. tauto.
  - cbn [send_error]. destruct (SendImage _ _ _ _); reflexivity.
  - cbn [send_error]. destruct (SendText _ _ _ _); reflexivity.
  - cbn [send_error]. destruct (SendText _ _ _ _); destruct (SendImage _ _ _ _);
      reflexivity.
Qed.

(** C9 (amended).  For a well-formed request with some content and a
    resolved bot, if the text send or the image send fails, then
    SendTextAndImage returns a nil error together with a response whose
    [Success] is false and whose [Message] joins the reason of every failed
    send, and the handler answers HTTP 200 with code 0 and message
    "send completed", carrying that response as data; no error status is
    written. *)
Theorem C9_combined_send_failure_report (env : Env) (db : DB)
  (strategy strategy' : MessageSendStrategy)
  (body : HttpReply sendTextAndImageBody) (req : sendTextAndImageBody)
  (botInfo : MessageBotInfo) :
  ShouldBindJSON body = Ok req ->
  text_content req <> "" \/ image_content req <> "" ->
  GetMessageBotByStrategy env db (to_user_name req) strategy = (Ok botInfo, strategy') ->
  let address := WxRobotConfig.Address (Robot botInfo) in
  let token := WxUserLogin.Token (User botInfo) in
  let sendReq := mkSendTextAndImageRequest (text_content req) (image_content req)
                                            (to_user_name req) in
  text_send_error env address token sendReq <> None
  \/ image_send_error env address token sendReq <> None ->
  let report := mkSendTextAndImageResponse false
                  (String.concat "; " (failure_reasons env address token sendReq)) in
  SendTextAndImage env address token sendReq = Done report
  /\ failure_reasons env address token sendReq <> []
  /\ sendTextAndImage env db strategy body =
     (mkHttpResponse 200 (mkAPIResponse 0 "消息发送完成" (TextAndImageData report)),
      strategy').
Proof.
  intros Hbind Hne Hbot address token sendReq Hfail report.
  assert (Hsend : SendTextAndImage env address token sendReq = Done report).
  { rewrite SendTextAndImage_report by exact Hne. unfold report.
    destruct (text_send_error env address token sendReq);
      destruct (image_send_error env address token sendReq);
      try reflexivity.
    destruct Hfail; congruence. }
  split; [exact Hsend|]. split.
  - unfold failure_reasons.
    destruct (text_send_error env address token sendReq);
      destruct (image_send_error env address token sendReq);
      try discriminate.
    destruct Hfail; congruence.
  - unfold sendTextAndImage. rewrite Hbind.
    replace (String.eqb (text_content req) "" && String.eqb (image_content req) "")
      with false.
    + rewrite Hbot. fold address token sendReq. rewrite Hsend. reflexivity.
    + symmetry. apply andb_false_iff.
      destruct Hne as [H|H]; [left|right]; apply String.eqb_neq; exact H.
Qed.

Lemma C9_combined_send_failure_report_witness :
  SendTextAndImage (offline_env 5) "http://10.0.0.1:8080" "tok-wx_a"
    (mkSendTextAndImageRequest "hi" "" "g@chatroom")
  = Done (mkSendTextAndImageResponse false
            "文本消息发送失败: SendText 发送HTTP请求失败: connection refused")
  /\ sendTextAndImage (offline_env 5) rr_db NewRoundRobinMessageSendStrategy
       (Parsed (mkBody "hi" "" "g@chatroom"))
     = (mkHttpResponse 200
          (mkAPIResponse 0 "消息发送完成"
             (TextAndImageData
                (mkSendTextAndImageResponse false
                   "文本消息发送失败: SendText 发送HTTP请求失败: connection refused"))),
        RoundRobinMessageSendStrategy 1).
Proof.
  assert (Hbind : ShouldBindJSON (Parsed (mkBody "hi" "" "g@chatroom"))
                  = Ok (mkBody "hi" "" "g@chatroom")) by reflexivity.
  assert (Hne : text_content (mkBody "hi" "" "g@chatroom") <> ""
                \/ image_content (mkBody "hi" "" "g@chatroom") <> "")
    by (left; discriminate).
  assert (Hbot : GetMessageBotByStrategy (offline_env 5) rr_db
                   (to_user_name (mkBody "hi" "" "g@chatroom"))
                   NewRoundRobinMessageSendStrategy
                 = (Ok (buildMessageBotInfo
                          (mkQueryResult 1 "tok-wx_a" "wx_a" "A" 1
                                         "http://10.0.0.1:8080" "admin")),
                    RoundRobinMessageSendStrategy 1)) by reflexivity.
  destruct (@C9_combined_send_failure_report (offline_env 5) rr_db
              NewRoundRobinMessageSendStrategy (RoundRobinMessageSendStrategy 1)
              (Parsed (mkBody "hi" "" "g@chatroom")) (mkBody "hi" "" "g@chatroom")
              _ Hbind Hne Hbot)
    as (Hsend & _ & Hhandler).
  - left. discriminate.
  - split; [exact Hsend | exact Hhandler].
Defined.

(** C9 as stated fails: the text send fails, yet SendTextAndImage returns
    no error and the handler writes its success envelope (HTTP 200,
    code 0). *)
Lemma C9_failed_send_answered_with_200 :
  SendText (offline_env 5) "http://10.0.0.1:8080" "tok-wx_a"
    (mkSendTextRequest "hi" "g@chatroom")
  = Err (ErrMsg "SendText 发送HTTP请求失败: connection refused")
  /\ (exists resp,
        SendTextAndImage (offline_env 5) "http://10.0.0.1:8080" "tok-wx_a"
          (mkSendTextAndImageRequest "hi" "" "g@chatroom") = Done resp)
  /\ StatusCode (fst (sendTextAndImage (offline_env 5) rr_db
                        NewRoundRobinMessageSendStrategy
                        (Parsed (mkBody "hi" "" "g@chatroom")))) = 200
  /\ api_Code (Body (fst (sendTextAndImage (offline_env 5) rr_db
                            NewRoundRobinMessageSendStrategy
                            (Parsed (mkBody "hi" "" "g@chatroom"))))) = 0.
Proof.
  split; [reflexivity|]. split; [eexists; reflexivity|]. split; reflexivity.
Qed.

(** ** C4: a non-200 group-list code during a group-sync tick *)

(** The client already turns every non-200 code into an error, so the
    scheduler's own non-200 branch is never taken: the session is counted
    as an error and the store is left as it was. *)
Lemma syncGroupsForUser_non200 env db user robot raw :
  GetRobotByID env db (WxUserLogin.RobotID user) = Ok robot ->
  http_GroupList env (WxRobotConfig.Address robot) (WxUserLogin.Token user)
  = Parsed raw ->
  GroupListResponse.Code raw <> 200 ->
  syncGroupsForUser env db user = (Some (ErrAPI (GroupListResponse.Text raw)), db).
Proof.
  intros Hr Hh Hc. unfold syncGroupsForUser, GetGroupList, isSuccess.
  rewrite Hr, Hh. apply Z.eqb_neq in Hc. rewrite Hc. reflexivity.
Qed.

(** C4 at a concrete input: one initialized session whose group-list call
    answers code 500 is tallied as an error (success 0, error 1). *)
Lemma C4_non200_tallied_as_error :
  SyncGroupsForAllUsers
    (quiet_env 5 (fun _ _ => NetworkFailure "connection refused")
                 (fun _ _ => NetworkFailure "connection refused")
                 (fun _ _ => group_list_reply 500 []))
    (mkDB [robot1] [session 1 "wx_a" "A" 1 1] [group_row 1 "wx_a" "g1@chatroom" "G1"] 2 2)
  = (None,
     mkDB [robot1] [session 1 "wx_a" "A" 1 1] [group_row 1 "wx_a" "g1@chatroom" "G1"] 2 2,
     mkSyncTally 0 1).
Proof. reflexivity. Qed.

(** ** Frame facts: what each write leaves alone *)

Lemma update_where_id_length {A : Type} (key : A -> Z) id f (rows : list A) :
  List.length (update_where_id key id f rows) = List.length rows.
Proof. apply length_map. Qed.

Lemma GetRobotByID_robots env db db' id :
  wx_robot_configs db' = wx_robot_configs db ->
  GetRobotByID env db' id = GetRobotByID env db id.
Proof. intros H. unfold GetRobotByID. rewrite H. reflexivity. Qed.

Lemma login_outcome_robots env db db' user :
  wx_robot_configs db' = wx_robot_configs db ->
  login_outcome env db' user = login_outcome env db user.
Proof.
  intros H. unfold login_outcome. rewrite (GetRobotByID_robots env db db' _ H). reflexivity.
Qed.

(** The loop body, by outcome. *)
Lemma loginStatusStep_outcome env db t user :
  loginStatusStep env (db, t) user =
  match login_outcome env db user with
  | StillValid => (db, login_success t)
  | Errored => (db, login_error t)
  | MustRelogin =>
      (set_users (update_where_id WxUserLogin.ID (WxUserLogin.ID user)
                    (relogin_row env) (wx_user_logins db)) db,
       login_relogin t)
  end.
Proof.
  unfold loginStatusStep, login_outcome, UpdateUserStatus.
  destruct (GetRobotByID env db (WxUserLogin.RobotID user)) as [robot|e]; [|reflexivity].
  destruct (CheckCanSetAlias env _ _) as [resp|p e]; [|reflexivity].
  destruct (CheckCanSetAliasResponse.Code resp =? 300); [|reflexivity].
  destruct (fault env (UpdateStatusColumn (WxUserLogin.ID user))); reflexivity.
Qed.
Lemma LoginTally_eq a b c a' b' c' :
  a = a' -> b = b' -> c = c' -> mkLoginTally a b c = mkLoginTally a' b' c'.
Proof. intros; subst; reflexivity. Qed.

Lemma count_outcome_cons o env db user users :
  count_outcome o env db (user :: users) =
  (if LoginOutcome_eqb (login_outcome env db user) o then 1 else 0)
  + count_outcome o env db users.
Proof.
  unfold count_outcome. simpl.
  destruct (LoginOutcome_eqb (login_outcome env db user) o); simpl List.length; lia.
Qed.

Lemma login_fold env users :
  forall db0 db t,
    wx_robot_configs db = wx_robot_configs db0 ->
    fold_left (loginStatusStep env) users (db, t) =
    (mkDB (wx_robot_configs db)
          (map (relogin_pass env db0 users) (wx_user_logins db))
          (wx_groups db) (users_auto_increment db) (groups_auto_increment db),
     add_outcomes env db0 users t).
Proof.
  induction users as [|user users IH]; intros db0 db t Hrob; cbn [fold_left].
  - f_equal.
    + destruct db; simpl. f_equal. symmetry. apply map_id.
    + destruct t; unfold add_outcomes, count_outcome; simpl.
      apply LoginTally_eq; lia.
  - rewrite loginStatusStep_outcome, (login_outcome_robots env db0 db user Hrob).
    destruct (login_outcome env db0 user) eqn:Ho.
    + rewrite (IH db0 db (login_success t) Hrob). f_equal.
      * f_equal. apply map_ext. intros row. unfold relogin_pass. simpl.
        rewrite Ho. reflexivity.
      * unfold add_outcomes. rewrite !count_outcome_cons, Ho.
        cbn [LoginOutcome_eqb login_successCount login_errorCount login_reloginCount
               login_success login_error login_relogin].
        apply LoginTally_eq; lia.
    + rewrite (IH db0) by exact Hrob. f_equal.
      * simpl. f_equal. unfold update_where_id. rewrite map_map.
        apply map_ext. intros row. unfold relogin_pass. simpl. rewrite Ho. simpl.
        destruct (WxUserLogin.ID row =? WxUserLogin.ID user) eqn:E.
        -- apply Z.eqb_eq in E. rewrite <- E.
           replace (WxUserLogin.ID (relogin_row env row)) with (WxUserLogin.ID row)
             by reflexivity.
           rewrite Z.eqb_refl.
           destruct (existsb _ users); reflexivity.
        -- rewrite Z.eqb_sym, E. reflexivity.
      * unfold add_outcomes. rewrite !count_outcome_cons, Ho.
        cbn [LoginOutcome_eqb login_successCount login_errorCount login_reloginCount
               login_success login_error login_relogin].
        apply LoginTally_eq; lia.
    + rewrite (IH db0 db (login_error t) Hrob). f_equal.
      * f_equal. apply map_ext. intros row. unfold relogin_pass. simpl.
        rewrite Ho. reflexivity.
      * unfold add_outcomes. rewrite !count_outcome_cons, Ho.
        cbn [LoginOutcome_eqb login_successCount login_errorCount login_reloginCount
               login_success login_error login_relogin].
        apply LoginTally_eq; lia.
Qed.

Lemma CheckLoginStatus_pass env db :
  fault env QueryActiveUsers = false ->
  CheckLoginStatus env db =
  (None,
   mkDB (wx_robot_configs db)
        (map (relogin_pass env db
                (filter (fun u => WxUserLogin.Status u =? 1) (wx_user_logins db)))
             (wx_user_logins db))
        (wx_groups db) (users_auto_increment db) (groups_auto_increment db),
   add_outcomes env db
     (filter (fun u => WxUserLogin.Status u =? 1) (wx_user_logins db)) login_zero).
Proof.
  intros Hf. unfold CheckLoginStatus, GetActiveUsers. rewrite Hf.
  destruct (filter _ (wx_user_logins db)) as [|u us] eqn:E.
  - simpl. f_equal.
    f_equal. destruct db; simpl. f_equal. symmetry. apply map_id.
  - replace (Z.of_nat (List.length (u :: us)) =? 0) with false
      by (symmetry; apply Z.eqb_neq; simpl List.length; lia).
    rewrite (login_fold env (u :: us) db db login_zero eq_refl). reflexivity.
Qed.

Lemma NoDup_map_eq {A B : Type} (f : A -> B) (l : list A) a b :
  NoDup (map f l) -> In a l -> In b l -> f a = f b -> a = b.
Proof.
  induction l as [|x l IH]; simpl; intros Hnd Ha Hb Hf; [contradiction|].
  inversion Hnd as [|? ? Hx Hnd']; subst.
  destruct Ha as [->|Ha]; destruct Hb as [->|Hb]; auto.
  - exfalso. apply Hx. rewrite Hf. apply in_map. exact Hb.
  - exfalso. apply Hx. rewrite <- Hf. apply in_map. exact Ha.
Qed.

Lemma find_map_by_id (f : WxUserLogin.t -> WxUserLogin.t) rows user :
  NoDup (map WxUserLogin.ID rows) -> In user rows ->
  (forall r, WxUserLogin.ID (f r) = WxUserLogin.ID r) ->
  find (fun u => WxUserLogin.ID u =? WxUserLogin.ID user) (map f rows)
  = Some (f user).
Proof.
  intros Hnd Hin Hid. induction rows as [|a rows IH]; [contradiction|].
  simpl. rewrite Hid. inversion Hnd as [|? ? Ha Hnd']; subst.
  destruct Hin as [->|Hin].
  - rewrite Z.eqb_refl. reflexivity.
  - destruct (WxUserLogin.ID a =? WxUserLogin.ID user) eqn:E.
    + apply Z.eqb_eq in E. exfalso. apply Ha. rewrite E. apply in_map. exact Hin.
    + apply IH; assumption.
Qed.

Lemma relogin_pass_id env db users row :
  WxUserLogin.ID (relogin_pass env db users row) = WxUserLogin.ID row.
Proof. unfold relogin_pass. destruct (existsb _ users); reflexivity. Qed.

Lemma relogin_pass_own env db users user :
  NoDup (user_ids db) -> In user (wx_user_logins db) ->
  incl users (wx_user_logins db) -> In user users ->
  relogin_pass env db users user =
  match login_outcome env db user with
  | MustRelogin => relogin_row env user
  | _ => user
  end.
Proof.
  intros Hnd Hin Hincl Hu. unfold relogin_pass.
  destruct (existsb _ users) eqn:E.
  - apply existsb_exists in E. destruct E as (u & Hu' & Hc).
    apply andb_true_iff in Hc. destruct Hc as [Ho Hid]. apply Z.eqb_eq in Hid.
    assert (u = user) as ->
      by (eapply NoDup_map_eq; [exact Hnd| | |exact Hid]; auto).
    destruct (login_outcome env db user); try discriminate. reflexivity.
  - destruct (login_outcome env db user) eqn:Ho; try reflexivity.
    exfalso. assert (existsb
      (fun u => LoginOutcome_eqb (login_outcome env db u) MustRelogin
                && (WxUserLogin.ID u =? WxUserLogin.ID user)) users = true).
    { apply existsb_exists. exists user. split; [exact Hu|].
      rewrite Ho, Z.eqb_refl. reflexivity. }
    congruence.
Qed.

(** The row of a session of the intake after one login-status tick. *)
Lemma CheckLoginStatus_row env db user :
  NoDup (user_ids db) -> In user (wx_user_logins db) ->
  WxUserLogin.Status user = 1 ->
  fault env QueryActiveUsers = false ->
  user_by_id (WxUserLogin.ID user) (snd (fst (CheckLoginStatus env db))) =
  Some (match login_outcome env db user with
        | MustRelogin => relogin_row env user
        | _ => user
        end).
Proof.
  intros Hnd Hin Hst Hf. rewrite (CheckLoginStatus_pass env db Hf).
  unfold user_by_id. simpl.
  rewrite find_map_by_id; auto using relogin_pass_id.
  f_equal. apply relogin_pass_own; auto.
  - intros u Hu. apply filter_In in Hu. tauto.
  - apply filter_In. split; [exact Hin|]. apply Z.eqb_eq. exact Hst.
Qed.

(** ** C3: the relogin transition *)

(** C3.  Take a persisted session of the login-status intake (status 1)
    whose robot resolves and whose CheckCanSetAlias call is answered with
    a decoded envelope, in a store with unique primary keys and a tick
    whose intake query and status update are not hit by a storage fault.
    After the tick the session's row has status 3 exactly when the
    envelope's code is 300 (it is then the old row with status 3 and a
    fresh update time); under any other code, 200 in particular, the row
    is the old row, untouched. *)
Theorem C3_relogin_transition (env : Env) (db : DB) (user : WxUserLogin.t)
  (robot : WxRobotConfig.t) (resp : CheckCanSetAliasResponse.t) :
  NoDup (user_ids db) ->
  In user (wx_user_logins db) ->
  WxUserLogin.Status user = 1 ->
  fault env QueryActiveUsers = false ->
  GetRobotByID env db (WxUserLogin.RobotID user) = Ok robot ->
  http_CheckCanSetAlias env (WxRobotConfig.Address robot) (WxUserLogin.Token user)
  = Parsed resp ->
  fault env (UpdateStatusColumn (WxUserLogin.ID user)) = false ->
  let db' := snd (fst (CheckLoginStatus env db)) in
  (CheckCanSetAliasResponse.Code resp = 300 ->
   user_by_id (WxUserLogin.ID user) db' = Some (relogin_row env user))
  /\ (CheckCanSetAliasResponse.Code resp = 200 ->
      user_by_id (WxUserLogin.ID user) db' = Some user)
  /\ (CheckCanSetAliasResponse.Code resp <> 300 ->
      user_by_id (WxUserLogin.ID user) db' = Some user)
  /\ ((exists row, user_by_id (WxUserLogin.ID user) db' = Some row
                   /\ WxUserLogin.Status row = 3)
      <-> CheckCanSetAliasResponse.Code resp = 300).
Proof.
  intros Hnd Hin Hst Hf Hrobot Hhttp Hupd db'.
  pose proof (CheckLoginStatus_row env db user Hnd Hin Hst Hf) as Hrow.
  fold db' in Hrow.
  assert (Ho : login_outcome env db user =
               if CheckCanSetAliasResponse.Code resp =? 300 then MustRelogin
               else if CheckCanSetAliasResponse.Code resp =? 200 then StillValid
                    else Errored).
  { unfold login_outcome, CheckCanSetAlias. rewrite Hrobot, Hhttp, Hupd.
    destruct (CheckCanSetAliasResponse.Code resp =? 300) eqn:E3;
      destruct (CheckCanSetAliasResponse.Code resp =? 200) eqn:E2;
      cbn [negb andb]; rewrite ?E3; reflexivity. }
  rewrite Ho in Hrow.
  assert (H300 : CheckCanSetAliasResponse.Code resp = 300 ->
                 user_by_id (WxUserLogin.ID user) db' = Some (relogin_row env user)).
  { intros Hc. rewrite Hrow, Hc. reflexivity. }
  assert (Hother : CheckCanSetAliasResponse.Code resp <> 300 ->
                   user_by_id (WxUserLogin.ID user) db' = Some user).
  { intros Hc. rewrite Hrow. apply Z.eqb_neq in Hc. rewrite Hc.
    destruct (CheckCanSetAliasResponse.Code resp =? 200); reflexivity. }
  split; [exact H300|]. split; [intros Hc; apply Hother; lia|].
  split; [exact Hother|]. split.
  - intros (row & Hfind & Hs).
    destruct (Z.eq_dec (CheckCanSetAliasResponse.Code resp) 300) as [|Hne]; [assumption|].
    rewrite (Hother Hne) in Hfind. injection Hfind as <-. lia.
  - intros Hc. exists (relogin_row env user). split; [apply H300; exact Hc|reflexivity].
Qed.

Lemma C3_relogin_transition_witness :
  user_by_id 1 (snd (fst (CheckLoginStatus env_relogin db_two_sessions)))
  = Some (relogin_row env_relogin (session 1 "wx_a" "A" 1 1))
  /\ user_by_id 2 (snd (fst (CheckLoginStatus env_relogin db_two_sessions)))
     = Some (session 2 "wx_b" "B" 1 1).
Proof.
  assert (Hnd : NoDup (user_ids db_two_sessions)).
  { unfold user_ids; simpl. repeat constructor; simpl; intuition discriminate. }
  assert (Hin1 : In (session 1 "wx_a" "A" 1 1) (wx_user_logins db_two_sessions))
    by (simpl; auto).
  assert (Hin2 : In (session 2 "wx_b" "B" 1 1) (wx_user_logins db_two_sessions))
    by (simpl; auto).
  destruct (C3_relogin_transition env_relogin db_two_sessions
              (session 1 "wx_a" "A" 1 1) robot1
              (CheckCanSetAliasResponse.mk 300 [] "")
              Hnd Hin1 eq_refl eq_refl eq_refl eq_refl eq_refl) as (H300 & _).
  destruct (C3_relogin_transition env_relogin db_two_sessions
              (session 2 "wx_b" "B" 1 1) robot1
              (CheckCanSetAliasResponse.mk 200 [] "")
              Hnd Hin2 eq_refl eq_refl eq_refl eq_refl eq_refl) as (_ & H200 & _).
  split; [apply H300; reflexivity | apply H200; reflexivity].
Defined.

(** ** C6: one session's failure does not stop the batch *)







(** ** C10: schedulers never move a session backward *)

Lemma lifecycle_kept_refl u : lifecycle_kept u u.
Proof. unfold lifecycle_kept. tauto. Qed.

Lemma lifecycle_kept_trans u v w :
  lifecycle_kept u v -> lifecycle_kept v w -> lifecycle_kept u w.
Proof.
  unfold lifecycle_kept.
  intros (H1 & H2 & H3 & H4 & H5 & H6) (K1 & K2 & K3 & K4 & K5 & K6).
  repeat split; try congruence.
  - destruct K5 as [K5|K5]; [rewrite K5; exact H5 | right; exact K5].
  - destruct K6 as [K6|K6]; [rewrite K6; exact H6 | right; exact K6].
Qed.

Lemma sessions_kept_refl db : sessions_kept db db.
Proof.
  unfold sessions_kept. induction (wx_user_logins db); constructor;
    auto using lifecycle_kept_refl.
Qed.

Lemma sessions_kept_eq db db' :
  wx_user_logins db' = wx_user_logins db -> sessions_kept db db'.
Proof. unfold sessions_kept. intros ->. apply (sessions_kept_refl db). Qed.

Lemma sessions_kept_trans db1 db2 db3 :
  sessions_kept db1 db2 -> sessions_kept db2 db3 -> sessions_kept db1 db3.
Proof.
  unfold sessions_kept.
  generalize (wx_user_logins db1) (wx_user_logins db2) (wx_user_logins db3).
  intros l1 l2 l3 H12. revert l3.
  induction H12 as [|x y l1 l2 Hxy H12 IH]; intros l3 H23; inversion H23; subst.
  - constructor.
  - constructor; [eapply lifecycle_kept_trans; eassumption | apply IH; assumption].
Qed.

Lemma sessions_kept_update (id : Z) (f : WxUserLogin.t -> WxUserLogin.t) db :
  (forall u, lifecycle_kept u (f u)) ->
  sessions_kept db
    (set_users (update_where_id WxUserLogin.ID id f (wx_user_logins db)) db).
Proof.
  intros Hf. unfold sessions_kept, update_where_id. simpl.
  induction (wx_user_logins db) as [|u us IH]; simpl; constructor; [|exact IH].
  destruct (WxUserLogin.ID u =? id); [apply Hf | apply lifecycle_kept_refl].
Qed.

Lemma UpdateUserStatus_kept env db userID :
  sessions_kept db (snd (UpdateUserStatus env db userID 3)).
Proof.
  unfold UpdateUserStatus. destruct (fault env _); simpl.
  - apply sessions_kept_refl.
  - apply sessions_kept_update. intros u. unfold lifecycle_kept. simpl. tauto.
Qed.

Lemma UpdateUserInitializationStatus_kept env db userID :
  sessions_kept db (snd (UpdateUserInitializationStatus env db userID)).
Proof.
  unfold UpdateUserInitializationStatus. destruct (fault env _); simpl.
  - apply sessions_kept_refl.
  - apply sessions_kept_update. intros u. unfold lifecycle_kept. simpl. tauto.
Qed.

Lemma create_group_users env db group :
  wx_user_logins (snd (create_group env db group)) = wx_user_logins db.
Proof.
  unfold create_group. destruct (fault env _); [reflexivity|].
  destruct (existsb _ _); reflexivity.
Qed.

Lemma save_group_users env db existing :
  wx_user_logins (snd (save_group env db existing)) = wx_user_logins db.
Proof.
  unfold save_group. destruct (_ =? 0); [apply create_group_users|].
  destruct (fault env _); reflexivity.
Qed.

Lemma SaveOrUpdateGroup_users env db group :
  wx_user_logins (snd (SaveOrUpdateGroup env db group)) = wx_user_logins db.
Proof.
  unfold SaveOrUpdateGroup.
  destruct (if fault env _ then None else _) as [existing|];
    [|apply create_group_users].
  destruct (negb _); [apply save_group_users | reflexivity].
Qed.

Lemma DeleteGroupsByWxIDNotInList_users env db wxID groupIDs :
  wx_user_logins (snd (DeleteGroupsByWxIDNotInList env db wxID groupIDs))
  = wx_user_logins db.
Proof.
  unfold DeleteGroupsByWxIDNotInList.
  destruct (Z.of_nat _ =? 0); destruct (fault env _); reflexivity.
Qed.

Lemma processGroupSync_upserts_users env wxID groupList :
  forall db ids,
    wx_user_logins (snd (fst (processGroupSync_upserts env db wxID groupList ids)))
    = wx_user_logins db.
Proof.
  induction groupList as [|g gs IH]; intros db ids; simpl; [reflexivity|].
  pose proof (SaveOrUpdateGroup_users env db
                (WxGroup.mk 0 wxID (GroupListResponse.UserName g)
                            (GroupListResponse.NickName g) 0 0)) as Hs.
  destruct (SaveOrUpdateGroup env db _) as [[e|] db']; simpl in *.
  - exact Hs.
  - rewrite IH. exact Hs.
Qed.

Lemma saveGroupInfo_users env db wxID groupResp :
  wx_user_logins (snd (saveGroupInfo env db wxID groupResp)) = wx_user_logins db.
Proof.
  unfold saveGroupInfo. destruct (_ || _); [reflexivity|].
  generalize (GroupListResponse.GroupList groupResp). intros gs. revert db.
  induction gs as [|g gs IH]; intros db; simpl; [reflexivity|].
  pose proof (SaveOrUpdateGroup_users env db
                (WxGroup.mk 0 wxID (GroupListResponse.UserName g)
                            (GroupListResponse.NickName g) 0 0)) as Hs.
  destruct (SaveOrUpdateGroup env db _) as [[e|] db']; simpl in *.
  - exact Hs.
  - rewrite IH. exact Hs.
Qed.

Lemma processGroupSync_users env db wxID groupResp :
  wx_user_logins (snd (processGroupSync env db wxID groupResp)) = wx_user_logins db.
Proof.
  unfold processGroupSync.
  pose proof (processGroupSync_upserts_users env wxID
                (GroupListResponse.GroupList groupResp) db []) as Hu.
  destruct (processGroupSync_upserts env db wxID _ []) as [[[e|] db'] ids];
    simpl in *.
  - exact Hu.
  - rewrite DeleteGroupsByWxIDNotInList_users. exact Hu.
Qed.

Lemma syncGroupsForUser_users env db user :
  wx_user_logins (snd (syncGroupsForUser env db user)) = wx_user_logins db.
Proof.
  unfold syncGroupsForUser.
  destruct (GetRobotByID env db _) as [robot|e]; [|reflexivity].
  destruct (GetGroupList env _ _) as [groupResp|p e]; [|reflexivity].
  destruct (negb _); [reflexivity|]. apply processGroupSync_users.
Qed.

Lemma processUser_kept env db user :
  sessions_kept db (snd (processUser env db user)).
Proof.
  unfold processUser.
  destruct (GetRobotByID env db _) as [robot|e]; [|apply sessions_kept_refl].
  destruct (GetInitStatus env _ _) as [initResp|p e]; [|apply sessions_kept_refl].
  destruct (negb _).
  - destruct (GetGroupsByWxID env db _) as [groups|e]; [|apply sessions_kept_refl].
    destruct (Z.of_nat _ >? 0); apply sessions_kept_refl.
  - destruct (GetGroupList env _ _) as [groupResp|p e]; [|apply sessions_kept_refl].
    pose proof (saveGroupInfo_users env db (WxUserLogin.WxID user) groupResp) as Hs.
    destruct (saveGroupInfo env db _ groupResp) as [[e|] db']; simpl in Hs.
    + apply sessions_kept_eq. exact Hs.
    + eapply sessions_kept_trans; [apply sessions_kept_eq; exact Hs|].
      apply UpdateUserInitializationStatus_kept.
Qed.

Lemma loginStatusStep_kept env st user :
  sessions_kept (fst st) (fst (loginStatusStep env st user)).
Proof.
  destruct st as [db t]. unfold loginStatusStep.
  destruct (GetRobotByID env db _) as [robot|e]; [|apply sessions_kept_refl].
  destruct (CheckCanSetAlias env _ _) as [resp|p e]; [|apply sessions_kept_refl].
  destruct (_ =? 300); [|apply sessions_kept_refl].
  pose proof (UpdateUserStatus_kept env db (WxUserLogin.ID user)) as Hk.
  destruct (UpdateUserStatus env db (WxUserLogin.ID user) 3) as [[e|] db'];
    exact Hk.
Qed.

Lemma syncStep_kept env st user :
  sessions_kept (fst st) (fst (syncStep env st user)).
Proof.
  destruct st as [db t]. unfold syncStep.
  pose proof (syncGroupsForUser_users env db user) as Hu.
  destruct (syncGroupsForUser env db user) as [[e|] db'];
    apply sessions_kept_eq; exact Hu.
Qed.

Lemma fold_kept {S X : Type} (proj : S -> DB) (step : S -> X -> S) (xs : list X) :
  (forall st x, sessions_kept (proj st) (proj (step st x))) ->
  forall st, sessions_kept (proj st) (proj (fold_left step xs st)).
Proof.
  intros Hstep. induction xs as [|x xs IH]; intros st; simpl.
  - apply sessions_kept_refl.
  - eapply sessions_kept_trans; [apply Hstep | apply IH].
Qed.

Lemma tick_kept jt db : sessions_kept db (tick jt db).
Proof.
  destruct jt as [[ | | ] env]; unfold tick; simpl.
  - unfold CheckInitializationStatus.
    destruct (getUninitializedUsers env db) as [users|e]; [|apply sessions_kept_refl].
    destruct (_ =? 0); [apply sessions_kept_refl|]. simpl.
    apply (fold_kept (fun d => d) (fun d user => snd (processUser env d user))).
    intros st x. apply processUser_kept.
  - unfold SyncGroupsForAllUsers.
    destruct (GetInitializedUsers env db) as [users|e]; [|apply sessions_kept_refl].
    destruct (_ =? 0); [apply sessions_kept_refl|].
    pose proof (fold_kept fst (syncStep env) users (syncStep_kept env) (db, sync_zero))
      as Hk.
    destruct (fold_left (syncStep env) users (db, sync_zero)); exact Hk.
  - unfold CheckLoginStatus.
    destruct (GetActiveUsers env db) as [users|e]; [|apply sessions_kept_refl].
    destruct (_ =? 0); [apply sessions_kept_refl|].
    pose proof (fold_kept fst (loginStatusStep env) users (loginStatusStep_kept env)
                          (db, login_zero)) as Hk.
    destruct (fold_left (loginStatusStep env) users (db, login_zero)); exact Hk.
Qed.

(** C10.  Over any sequence of initialization, group-sync and
    login-status ticks, in any environments, the session table keeps its
    rows (same number, same order, same primary keys and natural keys),
    and in every row the message-bot flag is unchanged, the status is
    what it was or 3, and the initialization flag is what it was or 1; so
    a status other than 1 never becomes 1 and an initialization flag 1
    never becomes 0. *)
Theorem C10_no_backward_transition (schedule : list (Job * Env)) (db : DB) :
  Forall2 lifecycle_kept (wx_user_logins db) (wx_user_logins (run_ticks schedule db))
  /\ Forall2 (fun u u' =>
                (WxUserLogin.Status u <> 1 -> WxUserLogin.Status u' <> 1)
                /\ (WxUserLogin.IsInitialized u = 1 -> WxUserLogin.IsInitialized u' = 1)
                /\ WxUserLogin.IsMessageBot u' = WxUserLogin.IsMessageBot u)
             (wx_user_logins db) (wx_user_logins (run_ticks schedule db)).
Proof.
  assert (H : sessions_kept db (run_ticks schedule db)).
  { unfold run_ticks. revert db.
    induction schedule as [|jt schedule IH]; intros db; simpl.
    - apply sessions_kept_refl.
    - eapply sessions_kept_trans; [apply tick_kept | apply IH]. }
  split; [exact H|].
  unfold sessions_kept in H. induction H as [|u u' l l' Hk H IH]; constructor; auto.
  destruct Hk as (_ & _ & _ & Hb & Hs & Hi). repeat split.
  - intros Hne. destruct Hs as [Hs|Hs]; [congruence | rewrite Hs; discriminate].
  - intros H1. destruct Hi as [Hi|Hi]; congruence.
  - exact Hb.
Qed.

(** ** C2: session upsert *)

Lemma first_by_last {A : Type} (key : A -> Z) (p : A -> bool) (rows : list A) x :
  (forall r, In r rows -> p r = false) -> p x = true ->
  first_by key p (rows ++ [x]) = Some x.
Proof.
  intros Hno Hx. induction rows as [|a rows IH]; simpl.
  - rewrite Hx. reflexivity.
  - rewrite (Hno a) by (left; reflexivity). apply IH.
    intros r Hr. apply Hno. right. exact Hr.
Qed.

Lemma update_where_id_fresh (id : Z) (f : WxUserLogin.t -> WxUserLogin.t) rows :
  Forall (fun u => WxUserLogin.ID u < id) rows ->
  update_where_id WxUserLogin.ID id f rows = rows.
Proof.
  intros H. unfold update_where_id. induction H as [|u rows Hu H IH]; simpl.
  - reflexivity.
  - rewrite IH. replace (WxUserLogin.ID u =? id) with false; [reflexivity|].
    symmetry. apply Z.eqb_neq. lia.
Qed.

Lemma filter_none {A : Type} (p : A -> bool) (l : list A) :
  (forall x, In x l -> p x = false) -> filter p l = [].
Proof.
  induction l as [|a l IH]; simpl; intros H; [reflexivity|].
  rewrite (H a) by (left; reflexivity). apply IH. intros x Hx. apply H. right. exact Hx.
Qed.

Lemma save_user_keyed env db user :
  WxUserLogin.ID user <> 0 ->
  fault env (SaveUserRow (WxUserLogin.ID user)) = false ->
  save_user env db user =
  (Ok (WxUserLogin.with_UpdateTime (now env) user),
   set_users (update_where_id WxUserLogin.ID (WxUserLogin.ID user)
                (fun _ => WxUserLogin.with_UpdateTime (now env) user)
                (wx_user_logins db)) db).
Proof.
  intros Hid Hf. unfold save_user. apply Z.eqb_neq in Hid. rewrite Hid, Hf.
  reflexivity.
Qed.

(** C2.  In a store whose AUTO_INCREMENT counter is positive and ahead of
    every session key and that holds no row for the pair
    [(robotId, wxId)], saving a fresh session (no primary key yet) for the
    pair and then saving a second session value for the same pair, both
    without storage fault, succeeds twice; the first save appends one new
    row; after the second save the store holds exactly one row for the
    pair, with every field of the second value except that its primary key
    and creation time are those of the row the first save inserted (and
    its update time is the time of the second save); all other rows are
    as before. *)
Theorem C2_upsert_idempotence (env1 env2 : Env) (db : DB)
  (user1 user2 : WxUserLogin.t) :
  0 < users_auto_increment db ->
  Forall (fun u => WxUserLogin.ID u < users_auto_increment db) (wx_user_logins db) ->
  (forall u, In u (wx_user_logins db) ->
             user_key_is (WxUserLogin.RobotID user1) (WxUserLogin.WxID user1) u = false) ->
  WxUserLogin.ID user1 = 0 ->
  WxUserLogin.RobotID user2 = WxUserLogin.RobotID user1 ->
  WxUserLogin.WxID user2 = WxUserLogin.WxID user1 ->
  (forall op, fault env1 op = false) ->
  (forall op, fault env2 op = false) ->
  let db1 := snd (SaveUser env1 db user1) in
  let db2 := snd (SaveUser env2 db1 user2) in
  let row1 := inserted_user env1 db user1 in
  let row2 := overwritten_user env2 row1 user2 in
  fst (SaveUser env1 db user1) = None
  /\ fst (SaveUser env2 db1 user2) = None
  /\ wx_user_logins db1 = wx_user_logins db ++ [row1]
  /\ wx_user_logins db2 = wx_user_logins db ++ [row2]
  /\ filter (user_key_is (WxUserLogin.RobotID user1) (WxUserLogin.WxID user1))
            (wx_user_logins db2) = [row2]
  /\ WxUserLogin.ID row2 = WxUserLogin.ID row1
  /\ WxUserLogin.CreateTime row2 = WxUserLogin.CreateTime row1
  /\ WxUserLogin.NickName row2 = WxUserLogin.NickName user2
  /\ WxUserLogin.Token row2 = WxUserLogin.Token user2
  /\ WxUserLogin.Status row2 = WxUserLogin.Status user2
  /\ WxUserLogin.IsInitialized row2 = WxUserLogin.IsInitialized user2
  /\ WxUserLogin.IsMessageBot row2 = WxUserLogin.IsMessageBot user2
  /\ WxUserLogin.HasSecurityRisk row2 = WxUserLogin.HasSecurityRisk user2
  /\ WxUserLogin.ExtensionTime row2 = WxUserLogin.ExtensionTime user2
  /\ WxUserLogin.ExpirationTime row2 = WxUserLogin.ExpirationTime user2.
Proof.
  intros Hpos Hids Hnone Hid0 Hrob Hwx Hf1 Hf2 db1 db2 row1 row2.
  assert (Hfirst1 : first_by WxUserLogin.ID
            (user_key_is (WxUserLogin.RobotID user1) (WxUserLogin.WxID user1))
            (wx_user_logins db) = None) by (apply first_by_None; exact Hnone).
  assert (Hfreshb : existsb (fun u => WxUserLogin.ID u =? users_auto_increment db)
                            (wx_user_logins db) = false).
  { apply not_true_is_false. intros He. apply existsb_exists in He.
    destruct He as (u & Hu & Heq). apply Z.eqb_eq in Heq.
    rewrite Forall_forall in Hids. specialize (Hids u Hu). lia. }
  assert (Hsave1 : SaveUser env1 db user1 =
            (None, mkDB (wx_robot_configs db) (wx_user_logins db ++ [row1])
                        (wx_groups db)
                        (Z.max (users_auto_increment db) (users_auto_increment db + 1))
                        (groups_auto_increment db))).
  { unfold SaveUser, create_user. rewrite !Hf1, Hfirst1, Hid0.
    cbn [Z.eqb]. rewrite Hfreshb. reflexivity. }
  assert (Hkey1 : user_key_is (WxUserLogin.RobotID user1) (WxUserLogin.WxID user1) row1
                  = true).
  { unfold user_key_is, row1, inserted_user. simpl.
    rewrite Z.eqb_refl, String.eqb_refl. reflexivity. }
  assert (Hdb1 : wx_user_logins db1 = wx_user_logins db ++ [row1])
    by (unfold db1; rewrite Hsave1; reflexivity).
  assert (Hsave2 : SaveUser env2 db1 user2 =
            (None, set_users (wx_user_logins db ++ [row2]) db1)).
  { unfold SaveUser. rewrite Hf2, Hrob, Hwx, Hdb1.
    rewrite (first_by_last WxUserLogin.ID _ (wx_user_logins db) row1 Hnone Hkey1).
    rewrite save_user_keyed; [|simpl; lia|apply Hf2].
    cbn [fst snd]. f_equal. unfold set_users. rewrite Hdb1. f_equal.
    unfold update_where_id. rewrite map_app.
    change (WxUserLogin.ID
              (WxUserLogin.with_UpdateTime (now env2)
                 (WxUserLogin.with_CreateTime (WxUserLogin.CreateTime row1)
                    (WxUserLogin.with_ID (WxUserLogin.ID row1) user2))))
      with (users_auto_increment db).
    f_equal.
    - apply (update_where_id_fresh (users_auto_increment db) _ (wx_user_logins db) Hids).
    - simpl. rewrite Z.eqb_refl. reflexivity. }
  split; [rewrite Hsave1; reflexivity|].
  split; [rewrite Hsave2; reflexivity|].
  split; [exact Hdb1|].
  assert (Hdb2 : wx_user_logins db2 = wx_user_logins db ++ [row2])
    by (unfold db2; rewrite Hsave2; reflexivity).
  split; [exact Hdb2|].
  split.
  - rewrite Hdb2, filter_app, (filter_none _ _ Hnone). simpl.
    unfold user_key_is, row2, overwritten_user. simpl.
    rewrite Hrob, Hwx, Z.eqb_refl, String.eqb_refl. reflexivity.
  - repeat split; reflexivity.
Qed.

Lemma first_by_only {A : Type} (key : A -> Z) (p : A -> bool)
  (before after : list A) x :
  (forall r, In r (before ++ after) -> p r = false) -> p x = true ->
  first_by key p (before ++ x :: after) = Some x.
Proof.
  intros Hno Hx. induction before as [|a before IH]; simpl.
  - rewrite Hx.
    replace (first_by key p after) with (@None A); [reflexivity|].
    symmetry. apply first_by_None. exact Hno.
  - rewrite (Hno a) by (left; reflexivity). apply IH.
    intros r Hr. apply Hno. right. exact Hr.
Qed.

Lemma update_where_id_only (id : Z) (f : WxUserLogin.t -> WxUserLogin.t)
  (before after : list WxUserLogin.t) x :
  (forall r, In r (before ++ after) -> WxUserLogin.ID r <> id) ->
  WxUserLogin.ID x = id ->
  update_where_id WxUserLogin.ID id f (before ++ x :: after)
  = before ++ f x :: after.
Proof.
  intros Hno Hx. unfold update_where_id. rewrite map_app. cbn [map].
  rewrite Hx, Z.eqb_refl. f_equal; [|f_equal].
  - rewrite <- (map_id before) at 2. apply map_ext_in. intros r Hr.
    replace (WxUserLogin.ID r =? id) with false; [reflexivity|].
    symmetry. apply Z.eqb_neq. apply Hno. apply in_or_app. left. exact Hr.
  - rewrite <- (map_id after) at 2. apply map_ext_in. intros r Hr.
    replace (WxUserLogin.ID r =? id) with false; [reflexivity|].
    symmetry. apply Z.eqb_neq. apply Hno. apply in_or_app. right. exact Hr.
Qed.

(** A save for a pair that has its one row, of a primary key no other row
    shares, overwrites that row in place. *)
Lemma SaveUser_in_place env db before after stored user :
  wx_user_logins db = before ++ stored :: after ->
  user_key_is (WxUserLogin.RobotID user) (WxUserLogin.WxID user) stored = true ->
  (forall r, In r (before ++ after) ->
     user_key_is (WxUserLogin.RobotID user) (WxUserLogin.WxID user) r = false
     /\ WxUserLogin.ID r <> WxUserLogin.ID stored) ->
  WxUserLogin.ID stored <> 0 ->
  (forall op, fault env op = false) ->
  SaveUser env db user
  = (None, set_users (before ++ overwritten_user env stored user :: after) db).
Proof.
  intros Hrows Hkey Hothers Hid Hf. unfold SaveUser. rewrite Hf, Hrows.
  rewrite (first_by_only WxUserLogin.ID _ before after stored)
    by (auto; intros r Hr; apply Hothers; exact Hr).
  rewrite save_user_keyed; [|exact Hid|apply Hf].
  cbn [fst snd]. f_equal. unfold set_users. rewrite Hrows. f_equal.
  change (WxUserLogin.ID
            (WxUserLogin.with_UpdateTime (now env)
               (WxUserLogin.with_CreateTime (WxUserLogin.CreateTime stored)
                  (WxUserLogin.with_ID (WxUserLogin.ID stored) user))))
    with (WxUserLogin.ID stored).
  rewrite (update_where_id_only (WxUserLogin.ID stored) _ before after stored);
    [reflexivity| |reflexivity].
  intros r Hr. apply Hothers. exact Hr.
Qed.

Lemma C2_upsert_idempotence_witness :
  filter (user_key_is 1 "wx_z")
    (wx_user_logins
       (snd (SaveUser (offline_env 20)
               (snd (SaveUser (offline_env 10) db_one_session
                              (fresh_login "Old" "t1")))
               (fresh_login "New" "t2"))))
  = [WxUserLogin.mk 2 1 "t2" "wx_z" "New" 900 0 900 1 0 0 10 20].
Proof.
  assert (Hids : Forall (fun u => WxUserLogin.ID u < users_auto_increment db_one_session)
                        (wx_user_logins db_one_session)).
  { repeat constructor. }
  assert (Hnone : forall u, In u (wx_user_logins db_one_session) ->
                            user_key_is 1 "wx_z" u = false).
  { intros u [<-|[]]. reflexivity. }
  destruct (C2_upsert_idempotence (offline_env 10) (offline_env 20) db_one_session
              (fresh_login "Old" "t1") (fresh_login "New" "t2")
              eq_refl Hids Hnone eq_refl eq_refl eq_refl
              (fun _ => eq_refl) (fun _ => eq_refl))
    as (_ & _ & _ & _ & Hrow & _).
  exact Hrow.
Defined.

(** ** Group upserts: what a pass over one session's group list does *)
Lemma same_identity_refl r : same_identity r r.
Proof. unfold same_identity. tauto. Qed.

Lemma same_identity_trans r1 r2 r3 :
  same_identity r1 r2 -> same_identity r2 r3 -> same_identity r1 r3.
Proof. unfold same_identity. intros (?&?&?&?) (?&?&?&?). repeat split; congruence. Qed.

Lemma evolves_refl X db : evolves X [] db db.
Proof.
  intros Hwf. split; [exact Hwf|]. split; [reflexivity|]. split; [reflexivity|].
  split; [lia|]. split; [|split].
  - intros r Hr. exists r. auto using same_identity_refl.
  - intros r Hr. left. exists r. auto using same_identity_refl.
  - intros gid [].
Qed.

Lemma evolves_trans X S1 S2 db1 db2 db3 :
  evolves X S1 db1 db2 -> evolves X S2 db2 db3 -> evolves X (S1 ++ S2) db1 db3.
Proof.
  intros H12 H23 Hwf1.
  destruct (H12 Hwf1) as (Hwf2 & Hr12 & Hu12 & Ha12 & Hold12 & Hnew12 & Hall12).
  destruct (H23 Hwf2) as (Hwf3 & Hr23 & Hu23 & Ha23 & Hold23 & Hnew23 & Hall23).
  split; [exact Hwf3|]. split; [congruence|]. split; [congruence|].
  split; [lia|]. split; [|split].
  - intros r Hr. destruct (Hold12 r Hr) as (r2 & Hr2 & Hid2 & Hsame2).
    destruct (Hold23 r2 Hr2) as (r3 & Hr3 & Hid3 & Hsame3).
    exists r3. split; [exact Hr3|]. split; [eapply same_identity_trans; eassumption|].
    intros Hne. pose proof (Hsame2 Hne) as E2. subst r2. apply Hsame3. exact Hne.
  - intros r3 Hr3. destruct (Hnew23 r3 Hr3) as [(r2 & Hr2 & Hid23)|(Hw & Hin & Hge)].
    + destruct (Hnew12 r2 Hr2) as [(r1 & Hr1 & Hid12)|(Hw & Hin & Hge)].
      * left. exists r1. split; [exact Hr1|]. eapply same_identity_trans; eassumption.
      * right. destruct Hid23 as (Hi & Hw3 & Hg3 & _).
        split; [congruence|]. split; [apply in_or_app; left; congruence|]. lia.
    + right. split; [exact Hw|]. split; [apply in_or_app; right; exact Hin|]. lia.
  - intros gid Hgid. apply in_app_or in Hgid. destruct Hgid as [Hgid|Hgid].
    + destruct (Hall12 gid Hgid) as (r2 & Hr2 & Hw & Hg).
      destruct (Hold23 r2 Hr2) as (r3 & Hr3 & (Hi & Hw3 & Hg3 & _) & _).
      exists r3. split; [exact Hr3|]. split; congruence.
    + apply Hall23. exact Hgid.
Qed.

Lemma group_ids_map_id (f : WxGroup.t -> WxGroup.t) rows :
  (forall r, WxGroup.ID (f r) = WxGroup.ID r) ->
  map WxGroup.ID (map f rows) = map WxGroup.ID rows.
Proof. intros H. rewrite map_map. apply map_ext. exact H. Qed.

(** A successful insert of a row without primary key. *)
Lemma create_group_evolves env db group db' :
  WxGroup.ID group = 0 ->
  create_group env db group = (None, db') ->
  evolves (WxGroup.WxID group) [WxGroup.GroupID group] db db'.
Proof.
  intros Hid0 Hc (Hpos & Hnd & Hlt). unfold create_group in Hc.
  destruct (fault env _); [discriminate|]. rewrite Hid0 in Hc. cbn [Z.eqb] in Hc.
  destruct (existsb _ (wx_groups db)) eqn:Hex; [discriminate|].
  injection Hc as <-. cbn [wx_groups wx_robot_configs wx_user_logins
                           groups_auto_increment].
  set (row := WxGroup.with_ID (groups_auto_increment db) _).
  assert (Hfresh : ~ In (groups_auto_increment db) (group_ids db)).
  { intros Hin. apply in_map_iff in Hin. destruct Hin as (g & Hg & Hgin).
    rewrite Forall_forall in Hlt. specialize (Hlt g Hgin). lia. }
  split; [|split; [reflexivity|split; [reflexivity|split; [lia|split; [|split]]]]].
  - split; [cbn [groups_auto_increment]; lia|]. split.
    + unfold group_ids. cbn [wx_groups]. rewrite map_app. simpl.
      apply NoDup_app; [exact Hnd | repeat constructor; simpl; tauto |].
      intros x Hx [<-|[]]. exact (Hfresh Hx).
    + cbn [wx_groups groups_auto_increment]. apply Forall_app. split.
      * eapply Forall_impl; [|exact Hlt]. simpl. intros; lia.
      * repeat constructor; simpl; lia.
  - intros r Hr. exists r. split; [apply in_or_app; left; exact Hr|].
    split; [apply same_identity_refl | reflexivity].
  - intros r' Hr'. apply in_app_or in Hr'. destruct Hr' as [Hr'|[<-|[]]].
    + left. exists r'. split; [exact Hr' | apply same_identity_refl].
    + right. simpl. split; [reflexivity|]. split; [left; reflexivity | lia].
  - intros gid [<-|[]]. exists row. split; [apply in_or_app; right; left; reflexivity|].
    split; reflexivity.
Qed.

Lemma create_group_failed env db group e db' :
  create_group env db group = (Some e, db') -> db' = db.
Proof.
  unfold create_group. destruct (fault env _); [congruence|].
  destruct (existsb _ _); congruence.
Qed.

(** An insert of a row whose natural key is already in the table fails. *)
Lemma create_group_duplicate env db existing written :
  In existing (wx_groups db) ->
  WxGroup.WxID written = WxGroup.WxID existing ->
  WxGroup.GroupID written = WxGroup.GroupID existing ->
  fst (create_group env db written) <> None.
Proof.
  intros Hin Hw Hg. unfold create_group. destruct (fault env _); [discriminate|].
  replace (existsb _ (wx_groups db)) with true; [discriminate|].
  symmetry. apply existsb_exists. exists existing. split; [exact Hin|].
  unfold group_key_is. rewrite Hw, Hg, !String.eqb_refl. apply orb_true_r.
Qed.

(** A successful in-place write of a row read from the table. *)
Lemma save_group_evolves env db existing written db' :
  In existing (wx_groups db) ->
  same_identity existing written ->
  save_group env db written = (None, db') ->
  evolves (WxGroup.WxID existing) [WxGroup.GroupID existing] db db'.
Proof.
  intros Hin (Hi & Hw & Hg & Hc) Hs (Hpos & Hnd & Hlt). unfold save_group in Hs.
  destruct (WxGroup.ID written =? 0).
  { exfalso. apply (create_group_duplicate env db existing written Hin Hw Hg).
    rewrite Hs. reflexivity. }
  destruct (fault env _); [discriminate|]. injection Hs as <-.
  set (row := WxGroup.with_UpdateTime (now env) written).
  set (f := fun x : WxGroup.t => if WxGroup.ID x =? WxGroup.ID written then row else x).
  assert (Hfid : forall r, WxGroup.ID (f r) = WxGroup.ID r).
  { intros r. unfold f. destruct (WxGroup.ID r =? WxGroup.ID written) eqn:E;
      [apply Z.eqb_eq in E; rewrite E|]; reflexivity. }
  assert (Hfsame : forall r, In r (wx_groups db) ->
                     same_identity r (f r)
                     /\ (WxGroup.WxID r <> WxGroup.WxID existing -> f r = r)).
  { intros r Hr. unfold f. destruct (WxGroup.ID r =? WxGroup.ID written) eqn:E.
    - apply Z.eqb_eq in E.
      assert (r = existing) as ->.
      { apply (NoDup_map_eq WxGroup.ID (wx_groups db)); auto. congruence. }
      split; [|tauto]. unfold same_identity, row. simpl. tauto.
    - split; [apply same_identity_refl | reflexivity]. }
  cbn [set_groups wx_groups wx_robot_configs wx_user_logins groups_auto_increment].
  unfold update_where_id. fold f.
  split; [|split; [reflexivity|split; [reflexivity|split; [lia|split; [|split]]]]].
  - split; [exact Hpos|]. split.
    + unfold group_ids, set_groups, update_where_id. cbn [wx_groups]. fold f.
      rewrite group_ids_map_id by exact Hfid. exact Hnd.
    + cbn [wx_groups groups_auto_increment]. apply Forall_forall. intros r' Hr'.
      apply in_map_iff in Hr'. destruct Hr' as (r & <- & Hr).
      rewrite Hfid. rewrite Forall_forall in Hlt. apply Hlt. exact Hr.
  - intros r Hr. exists (f r). split; [apply in_map; exact Hr|].
    apply Hfsame. exact Hr.
  - intros r' Hr'. apply in_map_iff in Hr'. destruct Hr' as (r & <- & Hr).
    left. exists r. split; [exact Hr|]. apply Hfsame. exact Hr.
  - intros gid [<-|[]]. exists (f existing). split; [apply in_map; exact Hin|].
    destruct (Hfsame existing Hin) as ((_ & Hw' & Hg' & _) & _). split; assumption.
Qed.

Lemma save_group_failed env db written e db' :
  save_group env db written = (Some e, db') -> db' = db.
Proof.
  unfold save_group. destruct (_ =? 0); [apply create_group_failed|].
  destruct (fault env _); congruence.
Qed.

Lemma evolves_present X gid db r :
  In r (wx_groups db) -> WxGroup.WxID r = X -> WxGroup.GroupID r = gid ->
  evolves X [gid] db db.
Proof.
  intros Hr Hw Hg Hwf.
  destruct (evolves_refl X db Hwf) as (H1 & H2 & H3 & H4 & H5 & H6 & _).
  split; [exact H1|]. split; [exact H2|]. split; [exact H3|]. split; [exact H4|].
  split; [exact H5|]. split.
  - intros r' Hr'. left. exists r'. auto using same_identity_refl.
  - intros g [<-|[]]. exists r. auto.
Qed.

Lemma group_key_is_true wxId groupId g :
  group_key_is wxId groupId g = true ->
  WxGroup.WxID g = wxId /\ WxGroup.GroupID g = groupId.
Proof.
  unfold group_key_is. rewrite andb_true_iff, !String.eqb_eq. tauto.
Qed.

(** One upsert, whatever its result. *)
Lemma SaveOrUpdateGroup_step env db group :
  WxGroup.ID group = 0 ->
  evolves (WxGroup.WxID group)
          (match fst (SaveOrUpdateGroup env db group) with
           | None => [WxGroup.GroupID group]
           | Some _ => []
           end)
          db (snd (SaveOrUpdateGroup env db group)).
Proof.
  intros Hid0. unfold SaveOrUpdateGroup.
  assert (Hcreate :
    evolves (WxGroup.WxID group)
            (match fst (create_group env db group) with
             | None => [WxGroup.GroupID group]
             | Some _ => []
             end)
            db (snd (create_group env db group))).
  { destruct (create_group env db group) as [[e|] db'] eqn:Hc; simpl.
    - rewrite (create_group_failed env db group e db' Hc). apply evolves_refl.
    - apply (create_group_evolves env db group db' Hid0 Hc). }
  destruct (fault env (QueryGroupByKey _ _)); [exact Hcreate|].
  destruct (first_by WxGroup.ID _ (wx_groups db)) as [existing|] eqn:Hf;
    [|exact Hcreate].
  apply first_by_In in Hf. destruct Hf as [Hin Hkey].
  apply group_key_is_true in Hkey. destruct Hkey as [Hw Hg].
  destruct (negb _).
  - destruct (save_group env db _) as [[e|] db'] eqn:Hs; simpl.
    + rewrite (save_group_failed env db _ e db' Hs). apply evolves_refl.
    + rewrite <- Hw, <- Hg.
      apply (save_group_evolves env db existing _ db' Hin) in Hs; [exact Hs|].
      unfold same_identity. simpl. tauto.
  - simpl. apply (evolves_present _ _ db existing Hin Hw Hg).
Qed.

(** The upsert loop: on success it has upserted every listed id and
    collected them in order; on failure it has upserted some of them. *)
Lemma processGroupSync_upserts_evolves env X groupList :
  forall db ids,
    exists S,
      evolves X S db (snd (fst (processGroupSync_upserts env db X groupList ids)))
      /\ (fst (fst (processGroupSync_upserts env db X groupList ids)) = None ->
          S = map GroupListResponse.UserName groupList
          /\ snd (processGroupSync_upserts env db X groupList ids)
             = ids ++ map GroupListResponse.UserName groupList).
Proof.
  induction groupList as [|g gs IH]; intros db ids; cbn [processGroupSync_upserts].
  - exists []. split; [apply evolves_refl|]. intros _. simpl.
    rewrite app_nil_r. auto.
  - pose proof (SaveOrUpdateGroup_step env db
                  (WxGroup.mk 0 X (GroupListResponse.UserName g)
                              (GroupListResponse.NickName g) 0 0) eq_refl) as Hstep.
    cbn [WxGroup.WxID WxGroup.GroupID] in Hstep.
    destruct (SaveOrUpdateGroup env db _) as [[e|] db1]; cbn [fst snd] in *.
    + exists []. split; [exact Hstep|]. discriminate.
    + destruct (IH db1 (ids ++ [GroupListResponse.UserName g])) as (S & Hev & Hok).
      exists ([GroupListResponse.UserName g] ++ S).
      split; [eapply evolves_trans; eassumption|].
      intros Hnone. destruct (Hok Hnone) as [-> ->].
      split; [reflexivity|]. rewrite <- app_assoc. reflexivity.
Qed.

Lemma DeleteGroupsByWxIDNotInList_rows env db wxID groupIDs :
  snd (DeleteGroupsByWxIDNotInList env db wxID groupIDs)
  = match fst (DeleteGroupsByWxIDNotInList env db wxID groupIDs) with
    | None => set_groups (filter (kept_by_delete wxID groupIDs) (wx_groups db)) db
    | Some _ => db
    end.
Proof.
  unfold DeleteGroupsByWxIDNotInList.
  destruct groupIDs as [|gid gids].
  - simpl. destruct (fault env _); simpl; [reflexivity|].
    f_equal. apply filter_ext. intros g. unfold kept_by_delete. simpl.
    rewrite andb_true_r. reflexivity.
  - replace (Z.of_nat (List.length (gid :: gids)) =? 0) with false
      by (symmetry; apply Z.eqb_neq; simpl List.length; lia).
    destruct (fault env _); reflexivity.
Qed.

Lemma group_keys_filter_NoDup (keep : WxGroup.t -> bool) (rows : list WxGroup.t) :
  NoDup (map WxGroup.ID rows) -> NoDup (map WxGroup.ID (filter keep rows)).
Proof.
  intros Hnd. induction rows as [|g rows IH]; cbn [filter map] in *; [exact Hnd|].
  apply NoDup_cons_iff in Hnd. destruct Hnd as [Hg Hnd].
  destruct (keep g); cbn [map]; [|exact (IH Hnd)].
  apply NoDup_cons_iff. split; [|exact (IH Hnd)].
  intros Hin. apply Hg. apply in_map_iff in Hin. destruct Hin as (g' & Hid & Hg').
  apply in_map_iff. exists g'. split; [exact Hid|].
  apply filter_In in Hg'. exact (proj1 Hg').
Qed.

Lemma groups_wf_filter (p : WxGroup.t -> bool) db :
  groups_wf db -> groups_wf (set_groups (filter p (wx_groups db)) db).
Proof.
  intros (Hpos & Hnd & Hlt). split; [exact Hpos|]. split.
  - unfold group_ids. simpl. apply group_keys_filter_NoDup. exact Hnd.
  - simpl. apply Forall_forall. intros g Hg. apply filter_In in Hg.
    rewrite Forall_forall in Hlt. apply Hlt. tauto.
Qed.

(** Rows of other sessions are exactly the old ones. *)
Lemma evolves_others X S db db' :
  evolves X S db db' -> groups_wf db ->
  forall r, WxGroup.WxID r <> X -> (In r (wx_groups db') <-> In r (wx_groups db)).
Proof.
  intros Hev Hwf r Hne.
  destruct (Hev Hwf) as ((_ & Hnd' & _) & _ & _ & _ & Hold & Hnew & _).
  split.
  - intros Hr. destruct (Hnew r Hr) as [(r0 & Hr0 & Hid)|(Hw & _)]; [|contradiction].
    destruct (Hold r0 Hr0) as (r0' & Hr0' & _ & Hsame).
    assert (Hne0 : WxGroup.WxID r0 <> X) by (destruct Hid as (_ & Hw & _); congruence).
    rewrite (Hsame Hne0) in Hr0'.
    assert (r0 = r) as ->; [|exact Hr0].
    apply (NoDup_map_eq WxGroup.ID (wx_groups db')); auto.
    destruct Hid as (Hi & _). congruence.
  - intros Hr. destruct (Hold r Hr) as (r' & Hr' & _ & Hsame).
    rewrite (Hsame Hne) in Hr'. exact Hr'.
Qed.

Lemma kept_by_delete_other X G r :
  WxGroup.WxID r <> X -> kept_by_delete X G r = true.
Proof.
  intros Hne. unfold kept_by_delete. apply String.eqb_neq in Hne. rewrite Hne.
  reflexivity.
Qed.



Lemma processGroupSync_frame env db X groupResp :
  groups_wf db -> frame_for X db (snd (processGroupSync env db X groupResp)).
Proof.
  intros Hwf. unfold processGroupSync.
  destruct (processGroupSync_upserts_evolves env X
              (GroupListResponse.GroupList groupResp) db []) as (S & Hev & _).
  destruct (processGroupSync_upserts env db X _ []) as [[e db1] ids].
  cbn [fst snd] in Hev.
  pose proof (evolves_others X S db db1 Hev Hwf) as Hothers.
  destruct (Hev Hwf) as (Hwf1 & Hr & _ & Ha & _).
  assert (Hframe1 : frame_for X db db1).
  { split; [exact Hwf1|]. split; [exact Hr|]. split; [exact Ha|]. exact Hothers. }
  destruct e as [e|]; [exact Hframe1|].
  rewrite DeleteGroupsByWxIDNotInList_rows.
  destruct (fst (DeleteGroupsByWxIDNotInList env db1 X ids)); [exact Hframe1|].
  split; [apply groups_wf_filter; exact Hwf1|]. split; [exact Hr|].
  split; [exact Ha|]. intros r Hne. simpl. rewrite filter_In.
  rewrite (kept_by_delete_other X ids r Hne). rewrite <- (Hothers r Hne). tauto.
Qed.


Lemma syncGroupsForUser_frame env db user :
  groups_wf db ->
  frame_for (WxUserLogin.WxID user) db (snd (syncGroupsForUser env db user)).
Proof.
  intros Hwf.
  assert (Hsame : frame_for (WxUserLogin.WxID user) db db).
  { split; [exact Hwf|]. split; [reflexivity|]. split; [lia|]. intros; tauto. }
  unfold syncGroupsForUser.
  destruct (GetRobotByID env db _) as [robot|e]; [|exact Hsame].
  destruct (GetGroupList env _ _) as [groupResp|p e]; [|exact Hsame].
  destruct (negb _); [exact Hsame|].
  apply processGroupSync_frame. exact Hwf.
Qed.

(** A pass over sessions none of which is [X] leaves the rows of [X]. *)
Lemma sync_fold_frame env X users :
  (forall u, In u users -> WxUserLogin.WxID u <> X) ->
  forall db t,
    groups_wf db ->
    groups_wf (fst (fold_left (syncStep env) users (db, t)))
    /\ wx_robot_configs (fst (fold_left (syncStep env) users (db, t)))
       = wx_robot_configs db
    /\ groups_auto_increment db
       <= groups_auto_increment (fst (fold_left (syncStep env) users (db, t)))
    /\ (forall r, WxGroup.WxID r = X ->
          (In r (wx_groups (fst (fold_left (syncStep env) users (db, t))))
           <-> In r (wx_groups db))).
Proof.
  induction users as [|u us IH]; intros Hno db t Hwf; cbn [fold_left fst].
  - split; [exact Hwf|]. split; [reflexivity|]. split; [lia|]. intros; tauto.
  - assert (Hstep : exists t', syncStep env (db, t) u
                               = (snd (syncGroupsForUser env db u), t')).
    { unfold syncStep. destruct (syncGroupsForUser env db u) as [[e|] db1];
        eexists; reflexivity. }
    destruct Hstep as (t' & ->).
    destruct (syncGroupsForUser_frame env db u Hwf) as (Hwf1 & Hr1 & Ha1 & Ho1).
    destruct (IH (fun v Hv => Hno v (or_intror Hv))
                 (snd (syncGroupsForUser env db u)) t' Hwf1)
      as (Hwf2 & Hr2 & Ha2 & Ho2).
    split; [exact Hwf2|]. split; [congruence|]. split; [lia|].
    intros r Hw. rewrite (Ho2 r Hw). apply Ho1.
    rewrite Hw. intros Heq. apply (Hno u (or_introl eq_refl)). congruence.
Qed.





(** ** C1: group convergence *)




(* ===================================================================== *)
(** * Further properties of the modelled code *)
(* ===================================================================== *)

(** ** The eligible-bot query *)

Lemma queryMessageBots_rows db groupId q :
  In q
    (flat_map (fun g =>
       if String.eqb (WxGroup.GroupID g) groupId then
         flat_map (fun u =>
           if String.eqb (WxGroup.WxID g) (WxUserLogin.WxID u)
              && (WxUserLogin.Status u =? 1)
              && (WxUserLogin.IsMessageBot u =? 1)
              && (WxUserLogin.HasSecurityRisk u =? 0)
           then
             flat_map (fun r =>
               if WxUserLogin.RobotID u =? WxRobotConfig.ID r then
                 [mkQueryResult (WxUserLogin.ID u) (WxUserLogin.Token u)
                    (WxUserLogin.WxID u) (WxUserLogin.NickName u)
                    (WxRobotConfig.ID r) (WxRobotConfig.Address r)
                    (WxRobotConfig.AdminKey r)]
               else [])
               (wx_robot_configs db)
           else [])
           (wx_user_logins db)
       else [])
       (wx_groups db))
  <-> exists g u r, eligible db groupId g u r /\ q = selected_columns u r.
Proof.
  unfold eligible, selected_columns. rewrite in_flat_map. split.
  - intros (g & Hg & Hq).
    destruct (String.eqb (WxGroup.GroupID g) groupId) eqn:Egid; [|destruct Hq].
    apply in_flat_map in Hq. destruct Hq as (u & Hu & Hq).
    destruct (String.eqb (WxGroup.WxID g) (WxUserLogin.WxID u)
              && (WxUserLogin.Status u =? 1)
              && (WxUserLogin.IsMessageBot u =? 1)
              && (WxUserLogin.HasSecurityRisk u =? 0)) eqn:Eu; [|destruct Hq].
    apply in_flat_map in Hq. destruct Hq as (r & Hr & Hq).
    destruct (WxUserLogin.RobotID u =? WxRobotConfig.ID r) eqn:Er; [|destruct Hq].
    destruct Hq as [<-|[]].
    rewrite !andb_true_iff in Eu. destruct Eu as (((Ew & Es) & Eb) & Ek).
    apply String.eqb_eq in Egid, Ew. apply Z.eqb_eq in Es, Eb, Ek, Er.
    exists g, u, r. tauto.
  - intros (g & u & r & (Hg & Hu & Hr & Egid & Ew & Es & Eb & Ek & Er) & ->).
    exists g. split; [exact Hg|].
    rewrite (proj2 (String.eqb_eq _ _) Egid).
    apply in_flat_map. exists u. split; [exact Hu|].
    rewrite (proj2 (String.eqb_eq _ _) Ew), Es, Eb, Ek. cbn [Z.eqb Pos.eqb andb].
    apply in_flat_map. exists r. split; [exact Hr|].
    rewrite (proj2 (Z.eqb_eq _ _) Er). left. reflexivity.
Qed.

Lemma queryMessageBots_answer (env : Env) (db : DB) (groupId : string) :
  match queryMessageBots env db groupId with
  | Ok results =>
      fault env (QueryMessageBots groupId) = false
      /\ results <> []
      /\ (forall q, In q results <->
                    exists g u r, eligible db groupId g u r
                                  /\ q = selected_columns u r)
  | Err e =>
      (fault env (QueryMessageBots groupId) = true /\ e = ErrStorage)
      \/ (fault env (QueryMessageBots groupId) = false
          /\ e = ErrMsg "未找到可用的消息机器人"
          /\ forall g u r, ~ eligible db groupId g u r)
  end.
Proof.
  unfold queryMessageBots.
  destruct (fault env (QueryMessageBots groupId)); [left; auto|].
  pose proof (queryMessageBots_rows db groupId) as Hrows.
  destruct (flat_map _ (wx_groups db)) as [|q0 qs].
  - simpl. right. split; [reflexivity|]. split; [reflexivity|].
    intros g u r He. apply (proj2 (Hrows (selected_columns u r))). eauto.
  - replace (Z.of_nat (List.length (q0 :: qs)) =? 0) with false
      by (symmetry; apply Z.eqb_neq; simpl List.length; lia).
    split; [reflexivity|]. split; [discriminate|exact Hrows].
Qed.

(** X1.  The eligible-bot query answers a storage error when its statement
    fails; otherwise, when no (group, session, robot) triple is eligible
    for the group it answers the "no bot available" error, and when some
    is it answers a non-empty list holding exactly the selected columns of
    the eligible triples.  A triple is eligible for a group id when the
    group row has that group id, the session has the wxId of the group
    row, status 1, message-bot flag 1 and risk flag 0, and the robot is
    the one the session refers to; no column of the robot is tested. *)
Theorem X1_eligible_bot_query (env : Env) (db : DB) (groupId : string) :
  match queryMessageBots env db groupId with
  | Ok results =>
      fault env (QueryMessageBots groupId) = false
      /\ results <> []
      /\ (forall q, In q results <->
                    exists g u r, eligible db groupId g u r
                                  /\ q = selected_columns u r)
  | Err e =>
      (fault env (QueryMessageBots groupId) = true /\ e = ErrStorage)
      \/ (fault env (QueryMessageBots groupId) = false
          /\ e = ErrMsg "未找到可用的消息机器人"
          /\ forall g u r, ~ eligible db groupId g u r)
  end.
Proof. exact (queryMessageBots_answer env db groupId). Qed.

(** ** Selection never leaves the candidate list *)

Lemma index_in_range {A : Type} (l : list A) (i : Z) :
  0 <= i < Z.of_nat (List.length l) ->
  exists x, In x l /\ index l i = Ok x.
Proof.
  intros Hi. unfold index.
  replace (i <? 0) with false by (symmetry; apply Z.ltb_ge; lia).
  destruct (nth_error l (Z.to_nat i)) as [x|] eqn:E.
  - exists x. split; [eapply nth_error_In; exact E | reflexivity].
  - apply nth_error_None in E. lia.
Qed.

Lemma queryMessageBots_nonempty env db groupId candidates :
  queryMessageBots env db groupId = Ok candidates ->
  0 < Z.of_nat (List.length candidates).
Proof.
  intros Hq. pose proof (queryMessageBots_answer env db groupId) as H.
  rewrite Hq in H. destruct H as (_ & Hne & _).
  destruct candidates; [congruence | simpl List.length; lia].
Qed.

Lemma GetMessageBot_answers s env db groupId :
  cursor_ok s ->
  answers_query (env, db, groupId) (fst (GetMessageBot s env db groupId))
  /\ cursor_ok (snd (GetMessageBot s env db groupId)).
Proof.
  intros Hs. unfold answers_query, GetMessageBot. cbn [fst snd].
  destruct (queryMessageBots env db groupId) as [candidates|e] eqn:Hq;
    [|split; [reflexivity|exact Hs]].
  pose proof (queryMessageBots_nonempty env db groupId candidates Hq) as Hn.
  destruct s as [cursor|]; cbn [cursor_ok] in Hs.
  - assert (Hi : 0 <= Z.rem cursor (Z.of_nat (List.length candidates))
                 < Z.of_nat (List.length candidates)).
    { rewrite Z.rem_mod_nonneg by lia. apply Z.mod_pos_bound. lia. }
    destruct (index_in_range candidates _ Hi) as (c & Hc & ->). cbn [fst snd].
    split; [exists c; auto|]. cbn [cursor_ok].
    rewrite Z.rem_mod_nonneg by lia. apply Z.mod_pos_bound. lia.
  - assert (Hi : 0 <= rand_Int63 env mod Z.of_nat (List.length candidates)
                 < Z.of_nat (List.length candidates))
      by (apply Z.mod_pos_bound; lia).
    destruct (index_in_range candidates _ Hi) as (c & Hc & ->). cbn [fst snd].
    split; [exists c; auto | exact I].
Qed.

Lemma select_each_answers calls :
  forall s, cursor_ok s ->
    Forall2 answers_query calls (fst (select_each calls s))
    /\ cursor_ok (snd (select_each calls s)).
Proof.
  induction calls as [|[[env db] groupId] calls IH]; intros s Hs; cbn [select_each].
  - split; [constructor | exact Hs].
  - destruct (GetMessageBot_answers s env db groupId Hs) as [Ha Hs1].
    destruct (GetMessageBot s env db groupId) as [r s1]. cbn [fst snd] in Ha, Hs1.
    destruct (IH s1 Hs1) as [Hrest Hs2].
    destruct (select_each calls s1) as [rs s2]. cbn [fst snd] in *.
    split; [constructor; assumption | exact Hs2].
Qed.

(** X2.  Starting from a fresh round-robin instance or from the random
    strategy, over any sequence of selections (the store, the group and so
    the candidate list may differ from call to call), every selection
    answers either the error of its eligible-bot query or one of that
    query's candidates: the index is always inside the candidate list. *)
Theorem X2_selection_stays_in_range (calls : list (Env * DB * string)) :
  Forall2 answers_query calls
          (fst (select_each calls NewRoundRobinMessageSendStrategy))
  /\ Forall2 answers_query calls
             (fst (select_each calls NewRandomMessageSendStrategy)).
Proof.
  split.
  - apply select_each_answers. cbn. lia.
  - apply select_each_answers. exact I.
Qed.

(** ** Group upserts and syncs: repetition, failure, other sessions *)

Lemma first_by_least {A : Type} (key : A -> Z) (p : A -> bool) (rows : list A) x :
  first_by key p rows = Some x ->
  forall y, In y rows -> p y = true -> key x <= key y.
Proof.
  revert x. induction rows as [|a rows IH]; intros x Hf y Hy Hp; [destruct Hy|].
  cbn [first_by] in Hf. destruct (p a) eqn:Hpa.
  - destruct (first_by key p rows) as [z|] eqn:Hrest.
    + destruct (key z <? key a) eqn:Hlt; injection Hf as <-.
      * apply Z.ltb_lt in Hlt. destruct Hy as [<-|Hy]; [lia|].
        apply (IH z eq_refl y Hy Hp).
      * apply Z.ltb_ge in Hlt. destruct Hy as [<-|Hy]; [lia|].
        pose proof (IH z eq_refl y Hy Hp). lia.
    + injection Hf as <-. destruct Hy as [<-|Hy]; [lia|].
      rewrite first_by_None in Hrest. rewrite (Hrest y Hy) in Hp. discriminate.
  - destruct Hy as [<-|Hy]; [congruence|]. apply (IH x Hf y Hy Hp).
Qed.

(** X3.  An upsert repeated is a no-op: after SaveOrUpdateGroup has
    succeeded for a group value, saving the same value again (its lookup
    not hit by a storage fault) succeeds without writing, the store stays
    exactly as the first call left it. *)
Theorem X3_upsert_repeat_writes_nothing (env env' : Env) (db : DB)
  (group : WxGroup.t) :
  fst (SaveOrUpdateGroup env db group) = None ->
  fault env' (QueryGroupByKey (WxGroup.WxID group) (WxGroup.GroupID group)) = false ->
  SaveOrUpdateGroup env' (snd (SaveOrUpdateGroup env db group)) group
  = (None, snd (SaveOrUpdateGroup env db group)).
Proof.
  intros Hok Hf'.
  set (key := group_key_is (WxGroup.WxID group) (WxGroup.GroupID group)).
  assert (Hagain : forall db1 r,
            first_by WxGroup.ID key (wx_groups db1) = Some r ->
            WxGroup.GroupNickName r = WxGroup.GroupNickName group ->
            SaveOrUpdateGroup env' db1 group = (None, db1)).
  { intros db1 r Hfirst Hnick. unfold SaveOrUpdateGroup. rewrite Hf'.
    fold key. rewrite Hfirst, Hnick, String.eqb_refl. reflexivity. }
  assert (Hcreated : fst (create_group env db group) = None ->
            SaveOrUpdateGroup env' (snd (create_group env db group)) group
            = (None, snd (create_group env db group))).
  { unfold create_group. destruct (fault env _); [discriminate|].
    destruct (existsb _ (wx_groups db)) eqn:Hex; [discriminate|]. intros _.
    cbn [snd].
    match goal with
    | |- SaveOrUpdateGroup env' (mkDB _ _ (_ ++ [?row]) _ _) group = _ =>
        apply (Hagain _ row); [|reflexivity]
    end.
    cbn [wx_groups]. apply first_by_last.
    - intros r Hr. apply not_true_is_false. intros Hk.
      assert (Hc : existsb
        (fun g => (WxGroup.ID g =?
                   (if WxGroup.ID group =? 0 then groups_auto_increment db
                    else WxGroup.ID group))
                  || group_key_is (WxGroup.WxID group) (WxGroup.GroupID group) g)
        (wx_groups db) = true).
      { apply existsb_exists. exists r. split; [exact Hr|].
        unfold key in Hk. rewrite Hk. apply orb_true_r. }
      congruence.
    - unfold key, group_key_is. simpl. rewrite !String.eqb_refl. reflexivity. }
  unfold SaveOrUpdateGroup in Hok |- *.
  destruct (fault env (QueryGroupByKey _ _)); [exact (Hcreated Hok)|].
  fold key in Hok |- *.
  destruct (first_by WxGroup.ID key (wx_groups db)) as [existing|] eqn:Hfirst;
    [|exact (Hcreated Hok)].
  destruct (first_by_In _ _ _ _ Hfirst) as [Hin Hkey].
  destruct (negb (String.eqb (WxGroup.GroupNickName existing)
                             (WxGroup.GroupNickName group))) eqn:Hdiff.
  - set (written := WxGroup.with_GroupNickName (WxGroup.GroupNickName group) existing)
      in *.
    unfold save_group in Hok |- *.
    destruct (WxGroup.ID written =? 0) eqn:Hz.
    { exfalso. apply (create_group_duplicate env db existing written Hin);
        [reflexivity|reflexivity|exact Hok]. }
    destruct (fault env (SaveGroupRow _)); [discriminate|]. cbn [snd].
    set (f := fun x : WxGroup.t =>
                if WxGroup.ID x =? WxGroup.ID written
                then WxGroup.with_UpdateTime (now env) written else x).
    assert (Hfex : f existing = WxGroup.with_UpdateTime (now env) written).
    { unfold f. replace (WxGroup.ID written) with (WxGroup.ID existing) by reflexivity.
      rewrite Z.eqb_refl. reflexivity. }
    assert (Hfound : exists r2, first_by WxGroup.ID key (map f (wx_groups db)) = Some r2).
    { apply (first_by_found WxGroup.ID key (map f (wx_groups db)) (f existing)).
      - apply in_map. exact Hin.
      - rewrite Hfex. exact Hkey. }
    destruct Hfound as (r2 & Hr2).
    apply (Hagain _ r2); [exact Hr2|].
    destruct (first_by_In _ _ _ _ Hr2) as [Hin2 Hkey2].
    apply in_map_iff in Hin2. destruct Hin2 as (r & Hfr & Hr).
    unfold f in Hfr. destruct (WxGroup.ID r =? WxGroup.ID written) eqn:E.
    + rewrite <- Hfr. reflexivity.
    + exfalso. subst r2. apply Z.eqb_neq in E.
      pose proof (first_by_least WxGroup.ID key _ _ Hfirst r Hr Hkey2) as H1.
      assert (Hin3 : In (f existing) (map f (wx_groups db))) by (apply in_map; exact Hin).
      assert (Hk3 : key (f existing) = true) by (rewrite Hfex; exact Hkey).
      pose proof (first_by_least WxGroup.ID key _ _ Hr2 (f existing) Hin3 Hk3) as H2.
      rewrite Hfex in H2. simpl in H2, E. lia.
  - cbn [snd]. apply (Hagain db existing Hfirst).
    apply negb_false_iff in Hdiff. apply String.eqb_eq in Hdiff. exact Hdiff.
Qed.

Lemma X3_upsert_repeat_writes_nothing_witness :
  SaveOrUpdateGroup (offline_env 9)
    (snd (SaveOrUpdateGroup (offline_env 5) db_abc
            (WxGroup.mk 0 "wx_a" "gB" "B renamed" 0 0)))
    (WxGroup.mk 0 "wx_a" "gB" "B renamed" 0 0)
  = (None,
     mkDB [robot1]
          [session 1 "wx_a" "A" 1 1; session 2 "wx_b" "B" 1 1]
          [group_row 1 "wx_a" "gA" "A";
           WxGroup.mk 2 "wx_a" "gB" "B renamed" 100 5;
           group_row 3 "wx_a" "gC" "C"; group_row 4 "wx_b" "gZ" "Z"]
          3 5).
Proof.
  apply (X3_upsert_repeat_writes_nothing (offline_env 5) (offline_env 9) db_abc
           (WxGroup.mk 0 "wx_a" "gB" "B renamed" 0 0)); reflexivity.
Defined.

Lemma evolves_kept X S db db' :
  evolves X S db db' -> groups_wf db -> groups_wf db' /\ groups_kept db db'.
Proof.
  intros Hev Hwf. destruct (Hev Hwf) as (Hwf' & _ & _ & _ & Hold & _).
  split; [exact Hwf'|]. intros r Hr. destruct (Hold r Hr) as (r' & Hr' & Hid & _).
  eauto.
Qed.

Lemma groups_kept_refl db : groups_kept db db.
Proof. intros r Hr. exists r. auto using same_identity_refl. Qed.

Lemma groups_kept_trans db1 db2 db3 :
  groups_kept db1 db2 -> groups_kept db2 db3 -> groups_kept db1 db3.
Proof.
  intros H12 H23 r Hr. destruct (H12 r Hr) as (r2 & Hr2 & Hid2).
  destruct (H23 r2 Hr2) as (r3 & Hr3 & Hid3).
  exists r3. split; [exact Hr3 | eapply same_identity_trans; eassumption].
Qed.

Lemma processGroupSync_failed_keeps env db X groupResp :
  groups_wf db ->
  fst (processGroupSync env db X groupResp) <> None ->
  groups_wf (snd (processGroupSync env db X groupResp))
  /\ groups_kept db (snd (processGroupSync env db X groupResp)).
Proof.
  intros Hwf Hfail. unfold processGroupSync in *.
  destruct (processGroupSync_upserts_evolves env X
              (GroupListResponse.GroupList groupResp) db []) as (S & Hev & _).
  destruct (processGroupSync_upserts env db X _ []) as [[e db1] ids].
  cbn [fst snd] in Hev.
  destruct e as [e|]; [exact (evolves_kept X S db db1 Hev Hwf)|].
  rewrite DeleteGroupsByWxIDNotInList_rows.
  destruct (fst (DeleteGroupsByWxIDNotInList env db1 X ids)); [|congruence].
  exact (evolves_kept X S db db1 Hev Hwf).
Qed.

(** X4.  A group sync of one session that returns an error has deleted
    nothing: on a well-formed group table, every group row that was
    persisted before (of any session) is still persisted afterwards with
    its primary key, natural key and creation time, and the table is still
    well-formed. *)
Theorem X4_failed_sync_deletes_nothing (env : Env) (db : DB)
  (user : WxUserLogin.t) :
  groups_wf db ->
  fst (syncGroupsForUser env db user) <> None ->
  groups_wf (snd (syncGroupsForUser env db user))
  /\ forall r, In r (wx_groups db) ->
       exists r', In r' (wx_groups (snd (syncGroupsForUser env db user)))
                  /\ same_identity r r'.
Proof.
  intros Hwf. unfold syncGroupsForUser.
  destruct (GetRobotByID env db _) as [robot|e];
    [|intros _; split; [exact Hwf | apply groups_kept_refl]].
  destruct (GetGroupList env _ _) as [groupResp|p e];
    [|intros _; split; [exact Hwf | apply groups_kept_refl]].
  destruct (negb _); [intros H; exfalso; apply H; reflexivity|].
  apply processGroupSync_failed_keeps. exact Hwf.
Qed.

Lemma db_abc_wf : groups_wf db_abc.
Proof.
  split; [reflexivity|]. split.
  - unfold group_ids; simpl. repeat constructor; simpl; intuition discriminate.
  - simpl. repeat constructor.
Qed.

Lemma X4_failed_sync_deletes_nothing_witness :
  fst (syncGroupsForUser env_insert_fails db_abc (session 1 "wx_a" "A" 1 1))
  = Some ErrStorage
  /\ exists r',
       In r' (wx_groups (snd (syncGroupsForUser env_insert_fails db_abc
                                (session 1 "wx_a" "A" 1 1))))
       /\ same_identity (group_row 1 "wx_a" "gA" "A") r'.
Proof.
  split; [reflexivity|].
  apply (X4_failed_sync_deletes_nothing env_insert_fails db_abc
           (session 1 "wx_a" "A" 1 1) db_abc_wf).
  - discriminate.
  - simpl. auto.
Defined.

(** X5.  A group sync of one session, whatever its result, touches no
    other session's groups: on a well-formed group table the group rows of
    every other wxId are exactly the old ones, the session and robot tables
    are unchanged, and the table stays well-formed. *)
Theorem X5_sync_leaves_other_sessions (env : Env) (db : DB)
  (user : WxUserLogin.t) :
  groups_wf db ->
  groups_wf (snd (syncGroupsForUser env db user))
  /\ wx_user_logins (snd (syncGroupsForUser env db user)) = wx_user_logins db
  /\ wx_robot_configs (snd (syncGroupsForUser env db user)) = wx_robot_configs db
  /\ forall r, WxGroup.WxID r <> WxUserLogin.WxID user ->
       (In r (wx_groups (snd (syncGroupsForUser env db user)))
        <-> In r (wx_groups db)).
Proof.
  intros Hwf.
  destruct (syncGroupsForUser_frame env db user Hwf) as (Hwf' & Hr & _ & Ho).
  split; [exact Hwf'|]. split; [apply syncGroupsForUser_users|].
  split; [exact Hr | exact Ho].
Qed.

Lemma X5_sync_leaves_other_sessions_witness :
  In (group_row 4 "wx_b" "gZ" "Z")
     (wx_groups (snd (syncGroupsForUser env_bcd db_abc (session 1 "wx_a" "A" 1 1))))
  <-> In (group_row 4 "wx_b" "gZ" "Z") (wx_groups db_abc).
Proof.
  apply (X5_sync_leaves_other_sessions env_bcd db_abc
           (session 1 "wx_a" "A" 1 1) db_abc_wf).
  discriminate.
Defined.

(** ** The login-status tick and selection *)

Lemma relogin_pass_cases env db users row :
  relogin_pass env db users row = row
  \/ relogin_pass env db users row = relogin_row env row.
Proof. unfold relogin_pass. destruct (existsb _ users); auto. Qed.

Lemma Forall2_map_cases env (f : WxUserLogin.t -> WxUserLogin.t) rows :
  (forall row, f row = row \/ f row = relogin_row env row) ->
  Forall2 (fun u u' => u' = u \/ u' = relogin_row env u) rows (map f rows).
Proof.
  intros Hf. induction rows as [|u us IH]; cbn [map]; constructor; auto.
Qed.

Lemma CheckLoginStatus_store env db :
  snd (fst (CheckLoginStatus env db)) = db
  \/ (fault env QueryActiveUsers = false
      /\ snd (fst (CheckLoginStatus env db))
         = mkDB (wx_robot_configs db)
                (map (relogin_pass env db
                        (filter (fun u => WxUserLogin.Status u =? 1)
                                (wx_user_logins db)))
                     (wx_user_logins db))
                (wx_groups db) (users_auto_increment db) (groups_auto_increment db)).
Proof.
  destruct (fault env QueryActiveUsers) eqn:Hf.
  - left. unfold CheckLoginStatus, GetActiveUsers. rewrite Hf. reflexivity.
  - right. split; [reflexivity|]. rewrite (CheckLoginStatus_pass env db Hf).
    reflexivity.
Qed.

(** X6.  A login-status tick writes nothing but the status and update time
    of session rows: the robot and group tables and both AUTO_INCREMENT
    counters are as before, the session table has the same rows in the
    same order, and each row is either untouched or the old row with
    status 3 and the tick's time as update time. *)
Theorem X6_login_tick_writes_only_status (env : Env) (db : DB) :
  wx_robot_configs (snd (fst (CheckLoginStatus env db))) = wx_robot_configs db
  /\ wx_groups (snd (fst (CheckLoginStatus env db))) = wx_groups db
  /\ users_auto_increment (snd (fst (CheckLoginStatus env db)))
     = users_auto_increment db
  /\ groups_auto_increment (snd (fst (CheckLoginStatus env db)))
     = groups_auto_increment db
  /\ Forall2 (fun u u' => u' = u \/ u' = relogin_row env u)
             (wx_user_logins db)
             (wx_user_logins (snd (fst (CheckLoginStatus env db)))).
Proof.
  destruct (CheckLoginStatus_store env db) as [->|[_ ->]]; cbn [wx_robot_configs
    wx_groups users_auto_increment groups_auto_increment wx_user_logins].
  - repeat split. induction (wx_user_logins db); constructor; auto.
  - repeat split. apply Forall2_map_cases. apply relogin_pass_cases.
Qed.

Lemma login_outcome_300 env db user robot resp :
  GetRobotByID env db (WxUserLogin.RobotID user) = Ok robot ->
  http_CheckCanSetAlias env (WxRobotConfig.Address robot) (WxUserLogin.Token user)
  = Parsed resp ->
  CheckCanSetAliasResponse.Code resp = 300 ->
  fault env (UpdateStatusColumn (WxUserLogin.ID user)) = false ->
  login_outcome env db user = MustRelogin.
Proof.
  intros Hr Hh Hc Hf. unfold login_outcome, CheckCanSetAlias.
  rewrite Hr, Hh, Hc, Hf. cbn [Z.eqb Pos.eqb negb andb]. rewrite Hc. reflexivity.
Qed.

Lemma relogin_session_not_candidate env db user env' groupId candidates :
  fault env QueryActiveUsers = false ->
  In user (wx_user_logins db) ->
  WxUserLogin.Status user = 1 ->
  login_outcome env db user = MustRelogin ->
  queryMessageBots env' (snd (fst (CheckLoginStatus env db))) groupId = Ok candidates ->
  forall q, In q candidates -> UserID q <> WxUserLogin.ID user.
Proof.
  intros Hf Hin Hst Ho Hq q Hqin Heq.
  pose proof (queryMessageBots_answer env' (snd (fst (CheckLoginStatus env db))) groupId)
    as Hans.
  rewrite Hq in Hans. destruct Hans as (_ & _ & Hrows).
  apply Hrows in Hqin.
  destruct Hqin as (g & u' & r & (_ & Hu' & _ & _ & _ & Hs' & _) & ->).
  cbn [UserID selected_columns] in Heq.
  rewrite (CheckLoginStatus_pass env db Hf) in Hu'. cbn [fst snd wx_user_logins] in Hu'.
  apply in_map_iff in Hu'. destruct Hu' as (row & <- & Hrow).
  rewrite relogin_pass_id in Heq.
  unfold relogin_pass in Hs'.
  replace (existsb _ _) with true in Hs'; [discriminate|].
  symmetry. apply existsb_exists. exists user. split.
  - apply filter_In. split; [exact Hin | apply Z.eqb_eq; exact Hst].
  - rewrite Ho. cbn [LoginOutcome_eqb andb]. apply Z.eqb_eq. congruence.
Qed.

(** X7.  A session the login-status tick has just sent to re-login is no
    longer a message-bot candidate: if the tick's intake query works, the
    session (persisted, status 1) resolves its robot, its CheckCanSetAlias
    call answers code 300 and the status update is not hit by a fault,
    then in the store the tick leaves no eligible-bot query, for any
    group, lists a candidate with that session's id. *)
Theorem X7_relogin_session_not_selected (env env' : Env) (db : DB)
  (user : WxUserLogin.t) (robot : WxRobotConfig.t)
  (resp : CheckCanSetAliasResponse.t) (groupId : string)
  (candidates : list messageBotQueryResult) :
  fault env QueryActiveUsers = false ->
  In user (wx_user_logins db) ->
  WxUserLogin.Status user = 1 ->
  GetRobotByID env db (WxUserLogin.RobotID user) = Ok robot ->
  http_CheckCanSetAlias env (WxRobotConfig.Address robot) (WxUserLogin.Token user)
  = Parsed resp ->
  CheckCanSetAliasResponse.Code resp = 300 ->
  fault env (UpdateStatusColumn (WxUserLogin.ID user)) = false ->
  queryMessageBots env' (snd (fst (CheckLoginStatus env db))) groupId = Ok candidates ->
  forall q, In q candidates -> UserID q <> WxUserLogin.ID user.
Proof.
  intros Hf Hin Hst Hr Hh Hc Hu Hq.
  apply (relogin_session_not_candidate env db user env' groupId candidates Hf Hin Hst);
    [|exact Hq].
  exact (login_outcome_300 env db user robot resp Hr Hh Hc Hu).
Qed.

Lemma X7_relogin_session_not_selected_witness :
  queryMessageBots (offline_env 5) (snd (fst (CheckLoginStatus env_relogin rr_db)))
                   "g@chatroom"
  = Ok [mkQueryResult 2 "tok-wx_b" "wx_b" "B" 1 "http://10.0.0.1:8080" "admin";
        mkQueryResult 3 "tok-wx_c" "wx_c" "C" 1 "http://10.0.0.1:8080" "admin"]
  /\ forall q,
       In q [mkQueryResult 2 "tok-wx_b" "wx_b" "B" 1 "http://10.0.0.1:8080" "admin";
             mkQueryResult 3 "tok-wx_c" "wx_c" "C" 1 "http://10.0.0.1:8080" "admin"] ->
       UserID q <> 1.
Proof.
  split; [reflexivity|].
  apply (X7_relogin_session_not_selected env_relogin (offline_env 5) rr_db
           (session 1 "wx_a" "A" 1 1) robot1
           (CheckCanSetAliasResponse.mk 300 [] "") "g@chatroom"); try reflexivity.
  simpl. auto.
Defined.

(** ** The initialization job *)

Lemma UpdateUserInitializationStatus_cases env db userID :
  (fst (UpdateUserInitializationStatus env db userID) <> None
   /\ snd (UpdateUserInitializationStatus env db userID) = db)
  \/ (fst (UpdateUserInitializationStatus env db userID) = None
      /\ snd (UpdateUserInitializationStatus env db userID)
         = set_users (update_where_id WxUserLogin.ID userID (initialized_row env)
                        (wx_user_logins db)) db).
Proof.
  unfold UpdateUserInitializationStatus. destruct (fault env _); cbn [fst snd].
  - left. split; [discriminate|reflexivity].
  - right. split; reflexivity.
Qed.

(** X8.  The initialization job marks a session only at the end of a
    complete run: a processUser call that returns an error leaves the
    session table as it was; and whenever the session table changes, the
    robot resolved, the init-status call answered code 200 with [true],
    the group-list call answered code 200, every group was saved, no error
    is returned, and the change is exactly that the rows of the session's
    id got [is_initialized = 1] and the current update time. *)
Theorem X8_initialization_marks_only_after_success (env : Env) (db : DB)
  (user : WxUserLogin.t) :
  (fst (processUser env db user) <> None ->
   wx_user_logins (snd (processUser env db user)) = wx_user_logins db)
  /\ (wx_user_logins (snd (processUser env db user)) <> wx_user_logins db ->
      exists robot initResp groupResp,
        GetRobotByID env db (WxUserLogin.RobotID user) = Ok robot
        /\ http_GetInItStatus env (WxRobotConfig.Address robot) (WxUserLogin.Token user)
           = Parsed initResp
        /\ GetInitStatusResponse.Code initResp = 200
        /\ GetInitStatusResponse.Data initResp = true
        /\ http_GroupList env (WxRobotConfig.Address robot) (WxUserLogin.Token user)
           = Parsed groupResp
        /\ GroupListResponse.Code groupResp = 200
        /\ fst (saveGroupInfo env db (WxUserLogin.WxID user) groupResp) = None
        /\ fst (processUser env db user) = None
        /\ wx_user_logins (snd (processUser env db user))
           = update_where_id WxUserLogin.ID (WxUserLogin.ID user)
               (initialized_row env) (wx_user_logins db)).
Proof.
  unfold processUser.
  destruct (GetRobotByID env db (WxUserLogin.RobotID user)) as [robot|e] eqn:Hrobot;
    [|split; [reflexivity | intros H; exfalso; apply H; reflexivity]].
  unfold GetInitStatus, isSuccess.
  destruct (http_GetInItStatus env _ _) as [d|d|initResp] eqn:Hinit;
    try (split; [reflexivity | intros H; exfalso; apply H; reflexivity]).
  destruct (GetInitStatusResponse.Code initResp =? 200) eqn:Hcode; cbn [negb];
    [|split; [reflexivity | intros H; exfalso; apply H; reflexivity]].
  rewrite Hcode. cbn [andb].
  destruct (GetInitStatusResponse.Data initResp) eqn:Hdata; cbn [negb].
  2:{ destruct (GetGroupsByWxID env db _) as [groups|e];
        [destruct (Z.of_nat _ >? 0)|];
        (split; [reflexivity | intros H; exfalso; apply H; reflexivity]). }
  unfold GetGroupList, isSuccess.
  destruct (http_GroupList env _ _) as [d|d|groupResp] eqn:Hlist;
    try (split; [reflexivity | intros H; exfalso; apply H; reflexivity]).
  destruct (GroupListResponse.Code groupResp =? 200) eqn:Hgcode; cbn [negb];
    [|split; [reflexivity | intros H; exfalso; apply H; reflexivity]].
  pose proof (saveGroupInfo_users env db (WxUserLogin.WxID user) groupResp) as Hsave.
  destruct (saveGroupInfo env db (WxUserLogin.WxID user) groupResp) as [[e|] db1] eqn:Hs;
    cbn [fst snd] in *.
  { split; [intros _; exact Hsave | intros H; exfalso; apply H; exact Hsave]. }
  destruct (UpdateUserInitializationStatus_cases env db1 (WxUserLogin.ID user))
    as [[Hfail Hdb]|[Hok Hdb]]; rewrite Hdb.
  - split; [intros _; exact Hsave | intros H; exfalso; apply H; exact Hsave].
  - split; [intros H; exfalso; apply H; exact Hok|]. intros _.
    exists robot, initResp, groupResp. apply Z.eqb_eq in Hcode, Hgcode.
    repeat split; auto.
    + rewrite Hs. reflexivity.
    + cbn [set_users wx_user_logins]. rewrite Hsave. reflexivity.
Qed.

Lemma initialized_row_again env u :
  initialized_row env (initialized_row env u) = initialized_row env u.
Proof. destruct u; reflexivity. Qed.

Lemma initialized_row_ID env u :
  WxUserLogin.ID (initialized_row env u) = WxUserLogin.ID u.
Proof. destruct u; reflexivity. Qed.

Lemma saveGroupInfo_upserts_evolves env X groupList :
  forall db, exists S, evolves X S db (snd (saveGroupInfo_upserts env db X groupList)).
Proof.
  induction groupList as [|g gs IH]; intros db; cbn [saveGroupInfo_upserts].
  - exists []. apply evolves_refl.
  - pose proof (SaveOrUpdateGroup_step env db
                  (WxGroup.mk 0 X (GroupListResponse.UserName g)
                              (GroupListResponse.NickName g) 0 0) eq_refl) as Hstep.
    cbn [WxGroup.WxID WxGroup.GroupID] in Hstep.
    destruct (SaveOrUpdateGroup env db _) as [[e|] db1]; cbn [fst snd] in *.
    + exists []. exact Hstep.
    + destruct (IH db1) as (S & HS). eexists.
      eapply evolves_trans; [exact Hstep | exact HS].
Qed.

Lemma saveGroupInfo_evolves env db X groupResp :
  exists S, evolves X S db (snd (saveGroupInfo env db X groupResp)).
Proof.
  unfold saveGroupInfo. destruct (_ || _).
  - exists []. apply evolves_refl.
  - apply saveGroupInfo_upserts_evolves.
Qed.

Lemma groups_wf_same db db' :
  wx_groups db' = wx_groups db ->
  groups_auto_increment db' = groups_auto_increment db ->
  groups_wf db -> groups_wf db'.
Proof.
  unfold groups_wf, group_ids. intros -> ->. auto.
Qed.

Lemma processUser_store env db user :
  groups_wf db ->
  groups_wf (snd (processUser env db user))
  /\ wx_robot_configs (snd (processUser env db user)) = wx_robot_configs db
  /\ groups_kept db (snd (processUser env db user))
  /\ (forall r, WxGroup.WxID r <> WxUserLogin.WxID user ->
        (In r (wx_groups (snd (processUser env db user)))
         <-> In r (wx_groups db)))
  /\ (wx_user_logins (snd (processUser env db user)) = wx_user_logins db
      \/ wx_user_logins (snd (processUser env db user))
         = update_where_id WxUserLogin.ID (WxUserLogin.ID user)
             (initialized_row env) (wx_user_logins db)).
Proof.
  intros Hwf.
  assert (Hsame : groups_wf db
                  /\ wx_robot_configs db = wx_robot_configs db
                  /\ groups_kept db db
                  /\ (forall r, WxGroup.WxID r <> WxUserLogin.WxID user ->
                        (In r (wx_groups db) <-> In r (wx_groups db)))
                  /\ (wx_user_logins db = wx_user_logins db
                      \/ wx_user_logins db
                         = update_where_id WxUserLogin.ID (WxUserLogin.ID user)
                             (initialized_row env) (wx_user_logins db))).
  { split; [exact Hwf|]. split; [reflexivity|]. split; [apply groups_kept_refl|].
    split; [intros; reflexivity | left; reflexivity]. }
  unfold processUser.
  destruct (GetRobotByID env db (WxUserLogin.RobotID user)) as [robot|e];
    [|exact Hsame].
  destruct (GetInitStatus env _ _) as [initResp|d e]; [|exact Hsame].
  destruct (negb _).
  { destruct (GetGroupsByWxID env db _) as [groups|e];
      [destruct (Z.of_nat _ >? 0)|]; exact Hsame. }
  destruct (GetGroupList env _ _) as [groupResp|d e]; [|exact Hsame].
  destruct (saveGroupInfo_evolves env db (WxUserLogin.WxID user) groupResp)
    as (S & Hev).
  pose proof (evolves_others (WxUserLogin.WxID user) S db _ Hev Hwf) as Hothers.
  destruct (evolves_kept (WxUserLogin.WxID user) S db _ Hev Hwf) as (Hwf1 & Hkept).
  destruct (Hev Hwf) as (_ & Hrobots & Husers & _).
  clear Hev Hsame.
  destruct (saveGroupInfo env db (WxUserLogin.WxID user) groupResp) as [[e|] db1];
    cbn [fst snd] in *.
  - split; [exact Hwf1|]. split; [exact Hrobots|]. split; [exact Hkept|].
    split; [exact Hothers | left; exact Husers].
  - unfold UpdateUserInitializationStatus.
    destruct (fault env _); cbn [snd].
    + split; [exact Hwf1|]. split; [exact Hrobots|]. split; [exact Hkept|].
      split; [exact Hothers | left; exact Husers].
    + split; [exact (groups_wf_same db1 _ eq_refl eq_refl Hwf1)|].
      split; [exact Hrobots|]. split; [exact Hkept|].
      split; [exact Hothers|]. right. cbn [set_users wx_user_logins].
      rewrite Husers. reflexivity.
Qed.

Lemma init_marks_after env id ids rows rows' :
  Forall2 (init_marks env ids)
          (update_where_id WxUserLogin.ID id (initialized_row env) rows) rows' ->
  Forall2 (init_marks env (id :: ids)) rows rows'.
Proof.
  revert rows'. unfold update_where_id.
  induction rows as [|u us IH]; intros rows' H; cbn [map] in H; inversion H; subst;
    constructor; [|apply IH; assumption].
  match goal with Hm : init_marks _ _ _ _ |- _ => destruct Hm as [->|[Hin ->]] end.
  - destruct (WxUserLogin.ID u =? id) eqn:E.
    + right. split; [left; symmetry; apply Z.eqb_eq; exact E | reflexivity].
    + left. reflexivity.
  - destruct (WxUserLogin.ID u =? id) eqn:E.
    + right. split; [left; symmetry; apply Z.eqb_eq; exact E|].
      apply initialized_row_again.
    + right. split; [right; exact Hin | reflexivity].
Qed.

Lemma init_marks_more env id ids rows rows' :
  Forall2 (init_marks env ids) rows rows' ->
  Forall2 (init_marks env (id :: ids)) rows rows'.
Proof.
  induction 1 as [|u u' us us' Hm _ IH]; constructor; [|exact IH].
  destruct Hm as [->|[Hin ->]]; [left; reflexivity|].
  right. split; [right; exact Hin | reflexivity].
Qed.

Lemma init_marks_same env rows : Forall2 (init_marks env []) rows rows.
Proof. induction rows; constructor; [left; reflexivity | assumption]. Qed.

Lemma init_fold env users :
  forall db,
    groups_wf db ->
    groups_wf (fold_left (fun d user => snd (processUser env d user)) users db)
    /\ wx_robot_configs (fold_left (fun d user => snd (processUser env d user)) users db)
       = wx_robot_configs db
    /\ groups_kept db (fold_left (fun d user => snd (processUser env d user)) users db)
    /\ (forall r, ~ In (WxGroup.WxID r) (map WxUserLogin.WxID users) ->
          (In r (wx_groups (fold_left (fun d user => snd (processUser env d user))
                                      users db))
           <-> In r (wx_groups db)))
    /\ Forall2 (init_marks env (map WxUserLogin.ID users))
               (wx_user_logins db)
               (wx_user_logins
                  (fold_left (fun d user => snd (processUser env d user)) users db)).
Proof.
  induction users as [|u us IH]; intros db Hwf; cbn [fold_left map].
  - split; [exact Hwf|]. split; [reflexivity|]. split; [apply groups_kept_refl|].
    split; [intros; reflexivity | apply init_marks_same].
  - destruct (processUser_store env db u Hwf) as (Hwf1 & Hrob1 & Hkept1 & Hoth1 & Hus1).
    destruct (IH _ Hwf1) as (Hwf2 & Hrob2 & Hkept2 & Hoth2 & Hus2).
    split; [exact Hwf2|]. split; [congruence|].
    split; [eapply groups_kept_trans; eassumption|]. split.
    + intros r Hr. rewrite Hoth2, Hoth1; [reflexivity| |]; intros Hc; apply Hr;
        [left; symmetry; exact Hc | right; exact Hc].
    + destruct Hus1 as [E|E]; rewrite E in Hus2.
      * apply init_marks_more. exact Hus2.
      * apply init_marks_after. exact Hus2.
Qed.

(** X9.  An initialization tick over a well-formed group table deletes no
    group row and writes no robot: every group row persisted before is
    still persisted with its primary key, natural key and creation time;
    group rows of a wxId that no uninitialized active session carries are
    exactly the old ones; the session table keeps its rows in order, each
    either untouched or marked initialized (with the tick's time), and a
    marked row carries the id of a session that was active and
    uninitialized when the tick started. *)
Theorem X9_initialization_tick_store (env : Env) (db : DB) :
  groups_wf db ->
  groups_wf (snd (CheckInitializationStatus env db))
  /\ wx_robot_configs (snd (CheckInitializationStatus env db)) = wx_robot_configs db
  /\ (forall r, In r (wx_groups db) ->
        exists r', In r' (wx_groups (snd (CheckInitializationStatus env db)))
                   /\ same_identity r r')
  /\ (forall r,
        (forall v, In v (wx_user_logins db) -> WxUserLogin.IsInitialized v = 0 ->
                   WxUserLogin.Status v = 1 -> WxUserLogin.WxID v <> WxGroup.WxID r) ->
        (In r (wx_groups (snd (CheckInitializationStatus env db)))
         <-> In r (wx_groups db)))
  /\ Forall2 (fun u u' =>
                u' = u
                \/ (u' = initialized_row env u
                    /\ exists v, In v (wx_user_logins db)
                                 /\ WxUserLogin.IsInitialized v = 0
                                 /\ WxUserLogin.Status v = 1
                                 /\ WxUserLogin.ID v = WxUserLogin.ID u))
             (wx_user_logins db)
             (wx_user_logins (snd (CheckInitializationStatus env db))).
Proof.
  intros Hwf. unfold CheckInitializationStatus, getUninitializedUsers,
    GetUninitializedUsers.
  assert (Hsame : forall (R : WxUserLogin.t -> WxUserLogin.t -> Prop) rows,
             (forall u, R u u) -> Forall2 R rows rows).
  { intros R rows HR. induction rows; constructor; auto. }
  destruct (fault env QueryUninitializedUsers); cbn [snd];
    [split; [exact Hwf|]; split; [reflexivity|];
     split; [exact (groups_kept_refl db)|]; split; [intros; reflexivity|];
     apply Hsame; auto|].
  destruct (Z.of_nat _ =? 0); cbn [snd];
    [split; [exact Hwf|]; split; [reflexivity|];
     split; [exact (groups_kept_refl db)|]; split; [intros; reflexivity|];
     apply Hsame; auto|].
  destruct (init_fold env
              (filter (fun u => (WxUserLogin.IsInitialized u =? 0)
                                && (WxUserLogin.Status u =? 1)) (wx_user_logins db))
              db Hwf) as (Hwf' & Hrob & Hkept & Hoth & Hus).
  split; [exact Hwf'|]. split; [exact Hrob|]. split; [exact Hkept|]. split.
  - intros r Hr. apply Hoth. intros Hin. apply in_map_iff in Hin.
    destruct Hin as (v & Hv & Hvin). apply filter_In in Hvin.
    destruct Hvin as (Hvin & Hb). apply andb_true_iff in Hb. destruct Hb as (Hi & Hs).
    apply Z.eqb_eq in Hi, Hs. exact (Hr v Hvin Hi Hs Hv).
  - eapply Forall2_impl; [|exact Hus]. intros u u' [->|[Hin ->]]; [left; reflexivity|].
    right. split; [reflexivity|]. apply in_map_iff in Hin.
    destruct Hin as (v & Hv & Hvin). apply filter_In in Hvin.
    destruct Hvin as (Hvin & Hb). apply andb_true_iff in Hb. destruct Hb as (Hi & Hs).
    apply Z.eqb_eq in Hi, Hs. exists v. auto.
Qed.

Lemma db_uninitialized_wf : groups_wf db_uninitialized.
Proof.
  split; [reflexivity|]. split.
  - unfold group_ids; simpl. repeat constructor; simpl; intuition discriminate.
  - simpl. repeat constructor.
Qed.

Lemma X9_initialization_tick_store_witness :
  wx_user_logins (snd (CheckInitializationStatus env_init_ready db_uninitialized))
  = [initialized_row env_init_ready (session 1 "wx_a" "A" 1 0);
     session 2 "wx_b" "B" 1 1]
  /\ wx_groups (snd (CheckInitializationStatus env_init_ready db_uninitialized))
     = [group_row 4 "wx_b" "gZ" "Z"; WxGroup.mk 5 "wx_a" "gB" "B" 80 80]
  /\ groups_wf (snd (CheckInitializationStatus env_init_ready db_uninitialized)).
Proof.
  split; [reflexivity|]. split; [reflexivity|].
  apply (X9_initialization_tick_store env_init_ready db_uninitialized
           db_uninitialized_wf).
Defined.

(** ** What the ticks leave alone *)

Lemma sync_fold_users env users :
  forall db t,
    wx_user_logins (fst (fold_left (syncStep env) users (db, t))) = wx_user_logins db.
Proof.
  induction users as [|u us IH]; intros db t; cbn [fold_left fst]; [reflexivity|].
  assert (Hstep : exists t', syncStep env (db, t) u
                             = (snd (syncGroupsForUser env db u), t')).
  { unfold syncStep. destruct (syncGroupsForUser env db u) as [[e|] db1];
      eexists; reflexivity. }
  destruct Hstep as (t' & ->). rewrite IH. apply syncGroupsForUser_users.
Qed.

Lemma sync_fold_wf env users :
  forall db t,
    groups_wf db ->
    groups_wf (fst (fold_left (syncStep env) users (db, t)))
    /\ wx_robot_configs (fst (fold_left (syncStep env) users (db, t)))
       = wx_robot_configs db.
Proof.
  induction users as [|u us IH]; intros db t Hwf; cbn [fold_left fst];
    [split; [exact Hwf | reflexivity]|].
  assert (Hstep : exists t', syncStep env (db, t) u
                             = (snd (syncGroupsForUser env db u), t')).
  { unfold syncStep. destruct (syncGroupsForUser env db u) as [[e|] db1];
      eexists; reflexivity. }
  destruct Hstep as (t' & ->).
  destruct (syncGroupsForUser_frame env db u Hwf) as (Hwf1 & Hr1 & _).
  destruct (IH _ t' Hwf1) as (Ha & Hb). split; [exact Ha | congruence].
Qed.

Lemma SyncGroupsForAllUsers_store env db :
  groups_wf db ->
  groups_wf (snd (fst (SyncGroupsForAllUsers env db)))
  /\ wx_robot_configs (snd (fst (SyncGroupsForAllUsers env db))) = wx_robot_configs db
  /\ wx_user_logins (snd (fst (SyncGroupsForAllUsers env db))) = wx_user_logins db
  /\ (forall r,
        (forall v, In v (wx_user_logins db) -> WxUserLogin.IsInitialized v = 1 ->
                   WxUserLogin.Status v = 1 -> WxUserLogin.WxID v <> WxGroup.WxID r) ->
        (In r (wx_groups (snd (fst (SyncGroupsForAllUsers env db))))
         <-> In r (wx_groups db))).
Proof.
  intros Hwf. unfold SyncGroupsForAllUsers, GetInitializedUsers.
  destruct (fault env QueryInitializedUsers); cbn [fst snd];
    [split; [exact Hwf|]; split; [reflexivity|]; split; [reflexivity|];
     intros; reflexivity|].
  destruct (Z.of_nat _ =? 0); cbn [fst snd];
    [split; [exact Hwf|]; split; [reflexivity|]; split; [reflexivity|];
     intros; reflexivity|].
  set (users := filter (fun u => (WxUserLogin.IsInitialized u =? 1)
                                 && (WxUserLogin.Status u =? 1)) (wx_user_logins db)).
  pose proof (sync_fold_users env users db sync_zero) as Hus.
  assert (Hfr : forall X, (forall u, In u users -> WxUserLogin.WxID u <> X) ->
            groups_wf (fst (fold_left (syncStep env) users (db, sync_zero)))
            /\ wx_robot_configs (fst (fold_left (syncStep env) users (db, sync_zero)))
               = wx_robot_configs db
            /\ (forall r, WxGroup.WxID r = X ->
                  (In r (wx_groups (fst (fold_left (syncStep env) users (db, sync_zero))))
                   <-> In r (wx_groups db)))).
  { intros X HX.
    destruct (sync_fold_frame env X users HX db sync_zero Hwf) as (H1 & H2 & _ & H4).
    auto. }
  pose proof (sync_fold_wf env users db sync_zero Hwf) as Hwf'.
  destruct (fold_left (syncStep env) users (db, sync_zero)) as [db' t] eqn:Hfold.
  cbn [fst snd] in *.
  split; [apply Hwf'|]. split; [apply Hwf'|]. split; [exact Hus|].
  intros r Hr. apply (Hfr (WxGroup.WxID r)); [|reflexivity].
  intros u Hu. unfold users in Hu. apply filter_In in Hu. destruct Hu as (Hin & Hb).
  apply andb_true_iff in Hb. destruct Hb as (Hi & Hs). apply Z.eqb_eq in Hi, Hs.
  exact (Hr u Hin Hi Hs).
Qed.

(** X10.  A group-sync tick over a well-formed group table works only on
    the groups of its intake: the session table and the robot table are
    exactly as before, the group table stays well-formed, and the group
    rows of a wxId that no initialized active session carries are exactly
    the old ones. *)
Theorem X10_group_sync_tick_store (env : Env) (db : DB) :
  groups_wf db ->
  groups_wf (snd (fst (SyncGroupsForAllUsers env db)))
  /\ wx_robot_configs (snd (fst (SyncGroupsForAllUsers env db))) = wx_robot_configs db
  /\ wx_user_logins (snd (fst (SyncGroupsForAllUsers env db))) = wx_user_logins db
  /\ (forall r,
        (forall v, In v (wx_user_logins db) -> WxUserLogin.IsInitialized v = 1 ->
                   WxUserLogin.Status v = 1 -> WxUserLogin.WxID v <> WxGroup.WxID r) ->
        (In r (wx_groups (snd (fst (SyncGroupsForAllUsers env db))))
         <-> In r (wx_groups db))).
Proof. exact (SyncGroupsForAllUsers_store env db). Qed.

Lemma X10_group_sync_tick_store_witness :
  groups_wf (snd (fst (SyncGroupsForAllUsers env_bcd db_abc)))
  /\ wx_user_logins (snd (fst (SyncGroupsForAllUsers env_bcd db_abc)))
     = wx_user_logins db_abc.
Proof.
  destruct (X10_group_sync_tick_store env_bcd db_abc db_abc_wf) as (H1 & _ & H3 & _).
  split; assumption.
Defined.

Lemma no_active_session_kept X db db' :
  sessions_kept db db' -> no_active_session X db -> no_active_session X db'.
Proof.
  unfold sessions_kept, no_active_session.
  generalize (wx_user_logins db) (wx_user_logins db'). intros l l' H.
  induction H as [|u u' l l' Hk _ IH]; intros Hno v Hv Hs; [destruct Hv|].
  destruct Hv as [<-|Hv].
  - destruct Hk as (_ & _ & Hw & _ & Hst & _). rewrite Hw.
    apply (Hno u (or_introl eq_refl)). destruct Hst as [<-|E]; [exact Hs|].
    rewrite E in Hs. discriminate.
  - apply IH; [|exact Hv|exact Hs]. intros w Hw. apply Hno. right. exact Hw.
Qed.

Lemma tick_frozen jt db X :
  groups_wf db -> no_active_session X db ->
  groups_wf (tick jt db)
  /\ wx_robot_configs (tick jt db) = wx_robot_configs db
  /\ (forall r, WxGroup.WxID r = X ->
        (In r (wx_groups (tick jt db)) <-> In r (wx_groups db))).
Proof.
  intros Hwf Hno.
  assert (Hsame : groups_wf db /\ wx_robot_configs db = wx_robot_configs db
                  /\ (forall r, WxGroup.WxID r = X ->
                        (In r (wx_groups db) <-> In r (wx_groups db)))).
  { split; [exact Hwf|]. split; [reflexivity|]. intros; reflexivity. }
  destruct jt as [[ | | ] env]; unfold tick; cbn [fst snd].
  - unfold CheckInitializationStatus, getUninitializedUsers, GetUninitializedUsers.
    destruct (fault env QueryUninitializedUsers); [exact Hsame|].
    destruct (Z.of_nat _ =? 0); [exact Hsame|]. cbn [snd].
    destruct (init_fold env
                (filter (fun u => (WxUserLogin.IsInitialized u =? 0)
                                  && (WxUserLogin.Status u =? 1)) (wx_user_logins db))
                db Hwf) as (Hwf' & Hrob & _ & Hoth & _).
    split; [exact Hwf'|]. split; [exact Hrob|]. intros r Hr. apply Hoth.
    intros Hin. apply in_map_iff in Hin. destruct Hin as (v & Hv & Hvin).
    apply filter_In in Hvin. destruct Hvin as (Hvin & Hb).
    apply andb_true_iff in Hb. destruct Hb as (_ & Hs). apply Z.eqb_eq in Hs.
    apply (Hno v Hvin Hs). congruence.
  - destruct (SyncGroupsForAllUsers_store env db Hwf) as (Hwf' & Hrob & _ & Hoth).
    split; [exact Hwf'|]. split; [exact Hrob|]. intros r Hr. apply Hoth.
    intros v Hv _ Hs. rewrite Hr. exact (Hno v Hv Hs).
  - destruct (CheckLoginStatus_store env db) as [->|[_ ->]]; [exact Hsame|].
    cbn [wx_robot_configs wx_groups].
    split; [|split; [reflexivity | intros; reflexivity]].
    exact (groups_wf_same db _ eq_refl eq_refl Hwf).
Qed.

(** X11.  The groups of a session that is not active are frozen: when no
    session of status 1 carries the wxId X, then over any sequence of
    initialization, group-sync and login-status ticks, in any
    environments, the group rows of X are exactly the old ones (none
    synced, none deleted), no session of status 1 carries X afterwards
    either, the robot table is unchanged and a well-formed group table
    stays well-formed. *)
Theorem X11_inactive_session_groups_frozen (schedule : list (Job * Env)) (db : DB)
  (X : string) :
  groups_wf db ->
  no_active_session X db ->
  groups_wf (run_ticks schedule db)
  /\ no_active_session X (run_ticks schedule db)
  /\ wx_robot_configs (run_ticks schedule db) = wx_robot_configs db
  /\ (forall r, WxGroup.WxID r = X ->
        (In r (wx_groups (run_ticks schedule db)) <-> In r (wx_groups db))).
Proof.
  unfold run_ticks. revert db.
  induction schedule as [|jt schedule IH]; intros db Hwf Hno; cbn [fold_left].
  - split; [exact Hwf|]. split; [exact Hno|]. split; [reflexivity|].
    intros; reflexivity.
  - destruct (tick_frozen jt db X Hwf Hno) as (Hwf1 & Hrob1 & Hfr1).
    pose proof (no_active_session_kept X db (tick jt db) (tick_kept jt db) Hno) as Hno1.
    destruct (IH (tick jt db) Hwf1 Hno1) as (Hwf2 & Hno2 & Hrob2 & Hfr2).
    split; [exact Hwf2|]. split; [exact Hno2|]. split; [congruence|].
    intros r Hr. rewrite (Hfr2 r Hr). apply Hfr1. exact Hr.
Qed.

Lemma db_relogin_pending_wf : groups_wf db_relogin_pending.
Proof.
  split; [reflexivity|]. split.
  - unfold group_ids; simpl. repeat constructor; simpl; intuition discriminate.
  - simpl. repeat constructor.
Qed.

Lemma db_relogin_pending_inactive : no_active_session "wx_a" db_relogin_pending.
Proof.
  intros u [<-|[<-|[]]] Hs; cbn in Hs |- *; [discriminate Hs | discriminate].
Qed.

Lemma X11_inactive_session_groups_frozen_witness :
  In (group_row 1 "wx_a" "gA" "A")
     (wx_groups (run_ticks [(GroupSyncJob, env_bcd);
                            (InitializationJob, env_init_ready);
                            (LoginStatusJob, offline_env 90)]
                           db_relogin_pending)).
Proof.
  apply (X11_inactive_session_groups_frozen
           [(GroupSyncJob, env_bcd); (InitializationJob, env_init_ready);
            (LoginStatusJob, offline_env 90)]
           db_relogin_pending "wx_a" db_relogin_pending_wf
           db_relogin_pending_inactive); [reflexivity|].
  simpl. auto.
Defined.

(** ** The send handlers *)

Lemma selection_eligible s env db groupId bot :
  cursor_ok s ->
  fst (GetMessageBotByStrategy env db groupId s) = Ok bot ->
  exists g u r,
    eligible db groupId g u r
    /\ WxRobotConfig.Address (Robot bot) = WxRobotConfig.Address r
    /\ WxUserLogin.Token (User bot) = WxUserLogin.Token u.
Proof.
  intros Hs Hsel. unfold GetMessageBotByStrategy in Hsel.
  destruct (GetMessageBot_answers s env db groupId Hs) as (Hans & _).
  unfold answers_query in Hans. cbn [fst snd] in Hans.
  pose proof (queryMessageBots_answer env db groupId) as Hq.
  destruct (queryMessageBots env db groupId) as [candidates|e].
  - destruct Hans as (c & Hc & Hr). rewrite Hsel in Hr. injection Hr as ->.
    destruct Hq as (_ & _ & Hiff). apply Hiff in Hc.
    destruct Hc as (g & u & r & He & ->). exists g, u, r.
    split; [exact He|]. split; reflexivity.
  - rewrite Hsel in Hans. discriminate.
Qed.

Lemma selection_error s env db groupId :
  cursor_ok s ->
  (exists e, fst (GetMessageBotByStrategy env db groupId s) = Err e)
  <-> (exists e, queryMessageBots env db groupId = Err e).
Proof.
  intros Hs. unfold GetMessageBotByStrategy.
  destruct (GetMessageBot_answers s env db groupId Hs) as (Hans & _).
  unfold answers_query in Hans. cbn [fst snd] in Hans.
  destruct (queryMessageBots env db groupId) as [candidates|e].
  - destruct Hans as (c & _ & ->). split; intros (e & He); discriminate.
  - rewrite Hans. split; intros _; eauto.
Qed.

Lemma bind_sendText body req :
  bindRequired SendTextBody.fields body = Ok req
  <-> body = Parsed req
      /\ SendTextBody.text_content req <> ""
      /\ SendTextBody.to_user_name req <> "".
Proof.
  unfold bindRequired, required_fields, SendTextBody.fields.
  destruct body as [d|d|b]; cbn [filter fst snd];
    try (split; [discriminate | intros (H & _); discriminate]).
  destruct (String.eqb_spec (SendTextBody.text_content b) "") as [E1|E1];
    destruct (String.eqb_spec (SendTextBody.to_user_name b) "") as [E2|E2];
    (split; [intros H; try discriminate H; injection H as <-; auto
            | intros (H & H1 & H2); injection H as <-;
              try contradiction; reflexivity]).
Qed.

Lemma bind_sendImage body req :
  bindRequired SendImageBody.fields body = Ok req
  <-> body = Parsed req
      /\ SendImageBody.image_content req <> ""
      /\ SendImageBody.to_user_name req <> "".
Proof.
  unfold bindRequired, required_fields, SendImageBody.fields.
  destruct body as [d|d|b]; cbn [filter fst snd];
    try (split; [discriminate | intros (H & _); discriminate]).
  destruct (String.eqb_spec (SendImageBody.image_content b) "") as [E1|E1];
    destruct (String.eqb_spec (SendImageBody.to_user_name b) "") as [E2|E2];
    (split; [intros H; try discriminate H; injection H as <-; auto
            | intros (H & H1 & H2); injection H as <-;
              try contradiction; reflexivity]).
Qed.

(** X12.  The sendText handler, started with a strategy instance whose
    cursor is not negative.  An answer of status 200 means the text was
    accepted: the body bound with both fields non-empty, and SendText
    returned success through the robot address and the token of a session
    that is eligible for the target group; the answer carries that
    response.  The status is 400 exactly when the body does not bind, 404
    exactly when it binds and the eligible-bot query answers an error (a
    storage fault included), and otherwise 200 or 500; the envelope code
    is 0 exactly on status 200. *)
Theorem X12_sendText_answer (env : Env) (db : DB) (s : MessageSendStrategy)
  (body : HttpReply SendTextBody.t) :
  cursor_ok s ->
  (answer_Status (fst (sendText env db s body)) = 200 ->
   exists req g u r resp,
     body = Parsed req
     /\ SendTextBody.text_content req <> ""
     /\ SendTextBody.to_user_name req <> ""
     /\ eligible db (SendTextBody.to_user_name req) g u r
     /\ SendText env (WxRobotConfig.Address r) (WxUserLogin.Token u)
          (mkSendTextRequest (SendTextBody.text_content req)
                             (SendTextBody.to_user_name req)) = Ok resp
     /\ fst (sendText env db s body) = respondSuccess "文本消息发送成功" resp)
  /\ (answer_Status (fst (sendText env db s body)) = 400
      <-> ~ exists req, body = Parsed req
                        /\ SendTextBody.text_content req <> ""
                        /\ SendTextBody.to_user_name req <> "")
  /\ (answer_Status (fst (sendText env db s body)) = 404
      <-> exists req e, body = Parsed req
                        /\ SendTextBody.text_content req <> ""
                        /\ SendTextBody.to_user_name req <> ""
                        /\ queryMessageBots env db (SendTextBody.to_user_name req)
                           = Err e)
  /\ (answer_Status (fst (sendText env db s body)) = 200
      \/ answer_Status (fst (sendText env db s body)) = 400
      \/ answer_Status (fst (sendText env db s body)) = 404
      \/ answer_Status (fst (sendText env db s body)) = 500)
  /\ (answer_Code (fst (sendText env db s body)) = 0
      <-> answer_Status (fst (sendText env db s body)) = 200).
Proof.
  intros Hs. unfold sendText.
  pose proof (bind_sendText body) as Hbind.
  destruct (bindRequired SendTextBody.fields body) as [req|e0]; cbn [fst].
  2:{ cbn. split; [discriminate|]. split; [|split; [|split]].
      - split; [|reflexivity]. intros _ (req & H). apply Hbind in H. discriminate.
      - split; [discriminate|]. intros (req & e & H1 & H2 & H3 & _).
        assert (Err e0 = Ok req) by (apply Hbind; auto). discriminate.
      - auto.
      - split; discriminate. }
  destruct (proj1 (Hbind req) eq_refl) as (Hbody & Htext & Hto).
  pose proof (selection_eligible s env db (SendTextBody.to_user_name req)) as Hel.
  pose proof (selection_error s env db (SendTextBody.to_user_name req) Hs) as Herr.
  destruct (GetMessageBotByStrategy env db (SendTextBody.to_user_name req) s)
    as [[bot|e] s']; cbn [fst] in *.
  2:{ cbn. split; [discriminate|]. split; [|split; [|split]].
      - split; [discriminate|]. intros H. exfalso. apply H. eauto.
      - split; [|reflexivity]. intros _.
        destruct (proj1 Herr (ex_intro _ e eq_refl)) as (e' & He'). eauto 8.
      - auto.
      - split; discriminate. }
  destruct (Hel bot Hs eq_refl) as (g & u & r & Helig & Haddr & Htok).
  rewrite Haddr, Htok.
  assert (Hnoerr : ~ exists req' e, body = Parsed req'
                      /\ SendTextBody.text_content req' <> ""
                      /\ SendTextBody.to_user_name req' <> ""
                      /\ queryMessageBots env db (SendTextBody.to_user_name req')
                         = Err e).
  { intros (req' & e & H1 & _ & _ & H4). rewrite Hbody in H1. injection H1 as <-.
    destruct (proj2 Herr (ex_intro _ e H4)) as (e' & He'). discriminate. }
  destruct (SendText env (WxRobotConfig.Address r) (WxUserLogin.Token u) _)
    as [resp|e] eqn:Hsend; cbn.
  - split; [intros _; exists req, g, u, r, resp; auto 8|].
    split; [split; [discriminate | intros H; exfalso; apply H; eauto]|].
    split; [split; [discriminate | intros H; exfalso; exact (Hnoerr H)]|].
    split; [auto | split; reflexivity].
  - split; [discriminate|].
    split; [split; [discriminate | intros H; exfalso; apply H; eauto]|].
    split; [split; [discriminate | intros H; exfalso; exact (Hnoerr H)]|].
    split; [auto | split; discriminate].
Qed.

Lemma X12_sendText_answer_witness :
  answer_Status (fst (sendText env_text_500 rr_db NewRoundRobinMessageSendStrategy
                        (Parsed (SendTextBody.mk "hello" "g@chatroom")))) = 200
  /\ (answer_Code (fst (sendText env_text_500 rr_db NewRoundRobinMessageSendStrategy
                          (Parsed (SendTextBody.mk "hello" "g@chatroom")))) = 0
      <-> answer_Status (fst (sendText env_text_500 rr_db
                                NewRoundRobinMessageSendStrategy
                                (Parsed (SendTextBody.mk "hello" "g@chatroom")))) = 200).
Proof.
  split; [reflexivity|].
  apply (X12_sendText_answer env_text_500 rr_db NewRoundRobinMessageSendStrategy
           (Parsed (SendTextBody.mk "hello" "g@chatroom"))).
  cbn. lia.
Defined.

(** X13.  The sendImage handler, started with a strategy instance whose
    cursor is not negative.  An answer of status 200 means the picture was
    accepted: the body bound with both fields non-empty, and SendText
    returned success through the robot address and the token of a session
    that is eligible for the target group; the answer carries that
    response.  The status is 400 exactly when the body does not bind, 404
    exactly when it binds and the eligible-bot query answers an error (a
    storage fault included), and otherwise 200 or 500; the envelope code
    is 0 exactly on status 200. *)
Theorem X13_sendImage_answer (env : Env) (db : DB) (s : MessageSendStrategy)
  (body : HttpReply SendImageBody.t) :
  cursor_ok s ->
  (answer_Status (fst (sendImage env db s body)) = 200 ->
   exists req g u r resp,
     body = Parsed req
     /\ SendImageBody.image_content req <> ""
     /\ SendImageBody.to_user_name req <> ""
     /\ eligible db (SendImageBody.to_user_name req) g u r
     /\ SendImage env (WxRobotConfig.Address r) (WxUserLogin.Token u)
          (mkSendImageRequest (SendImageBody.image_content req)
                             (SendImageBody.to_user_name req)) = Ok resp
     /\ fst (sendImage env db s body) = respondSuccess "图片消息发送成功" resp)
  /\ (answer_Status (fst (sendImage env db s body)) = 400
      <-> ~ exists req, body = Parsed req
                        /\ SendImageBody.image_content req <> ""
                        /\ SendImageBody.to_user_name req <> "")
  /\ (answer_Status (fst (sendImage env db s body)) = 404
      <-> exists req e, body = Parsed req
                        /\ SendImageBody.image_content req <> ""
                        /\ SendImageBody.to_user_name req <> ""
                        /\ queryMessageBots env db (SendImageBody.to_user_name req)
                           = Err e)
  /\ (answer_Status (fst (sendImage env db s body)) = 200
      \/ answer_Status (fst (sendImage env db s body)) = 400
      \/ answer_Status (fst (sendImage env db s body)) = 404
      \/ answer_Status (fst (sendImage env db s body)) = 500)
  /\ (answer_Code (fst (sendImage env db s body)) = 0
      <-> answer_Status (fst (sendImage env db s body)) = 200).
Proof.
  intros Hs. unfold sendImage.
  pose proof (bind_sendImage body) as Hbind.
  destruct (bindRequired SendImageBody.fields body) as [req|e0]; cbn [fst].
  2:{ cbn. split; [discriminate|]. split; [|split; [|split]].
      - split; [|reflexivity]. intros _ (req & H). apply Hbind in H. discriminate.
      - split; [discriminate|]. intros (req & e & H1 & H2 & H3 & _).
        assert (Err e0 = Ok req) by (apply Hbind; auto). discriminate.
      - auto.
      - split; discriminate. }
  destruct (proj1 (Hbind req) eq_refl) as (Hbody & Himage & Hto).
  pose proof (selection_eligible s env db (SendImageBody.to_user_name req)) as Hel.
  pose proof (selection_error s env db (SendImageBody.to_user_name req) Hs) as Herr.
  destruct (GetMessageBotByStrategy env db (SendImageBody.to_user_name req) s)
    as [[bot|e] s']; cbn [fst] in *.
  2:{ cbn. split; [discriminate|]. split; [|split; [|split]].
      - split; [discriminate|]. intros H. exfalso. apply H. eauto.
      - split; [|reflexivity]. intros _.
        destruct (proj1 Herr (ex_intro _ e eq_refl)) as (e' & He'). eauto 8.
      - auto.
      - split; discriminate. }
  destruct (Hel bot Hs eq_refl) as (g & u & r & Helig & Haddr & Htok).
  rewrite Haddr, Htok.
  assert (Hnoerr : ~ exists req' e, body = Parsed req'
                      /\ SendImageBody.image_content req' <> ""
                      /\ SendImageBody.to_user_name req' <> ""
                      /\ queryMessageBots env db (SendImageBody.to_user_name req')
                         = Err e).
  { intros (req' & e & H1 & _ & _ & H4). rewrite Hbody in H1. injection H1 as <-.
    destruct (proj2 Herr (ex_intro _ e H4)) as (e' & He'). discriminate. }
  destruct (SendImage env (WxRobotConfig.Address r) (WxUserLogin.Token u) _)
    as [resp|e] eqn:Hsend; cbn.
  - split; [intros _; exists req, g, u, r, resp; auto 8|].
    split; [split; [discriminate | intros H; exfalso; apply H; eauto]|].
    split; [split; [discriminate | intros H; exfalso; exact (Hnoerr H)]|].
    split; [auto | split; reflexivity].
  - split; [discriminate|].
    split; [split; [discriminate | intros H; exfalso; apply H; eauto]|].
    split; [split; [discriminate | intros H; exfalso; exact (Hnoerr H)]|].
    split; [auto | split; discriminate].
Qed.

Lemma X13_sendImage_answer_witness :
  answer_Status (fst (sendImage env_image_ok rr_db NewRoundRobinMessageSendStrategy
                        (Parsed (SendImageBody.mk "aGVsbG8=" "g@chatroom")))) = 200
  /\ (answer_Code (fst (sendImage env_image_ok rr_db NewRoundRobinMessageSendStrategy
                          (Parsed (SendImageBody.mk "aGVsbG8=" "g@chatroom")))) = 0
      <-> answer_Status (fst (sendImage env_image_ok rr_db
                                NewRoundRobinMessageSendStrategy
                                (Parsed (SendImageBody.mk "aGVsbG8=" "g@chatroom")))) = 200).
Proof.
  split; [reflexivity|].
  apply (X13_sendImage_answer env_image_ok rr_db NewRoundRobinMessageSendStrategy
           (Parsed (SendImageBody.mk "aGVsbG8=" "g@chatroom"))).
  cbn. lia.
Defined.

(** ** Switching the strategy *)

Lemma bind_strategy body strategy :
  bindRequired (fun strategy => [("Strategy", strategy)]) body = Ok strategy
  <-> body = Parsed strategy /\ strategy <> "".
Proof.
  unfold bindRequired, required_fields.
  destruct body as [d|d|b]; cbn [filter fst snd];
    try (split; [discriminate | intros (H & _); discriminate]).
  destruct (String.eqb_spec b "") as [E|E];
    (split; [intros H; try discriminate H; injection H as <-; auto
            | intros (H & H1); injection H as <-; try contradiction; reflexivity]).
Qed.

(** X14.  The setMessageStrategy handler answers 200 exactly for the
    bodies "round_robin" and "random", and 400 with code -1 for every
    other one, which leaves the router's strategy instance as it was.  A
    switch to "round_robin", also from a round-robin instance in
    mid-rotation, starts the rotation again: the next selection, for any
    group with candidates, answers the first candidate of the
    eligible-bot query. *)
Theorem X14_setMessageStrategy_effect (s : MessageSendStrategy)
  (body : HttpReply string) (env : Env) (db : DB) (groupId : string) :
  (answer_Status (fst (setMessageStrategy s body)) = 200
   <-> body = Parsed "round_robin" \/ body = Parsed "random")
  /\ (answer_Status (fst (setMessageStrategy s body)) <> 200 ->
      answer_Status (fst (setMessageStrategy s body)) = 400
      /\ answer_Code (fst (setMessageStrategy s body)) = -1
      /\ snd (setMessageStrategy s body) = s)
  /\ (forall candidates,
        queryMessageBots env db groupId = Ok candidates ->
        exists c rest,
          candidates = c :: rest
          /\ fst (GetMessageBot (snd (setMessageStrategy s (Parsed "round_robin")))
                                env db groupId)
             = Ok (buildMessageBotInfo c)).
Proof.
  split; [|split].
  - unfold setMessageStrategy. pose proof (bind_strategy body) as Hbind.
    destruct (bindRequired _ body) as [name|e]; cbn [fst].
    + destruct (proj1 (Hbind name) eq_refl) as (-> & Hne).
      destruct (String.eqb_spec name "round_robin") as [->|N1];
        [cbn; split; auto|].
      destruct (String.eqb_spec name "random") as [->|N2];
        [cbn; split; auto|].
      cbn. split; [discriminate|]. intros [H|H]; injection H as H; contradiction.
    + cbn. split; [discriminate|].
      intros [H|H]; rewrite H in Hbind;
        [assert (E : Err e = Ok "round_robin")
         by (apply (Hbind "round_robin"); split; [reflexivity | discriminate])
        |assert (E : Err e = Ok "random")
         by (apply (Hbind "random"); split; [reflexivity | discriminate])];
        discriminate E.
  - unfold setMessageStrategy.
    destruct (bindRequired _ body) as [name|e]; cbn [fst snd];
      [|intros _; cbn; auto].
    destruct (String.eqb name "round_robin"); [cbn; intros H; contradiction|].
    destruct (String.eqb name "random"); [cbn; intros H; contradiction|].
    intros _. cbn. auto.
  - intros candidates Hq.
    pose proof (queryMessageBots_nonempty env db groupId candidates Hq) as Hn.
    destruct candidates as [|c rest]; [cbn in Hn; lia|].
    exists c, rest. split; [reflexivity|].
    cbn [setMessageStrategy bindRequired required_fields filter map fst snd
         String.eqb Ascii.eqb Bool.eqb NewRoundRobinMessageSendStrategy].
    unfold GetMessageBot, NewRoundRobinMessageSendStrategy. rewrite Hq.
    rewrite Z.rem_0_l by lia. reflexivity.
Qed.

(** ** Saving a session through the handler *)

Lemma SaveUser_written_error env db user :
  SaveUser env db user
  = (match fst (SaveUser_written env db user) with
     | Ok _ => None
     | Err e => Some e
     end, snd (SaveUser_written env db user)).
Proof.
  unfold SaveUser, SaveUser_written.
  destruct (fault env _); [reflexivity|].
  destruct (first_by _ _ _) as [existingUser|].
  - destruct (save_user env db _) as [[row|e] db']; reflexivity.
  - destruct (create_user env db user) as [[row|e] db']; reflexivity.
Qed.

Lemma create_user_written env db user row db' :
  create_user env db user = (Ok row, db') ->
  In row (wx_user_logins db')
  /\ WxUserLogin.RobotID row = WxUserLogin.RobotID user
  /\ WxUserLogin.WxID row = WxUserLogin.WxID user
  /\ WxUserLogin.Token row = WxUserLogin.Token user
  /\ (WxUserLogin.Status user = 1 -> WxUserLogin.Status row = 1)
  /\ WxUserLogin.IsInitialized row = WxUserLogin.IsInitialized user
  /\ WxUserLogin.IsMessageBot row = WxUserLogin.IsMessageBot user
  /\ WxUserLogin.HasSecurityRisk row = WxUserLogin.HasSecurityRisk user.
Proof.
  unfold create_user. destruct (fault env _); [discriminate|].
  destruct (existsb _ _); [discriminate|]. intros H. injection H as <- <-.
  cbn [wx_user_logins]. split; [apply in_or_app; right; left; reflexivity|].
  destruct user; cbn. repeat split; try reflexivity. intros ->. reflexivity.
Qed.

Lemma create_user_failed env db user e db' :
  create_user env db user = (Err e, db') -> db' = db.
Proof.
  unfold create_user.
  destruct (fault env _); [intros H; injection H as _ <-; reflexivity|].
  destruct (existsb _ _); [intros H; injection H as _ <-; reflexivity | discriminate].
Qed.

Lemma save_user_failed env db user e db' :
  save_user env db user = (Err e, db') -> db' = db.
Proof.
  unfold save_user. destruct (WxUserLogin.ID user =? 0); [apply create_user_failed|].
  destruct (fault env _); [intros H; injection H as _ <-; reflexivity | discriminate].
Qed.

Lemma update_where_id_In {A : Type} (key : A -> Z) (id : Z) (f : A -> A) rows x :
  In x rows -> key x = id -> In (f x) (update_where_id key id f rows).
Proof.
  intros Hin Hk. unfold update_where_id. apply in_map_iff. exists x.
  split; [|exact Hin]. rewrite Hk, Z.eqb_refl. reflexivity.
Qed.

Lemma save_user_written env db user row db' :
  (exists x, In x (wx_user_logins db) /\ WxUserLogin.ID x = WxUserLogin.ID user) ->
  save_user env db user = (Ok row, db') ->
  In row (wx_user_logins db')
  /\ WxUserLogin.RobotID row = WxUserLogin.RobotID user
  /\ WxUserLogin.WxID row = WxUserLogin.WxID user
  /\ WxUserLogin.Token row = WxUserLogin.Token user
  /\ (WxUserLogin.Status user = 1 -> WxUserLogin.Status row = 1)
  /\ WxUserLogin.IsInitialized row = WxUserLogin.IsInitialized user
  /\ WxUserLogin.IsMessageBot row = WxUserLogin.IsMessageBot user
  /\ WxUserLogin.HasSecurityRisk row = WxUserLogin.HasSecurityRisk user.
Proof.
  intros (x & Hx & Hid). unfold save_user.
  destruct (WxUserLogin.ID user =? 0); [apply create_user_written|].
  destruct (fault env _); [discriminate|]. intros H. injection H as <- <-.
  cbn [set_users wx_user_logins]. split.
  - apply (update_where_id_In WxUserLogin.ID (WxUserLogin.ID user)
             (fun _ => WxUserLogin.with_UpdateTime (now env) user)
             (wx_user_logins db) x Hx Hid).
  - destruct user; cbn. repeat split; try reflexivity. intros ->. reflexivity.
Qed.

Lemma SaveUser_written_row env db user row db' :
  SaveUser_written env db user = (Ok row, db') ->
  In row (wx_user_logins db')
  /\ WxUserLogin.RobotID row = WxUserLogin.RobotID user
  /\ WxUserLogin.WxID row = WxUserLogin.WxID user
  /\ WxUserLogin.Token row = WxUserLogin.Token user
  /\ (WxUserLogin.Status user = 1 -> WxUserLogin.Status row = 1)
  /\ WxUserLogin.IsInitialized row = WxUserLogin.IsInitialized user
  /\ WxUserLogin.IsMessageBot row = WxUserLogin.IsMessageBot user
  /\ WxUserLogin.HasSecurityRisk row = WxUserLogin.HasSecurityRisk user.
Proof.
  unfold SaveUser_written. destruct (fault env _); [discriminate|].
  destruct (first_by _ _ _) as [existingUser|] eqn:Hfirst;
    [|apply create_user_written].
  intros Hsave. apply first_by_In in Hfirst. destruct Hfirst as (Hin & _).
  apply save_user_written in Hsave.
  - destruct user; exact Hsave.
  - exists existingUser. split; [exact Hin|]. destruct user; reflexivity.
Qed.

Lemma SaveUser_written_failed env db user e db' :
  SaveUser_written env db user = (Err e, db') -> db' = db.
Proof.
  unfold SaveUser_written.
  destruct (fault env _); [intros H; injection H as _ <-; reflexivity|].
  destruct (first_by _ _ _); [apply save_user_failed | apply create_user_failed].
Qed.

Lemma probed_risk_cases env robot req :
  (req_HasSecurityRisk req <> 0 -> probed_risk env robot req = req_HasSecurityRisk req)
  /\ (req_HasSecurityRisk req = 0 ->
      (probed_risk env robot req = 0 \/ probed_risk env robot req = 1)
      /\ (probed_risk env robot req = 1 <->
          exists riskResp item,
            CheckCanSetAlias env (WxRobotConfig.Address robot) (req_Token req)
            = Done riskResp
            /\ In item (CheckCanSetAliasResponse.Results riskResp)
            /\ CheckCanSetAliasResponse.IsPass item = false)).
Proof.
  unfold probed_risk. split.
  - intros Hne. apply Z.eqb_neq in Hne. rewrite Hne. reflexivity.
  - intros ->. cbn [Z.eqb].
    destruct (CheckCanSetAlias env _ _) as [riskResp|partial e].
    + destruct (existsb _ _) eqn:Hex.
      * split; [right; reflexivity|]. split; [|reflexivity]. intros _.
        apply existsb_exists in Hex. destruct Hex as (item & Hin & Hp).
        exists riskResp, item. split; [reflexivity|]. split; [exact Hin|].
        destruct (CheckCanSetAliasResponse.IsPass item); [discriminate|reflexivity].
      * split; [left; reflexivity|]. split; [discriminate|].
        intros (r & item & Hr & Hin & Hp). injection Hr as <-.
        assert (Hex' : existsb (fun result =>
                                  negb (CheckCanSetAliasResponse.IsPass result))
                               (CheckCanSetAliasResponse.Results riskResp) = true).
        { apply existsb_exists. exists item. rewrite Hp. auto. }
        rewrite Hex in Hex'. discriminate.
    + split; [left; reflexivity|]. split; [discriminate|].
      intros (r & item & Hr & _). discriminate.
Qed.

(** X15.  The saveUser handler.  Every answer other than 200 leaves the
    store exactly as it was.  An answer of status 200 carries the session
    row as stored: the row is in the session table, has the request's
    robot, wxId, token and message-bot flag, status 1 and
    [is_initialized = 0] (also when the pair was stored as initialized
    before), so the next initialization intake whose query does not fail
    lists it.  The risk flag stored is the request's own when that is not
    0; otherwise it is 1 exactly when the alias probe succeeded and
    reported a check that did not pass, and 0 in every other case, a
    failed probe included. *)
Theorem X15_saveUser_session (env env' : Env) (db : DB)
  (body : HttpReply SaveUserRequest) :
  (answer_Status (fst (saveUser env db body)) <> 200 ->
   snd (saveUser env db body) = db)
  /\ (answer_Status (fst (saveUser env db body)) = 200
      \/ answer_Status (fst (saveUser env db body)) = 400
      \/ answer_Status (fst (saveUser env db body)) = 404
      \/ answer_Status (fst (saveUser env db body)) = 500)
  /\ (answer_Status (fst (saveUser env db body)) = 200 ->
      exists req robot row,
        body = Parsed req
        /\ GetRobotByID env db (req_RobotID req) = Ok robot
        /\ fst (saveUser env db body) = respondSuccess "保存成功" row
        /\ In row (wx_user_logins (snd (saveUser env db body)))
        /\ WxUserLogin.RobotID row = req_RobotID req
        /\ WxUserLogin.WxID row = req_WxID req
        /\ WxUserLogin.Token row = req_Token req
        /\ WxUserLogin.IsMessageBot row = req_IsMessageBot req
        /\ WxUserLogin.Status row = 1
        /\ WxUserLogin.IsInitialized row = 0
        /\ (fault env' QueryUninitializedUsers = false ->
            exists users,
              GetUninitializedUsers env' (snd (saveUser env db body)) = Ok users
              /\ In row users)
        /\ (req_HasSecurityRisk req <> 0 ->
            WxUserLogin.HasSecurityRisk row = req_HasSecurityRisk req)
        /\ (req_HasSecurityRisk req = 0 ->
            (WxUserLogin.HasSecurityRisk row = 0
             \/ WxUserLogin.HasSecurityRisk row = 1)
            /\ (WxUserLogin.HasSecurityRisk row = 1 <->
                exists riskResp item,
                  CheckCanSetAlias env (WxRobotConfig.Address robot) (req_Token req)
                  = Done riskResp
                  /\ In item (CheckCanSetAliasResponse.Results riskResp)
                  /\ CheckCanSetAliasResponse.IsPass item = false))).
Proof.
  unfold saveUser.
  assert (Hbind : forall req, bindSaveUserRequest body = Ok req -> body = Parsed req).
  { intros req. unfold bindSaveUserRequest. destruct body as [d|d|b]; try discriminate.
    destruct (required_nonzero _ _); [discriminate|]. intros H. injection H as <-.
    reflexivity. }
  destruct (bindSaveUserRequest body) as [req|e0];
    [|cbn; split; [reflexivity|]; split; [auto | discriminate]].
  destruct (GetRobotByID env db (req_RobotID req)) as [robot|e1] eqn:Hrobot;
    [|cbn; split; [reflexivity|]; split; [auto | discriminate]].
  destruct (SaveUser_written env db _) as [[row|e2] db'] eqn:Hsave; cbn [fst snd].
  2:{ apply SaveUser_written_failed in Hsave. subst db'. cbn.
      split; [reflexivity|]. split; [auto | discriminate]. }
  apply SaveUser_written_row in Hsave. cbn in Hsave.
  destruct Hsave as (Hin & Hrob & Hwx & Htok & Hst & Hinit & Hbot & Hrisk).
  pose proof (probed_risk_cases env robot req) as (Hgiven & Hprobed).
  cbn. split; [intros H; contradiction|]. split; [auto|]. intros _.
  exists req, robot, row. rewrite Hrisk.
  split; [apply Hbind; reflexivity|]. split; [exact Hrobot|]. split; [reflexivity|].
  split; [exact Hin|]. split; [exact Hrob|]. split; [exact Hwx|].
  split; [exact Htok|]. split; [exact Hbot|]. split; [exact (Hst eq_refl)|].
  split; [exact Hinit|]. split; [|split; [exact Hgiven | exact Hprobed]].
  intros Hf. unfold GetUninitializedUsers. rewrite Hf. eexists. split; [reflexivity|].
  apply filter_In. split; [exact Hin|]. rewrite Hinit, (Hst eq_refl). reflexivity.
Qed.

(** ** The checkLoginStatus handler *)

(** X16.  The checkLoginStatus handler answers 200 exactly when both path
    parameters are non-empty, the robot id parses and resolves, and the
    robot's CheckLoginStatus call decodes with code 200 or 300.  The data
    it then carries has status 2, with the wxid and nickname of the reply,
    exactly when the reply has code 200 and state 2, and status 0 without
    them otherwise: the status 3 of the handler's default branch is never
    answered, every other code being turned into an error by the client
    and answered 500 without data. *)
Theorem X16_checkLoginStatus_answer (envx : EnvX) (db : DB)
  (robotIdStr token : string) :
  (answer_Status (checkLoginStatus envx db robotIdStr token) = 200
   <-> exists robotId robot resp,
         robotIdStr <> "" /\ token <> ""
         /\ ParseUint robotIdStr 32 = Ok robotId
         /\ GetRobotByID (core envx) db robotId = Ok robot
         /\ http_CheckLoginStatus envx (WxRobotConfig.Address robot) token
            = Parsed resp
         /\ (CheckLoginStatusResponse.Code resp = 200
             \/ CheckLoginStatusResponse.Code resp = 300))
  /\ (forall data,
        answer_Data (checkLoginStatus envx db robotIdStr token) = Some data ->
        exists robotId robot resp,
          ParseUint robotIdStr 32 = Ok robotId
          /\ GetRobotByID (core envx) db robotId = Ok robot
          /\ http_CheckLoginStatus envx (WxRobotConfig.Address robot) token
             = Parsed resp
          /\ data
             = (if (CheckLoginStatusResponse.Code resp =? 200)
                   && (CheckLoginStatusResponse.State resp =? 2)
                then mkLoginStatusResponse 2 (CheckLoginStatusResponse.WxID resp)
                       (CheckLoginStatusResponse.NickName resp) "登录成功"
                else mkLoginStatusResponse 0 "" "" "二维码已过期或不存在")
          /\ login_Status data <> 3)
  /\ (forall robotId robot resp,
        robotIdStr <> "" -> token <> "" ->
        ParseUint robotIdStr 32 = Ok robotId ->
        GetRobotByID (core envx) db robotId = Ok robot ->
        http_CheckLoginStatus envx (WxRobotConfig.Address robot) token = Parsed resp ->
        CheckLoginStatusResponse.Code resp <> 200 ->
        CheckLoginStatusResponse.Code resp <> 300 ->
        checkLoginStatus envx db robotIdStr token
        = respondInternalError
            ("检查登录状态失败: " +++ Error (ErrAPI (CheckLoginStatusResponse.Text resp)))).
Proof.
  unfold checkLoginStatus, WxAPIClient_CheckLoginStatus.
  destruct (String.eqb_spec robotIdStr "") as [E1|E1]; cbn [orb].
  { cbn. split; [split; [discriminate | intros (? & ? & ? & H & _); contradiction]|].
    split; [discriminate | intros; contradiction]. }
  destruct (String.eqb_spec token "") as [E2|E2].
  { cbn. split; [split; [discriminate | intros (? & ? & ? & _ & H & _); contradiction]|].
    split; [discriminate | intros; contradiction]. }
  destruct (ParseUint robotIdStr 32) as [robotId|e].
  2:{ cbn. split; [split; [discriminate | intros (? & ? & ? & _ & _ & H & _); discriminate]|].
      split; [discriminate | intros; discriminate]. }
  destruct (GetRobotByID (core envx) db robotId) as [robot|e] eqn:Hrobot.
  2:{ cbn. split; [split; [discriminate|]|].
      - intros (r0 & ? & ? & _ & _ & H & Hr & _). injection H as <-.
        rewrite Hrobot in Hr. discriminate.
      - split; [discriminate|]. intros r0 ? ? _ _ H Hr. injection H as <-.
        rewrite Hrobot in Hr. discriminate. }
  assert (Hsame : forall r0 robot0 (P : Prop),
             Ok robotId = Ok r0 ->
             GetRobotByID (core envx) db r0 = Ok robot0 ->
             (robot0 = robot -> P) -> P).
  { intros r0 robot0 P H Hr HP. injection H as <-. rewrite Hrobot in Hr.
    injection Hr as <-. apply HP. reflexivity. }
  destruct (http_CheckLoginStatus envx (WxRobotConfig.Address robot) token)
    as [d|d|resp] eqn:Hcall.
  1,2: cbn; (split; [split; [discriminate|]|split; [discriminate|]]);
       [intros (r0 & robot0 & resp0 & _ & _ & H & Hr & Hc & _);
        exfalso; apply (Hsame r0 robot0 False H Hr); intros ->; rewrite Hcall in Hc;
        discriminate
       |intros r0 robot0 resp0 _ _ H Hr Hc;
        apply (Hsame r0 robot0 _ H Hr); intros ->; rewrite Hcall in Hc;
        discriminate].
  cbv zeta.
  destruct (CheckLoginStatusResponse.Code resp =? 200) eqn:C200; cbn [negb andb].
  - apply Z.eqb_eq in C200. split; [|split].
    + cbn. split; [intros _; exists robotId, robot, resp; auto 8 | reflexivity].
    + cbn. intros data H. injection H as <-. exists robotId, robot, resp.
      split; [reflexivity|]. split; [exact Hrobot|]. split; [exact Hcall|].
      rewrite C200. cbn [Z.eqb Pos.eqb andb].
      destruct (CheckLoginStatusResponse.State resp =? 2); cbn;
        (split; [reflexivity | discriminate]).
    + intros r0 robot0 resp0 _ _ H Hr Hc Hn.
      apply (Hsame r0 robot0 _ H Hr). intros ->. rewrite Hcall in Hc.
      injection Hc as <-. contradiction.
  - destruct (CheckLoginStatusResponse.Code resp =? 300) eqn:C300; cbn [negb].
    + apply Z.eqb_eq in C300. split; [|split].
      * cbn. split; [intros _; exists robotId, robot, resp; auto 8 | reflexivity].
      * cbn. intros data H. injection H as <-. exists robotId, robot, resp.
        split; [reflexivity|]. split; [exact Hrobot|]. split; [exact Hcall|].
        rewrite C200, C300. cbn. split; [reflexivity | discriminate].
      * intros r0 robot0 resp0 _ _ H Hr Hc _ Hn.
        apply (Hsame r0 robot0 _ H Hr). intros ->. rewrite Hcall in Hc.
        injection Hc as <-. contradiction.
    + apply Z.eqb_neq in C200, C300. split; [|split].
      * cbn. split; [discriminate|].
        intros (r0 & robot0 & resp0 & _ & _ & H & Hr & Hc & Hcode).
        exfalso. apply (Hsame r0 robot0 False H Hr). intros ->. rewrite Hcall in Hc.
        injection Hc as <-. destruct Hcode; contradiction.
      * cbn. discriminate.
      * intros r0 robot0 resp0 _ _ H Hr Hc _ _.
        apply (Hsame r0 robot0 _ H Hr). intros ->. rewrite Hcall in Hc.
        injection Hc as <-. reflexivity.
Qed.

(** ** Switching the message-bot flag *)

Lemma UpdateMessageBotStatus_cases envx db userID isMessageBot :
  (fst (UpdateMessageBotStatus envx db userID isMessageBot) <> None
   /\ snd (UpdateMessageBotStatus envx db userID isMessageBot) = db)
  \/ (fst (UpdateMessageBotStatus envx db userID isMessageBot) = None
      /\ (exists u, In u (wx_user_logins db) /\ WxUserLogin.ID u = userID)
      /\ snd (UpdateMessageBotStatus envx db userID isMessageBot)
         = set_users (map (fun u => if WxUserLogin.ID u =? userID
                                    then message_bot_row envx isMessageBot u else u)
                          (wx_user_logins db)) db).
Proof.
  unfold UpdateMessageBotStatus.
  destruct (faultX envx (QueryUserByID userID));
    [left; split; [discriminate | reflexivity]|].
  destruct (first_by _ _ _) as [found|] eqn:Hfirst;
    [|left; split; [discriminate | reflexivity]].
  destruct (faultX envx (UpdateMessageBotColumn userID));
    [left; split; [discriminate | reflexivity]|].
  right. split; [reflexivity|]. split; [|reflexivity].
  apply first_by_In in Hfirst. destruct Hfirst as (Hin & Hid).
  exists found. split; [exact Hin | apply Z.eqb_eq; exact Hid].
Qed.

Lemma UpdateMessageBotStatus_missing envx db userID isMessageBot :
  (forall u, In u (wx_user_logins db) -> WxUserLogin.ID u <> userID) ->
  fst (UpdateMessageBotStatus envx db userID isMessageBot) <> None.
Proof.
  intros Hno. destruct (UpdateMessageBotStatus_cases envx db userID isMessageBot)
    as [[H _]|(_ & (u & Hu & Hid) & _)]; [exact H|].
  exfalso. exact (Hno u Hu Hid).
Qed.

Lemma demoted_not_candidate envx env' db userID groupId candidates :
  queryMessageBots env'
    (set_users (map (fun u => if WxUserLogin.ID u =? userID
                              then message_bot_row envx 0 u else u)
                    (wx_user_logins db)) db) groupId = Ok candidates ->
  forall q, In q candidates -> UserID q <> userID.
Proof.
  intros Hq q Hqin Heq.
  pose proof (queryMessageBots_answer env'
                (set_users (map (fun u => if WxUserLogin.ID u =? userID
                                          then message_bot_row envx 0 u else u)
                                (wx_user_logins db)) db) groupId) as Hans.
  rewrite Hq in Hans. destruct Hans as (_ & _ & Hrows). apply Hrows in Hqin.
  destruct Hqin as (g & u' & r & (_ & Hu' & _ & _ & _ & _ & Hbot & _) & ->).
  cbn [UserID selected_columns] in Heq. cbn [set_users wx_user_logins] in Hu'.
  apply in_map_iff in Hu'. destruct Hu' as (u & <- & _).
  destruct (WxUserLogin.ID u =? userID) eqn:E.
  - destruct u; cbn in Hbot. discriminate.
  - apply Z.eqb_neq in E. contradiction.
Qed.

(** X17.  The updateMessageBotStatus handler.  Every answer other than
    200 leaves the store as it was.  An answer of status 200 means the id
    parsed, the body carried 0 or 1, a session of that id exists, and the
    store differs only in the session table, where exactly the rows of
    that id carry the new flag and the request's time as update time;
    after a switch to 0 no eligible-bot query, for any group, lists a
    candidate of that id.  An id that no session carries is answered 500,
    never 404 and never 200. *)
Theorem X17_updateMessageBotStatus_effect (envx : EnvX) (env' : Env) (db : DB)
  (id : string) (body : HttpReply Z) (groupId : string) :
  (answer_Status (fst (updateMessageBotStatus envx db id body)) <> 200 ->
   snd (updateMessageBotStatus envx db id body) = db)
  /\ (answer_Status (fst (updateMessageBotStatus envx db id body)) = 200 ->
      exists userID isMessageBot,
        ParseUint id 32 = Ok userID
        /\ body = Parsed isMessageBot
        /\ (isMessageBot = 0 \/ isMessageBot = 1)
        /\ (exists u, In u (wx_user_logins db) /\ WxUserLogin.ID u = userID)
        /\ snd (updateMessageBotStatus envx db id body)
           = set_users (map (fun u => if WxUserLogin.ID u =? userID
                                      then message_bot_row envx isMessageBot u
                                      else u)
                            (wx_user_logins db)) db
        /\ (isMessageBot = 0 ->
            forall candidates,
              queryMessageBots env' (snd (updateMessageBotStatus envx db id body))
                               groupId = Ok candidates ->
              forall q, In q candidates -> UserID q <> userID))
  /\ (forall userID isMessageBot,
        ParseUint id 32 = Ok userID ->
        body = Parsed isMessageBot ->
        isMessageBot = 0 \/ isMessageBot = 1 ->
        (forall u, In u (wx_user_logins db) -> WxUserLogin.ID u <> userID) ->
        answer_Status (fst (updateMessageBotStatus envx db id body)) = 500).
Proof.
  unfold updateMessageBotStatus.
  destruct (String.eqb id "") eqn:Eid.
  { apply String.eqb_eq in Eid. subst id. cbn.
    split; [reflexivity|]. split; [discriminate | intros; discriminate]. }
  destruct (ParseUint id 32) as [parsedId|e];
    [|cbn; split; [reflexivity|]; split; [discriminate | intros; discriminate]].
  destruct body as [d|d|isMessageBot];
    try (cbn; split; [reflexivity|]; split; [discriminate | intros; discriminate]).
  destruct (negb (isMessageBot =? 0) && negb (isMessageBot =? 1)) eqn:Hrange.
  { cbn. split; [reflexivity|]. split; [discriminate|].
    intros userID flag _ H [->| ->]; injection H as ->; discriminate. }
  assert (Hflag : isMessageBot = 0 \/ isMessageBot = 1).
  { destruct (Z.eqb_spec isMessageBot 0); [auto|].
    destruct (Z.eqb_spec isMessageBot 1); [auto | discriminate]. }
  pose proof (UpdateMessageBotStatus_cases envx db parsedId isMessageBot) as Hcases.
  pose proof (UpdateMessageBotStatus_missing envx db parsedId isMessageBot) as Hmiss.
  destruct (UpdateMessageBotStatus envx db parsedId isMessageBot) as [[e|] db'];
    cbn [fst snd] in *.
  - destruct Hcases as [(_ & ->)|(Hnone & _)]; [|discriminate].
    cbn. split; [reflexivity|]. split; [discriminate|]. intros; reflexivity.
  - destruct Hcases as [(Hne & _)|(_ & Hex & ->)]; [contradiction|].
    cbn. split; [intros H; contradiction|]. split.
    + intros _. exists parsedId, isMessageBot.
      split; [reflexivity|]. split; [reflexivity|]. split; [exact Hflag|].
      split; [exact Hex|]. split; [reflexivity|].
      intros -> candidates Hq. exact (demoted_not_candidate envx env' db parsedId
                                        groupId candidates Hq).
    + intros userID flag H1 H2 _ Hno. exfalso. injection H1 as <-.
      exact (Hmiss Hno eq_refl).
Qed.

(** ** The health probe *)

Lemma prefix_http address : String.prefix "http://" ("http://" +++ address) = true.
Proof. cbn. destruct address; reflexivity. Qed.

Lemma probe_url_again robotAddress :
  probe_url (probe_url robotAddress) = probe_url robotAddress.
Proof.
  unfold probe_url.
  destruct (negb (String.prefix "http://" robotAddress)
            && negb (String.prefix "https://" robotAddress)) eqn:E.
  - rewrite prefix_http. reflexivity.
  - rewrite E. reflexivity.
Qed.

Lemma CheckRobotHealth_probe envx robotAddress :
  CheckRobotHealth envx robotAddress
  = match http_Get envx (probe_url robotAddress) with
    | RequestNotBuilt d => Err (ErrMsg ("创建请求失败: " +++ d))
    | RoundTripFailed d => Err (ErrMsg ("请求失败: " +++ d))
    | Answered statusCode => Ok (statusCode =? 200)
    end.
Proof. reflexivity. Qed.

(** X18.  The health probe of a robot.  CheckRobotHealth probes an address
    that starts with neither "http://" nor "https://" exactly as it probes
    the address with "http://" put in front, and an address it has
    completed is probed unchanged.  It reports healthy exactly when the
    probed url answers status 200, unhealthy without error for any other
    status, and an error when no answer was obtained.  The handler answers
    200 exactly when the id parses, the robot resolves and the probe
    reports healthy; for a resolved robot every other outcome is a 503
    with code -1 that still carries data. *)
Theorem X18_robot_health_probe (envx : EnvX) (db : DB) (robotAddress id : string) :
  CheckRobotHealth envx (probe_url robotAddress) = CheckRobotHealth envx robotAddress
  /\ (String.prefix "http://" robotAddress = false ->
      String.prefix "https://" robotAddress = false ->
      CheckRobotHealth envx robotAddress
      = CheckRobotHealth envx ("http://" +++ robotAddress))
  /\ (CheckRobotHealth envx robotAddress = Ok true
      <-> http_Get envx (probe_url robotAddress) = Answered 200)
  /\ ((exists e, CheckRobotHealth envx robotAddress = Err e)
      <-> forall statusCode,
            http_Get envx (probe_url robotAddress) <> Answered statusCode)
  /\ (answer_Status (checkRobotHealth envx db id) = 200
      <-> exists robotId robot,
            ParseUint id 32 = Ok robotId
            /\ GetRobotByID (core envx) db robotId = Ok robot
            /\ http_Get envx (probe_url (WxRobotConfig.Address robot)) = Answered 200)
  /\ (forall robotId robot,
        id <> "" ->
        ParseUint id 32 = Ok robotId ->
        GetRobotByID (core envx) db robotId = Ok robot ->
        http_Get envx (probe_url (WxRobotConfig.Address robot)) <> Answered 200 ->
        answer_Status (checkRobotHealth envx db id) = 503
        /\ answer_Code (checkRobotHealth envx db id) = -1
        /\ answer_Data (checkRobotHealth envx db id) <> None).
Proof.
  split; [|split; [|split; [|split; [|split]]]].
  - rewrite !CheckRobotHealth_probe, probe_url_again. reflexivity.
  - intros H1 H2. rewrite !CheckRobotHealth_probe.
    assert (E : probe_url ("http://" +++ robotAddress) = probe_url robotAddress).
    { unfold probe_url. rewrite H1, H2, prefix_http. reflexivity. }
    rewrite E. reflexivity.
  - rewrite CheckRobotHealth_probe.
    destruct (http_Get envx (probe_url robotAddress)) as [d|d|code].
    1,2: split; discriminate.
    split.
    + intros H. injection H as H. apply Z.eqb_eq in H. subst code. reflexivity.
    + intros H. injection H as ->. reflexivity.
  - rewrite CheckRobotHealth_probe.
    destruct (http_Get envx (probe_url robotAddress)) as [d|d|code].
    + split; [intros _ c; discriminate | intros _; eexists; reflexivity].
    + split; [intros _ c; discriminate | intros _; eexists; reflexivity].
    + split; [intros (e & H); discriminate | intros H; exfalso; exact (H code eq_refl)].
  - unfold checkRobotHealth.
    destruct (String.eqb id "") eqn:Eid.
    { apply String.eqb_eq in Eid. subst id. cbn.
      split; [discriminate | intros (? & ? & H & _); discriminate]. }
    destruct (ParseUint id 32) as [robotId|e];
      [|cbn; split; [discriminate | intros (? & ? & H & _); discriminate]].
    destruct (GetRobotByID (core envx) db robotId) as [robot|e] eqn:Hrobot.
    2:{ cbn. split; [discriminate|]. intros (r0 & robot0 & H & Hr & _).
        injection H as <-. rewrite Hrobot in Hr. discriminate. }
    rewrite CheckRobotHealth_probe.
    destruct (http_Get envx (probe_url (WxRobotConfig.Address robot)))
      as [d|d|code] eqn:Hget.
    1,2: cbn; split; [discriminate|]; intros (r0 & robot0 & H & Hr & Hg);
         injection H as <-; rewrite Hrobot in Hr; injection Hr as <-;
         rewrite Hget in Hg; discriminate.
    destruct (Z.eqb_spec code 200) as [->|Hne]; cbn.
    + split; [intros _; exists robotId, robot; auto | reflexivity].
    + split; [discriminate|]. intros (r0 & robot0 & H & Hr & Hg).
      injection H as <-. rewrite Hrobot in Hr. injection Hr as <-.
      rewrite Hget in Hg. injection Hg as ->. contradiction.
  - intros robotId robot Hid Hparse Hrobot Hget. unfold checkRobotHealth.
    apply String.eqb_neq in Hid. rewrite Hid, Hparse, Hrobot, CheckRobotHealth_probe.
    destruct (http_Get envx (probe_url (WxRobotConfig.Address robot)))
      as [d|d|code].
    1,2: cbn; split; [reflexivity|]; split; [reflexivity | discriminate].
    destruct (Z.eqb_spec code 200) as [->|Hne]; [contradiction|]. cbn.
    split; [reflexivity|]. split; [reflexivity | discriminate].
Qed.

(** ** Paging the bill list *)








(** ** Extending a session *)

Lemma Forall2_map_in {A : Type} (R : A -> A -> Prop) (f : A -> A) (l : list A) :
  (forall x, In x l -> R x (f x)) -> Forall2 R l (map f l).
Proof.
  induction l as [|a l IH]; intros H; cbn [map]; constructor.
  - apply H. left. reflexivity.
  - apply IH. intros x Hx. apply H. right. exact Hx.
Qed.

Lemma db_one_session_wf : users_wf db_one_session.
Proof.
  split.
  - unfold user_ids; simpl. repeat constructor. intros [].
  - simpl. repeat constructor.
Qed.

(** X20.  UpdateUserExtension over a session table with unique positive
    primary keys.  It reports an error only when the write of a session
    it found fails, and then nothing is stored; a lookup hit by a storage
    fault and a robot and token that no session carries both come back as
    nil with the store untouched.  In every case the store differs at
    most in the session table, whose rows stay in place: each row is the
    old one, or is a session of that robot and token and is the old row
    with both expiry columns set to the new expiry and the call's time as
    update time. *)
Theorem X20_UpdateUserExtension_effect (envx : EnvX) (db : DB) (robotId : Z)
  (token : string) (newExpiry : Z) :
  users_wf db ->
  (fst (UpdateUserExtension envx db robotId token newExpiry) <> None ->
   snd (UpdateUserExtension envx db robotId token newExpiry) = db
   /\ exists u, In u (wx_user_logins db)
                /\ WxUserLogin.RobotID u = robotId /\ WxUserLogin.Token u = token)
  /\ (faultX envx (QueryUserByToken robotId token) = true ->
      UpdateUserExtension envx db robotId token newExpiry = (None, db))
  /\ ((forall u, In u (wx_user_logins db) ->
                 ~ (WxUserLogin.RobotID u = robotId /\ WxUserLogin.Token u = token)) ->
      UpdateUserExtension envx db robotId token newExpiry = (None, db))
  /\ wx_robot_configs (snd (UpdateUserExtension envx db robotId token newExpiry))
     = wx_robot_configs db
  /\ wx_groups (snd (UpdateUserExtension envx db robotId token newExpiry))
     = wx_groups db
  /\ Forall2 (fun u u' =>
                u' = u
                \/ (WxUserLogin.RobotID u = robotId /\ WxUserLogin.Token u = token
                    /\ u' = extended_row envx newExpiry u))
             (wx_user_logins db)
             (wx_user_logins (snd (UpdateUserExtension envx db robotId token newExpiry))).
Proof.
  intros (Hnd & Hpos). unfold UpdateUserExtension.
  assert (Hrefl : Forall2 (fun u u' =>
                             u' = u
                             \/ (WxUserLogin.RobotID u = robotId
                                 /\ WxUserLogin.Token u = token
                                 /\ u' = extended_row envx newExpiry u))
                          (wx_user_logins db) (wx_user_logins db)).
  { rewrite <- (map_id (wx_user_logins db)) at 2. apply Forall2_map_in. auto. }
  destruct (faultX envx (QueryUserByToken robotId token)).
  { cbn [fst snd]. split; [intros H; contradiction|]. repeat split; auto. }
  destruct (first_by _ _ _) as [user|] eqn:Hfirst.
  2:{ cbn [fst snd]. split; [intros H; contradiction|]. repeat split; auto. }
  apply first_by_In in Hfirst. destruct Hfirst as (Hin & Hkey).
  apply andb_true_iff in Hkey. destruct Hkey as (Hrob & Htok).
  apply Z.eqb_eq in Hrob. apply String.eqb_eq in Htok.
  assert (Hid : 0 < WxUserLogin.ID user)
    by (rewrite Forall_forall in Hpos; exact (Hpos user Hin)).
  unfold save_user.
  replace (WxUserLogin.ID (with_Expiry newExpiry user) =? 0) with false
    by (symmetry; apply Z.eqb_neq; destruct user; cbn in *; lia).
  destruct (fault (core envx) _); cbn [fst snd].
  { split; [intros _; split; [reflexivity | exists user; auto]|].
    split; [discriminate|]. split; [|repeat split; auto].
    intros Hno. exfalso. exact (Hno user Hin (conj Hrob Htok)). }
  split; [intros H; contradiction|]. split; [discriminate|]. split.
  { intros Hno. exfalso. exact (Hno user Hin (conj Hrob Htok)). }
  split; [reflexivity|]. split; [reflexivity|].
  cbn [set_users wx_user_logins]. unfold update_where_id. apply Forall2_map_in.
  intros x Hx.
  replace (WxUserLogin.ID (with_Expiry newExpiry user)) with (WxUserLogin.ID user)
    by (destruct user; reflexivity).
  destruct (Z.eqb_spec (WxUserLogin.ID x) (WxUserLogin.ID user)) as [E|E];
    [|left; reflexivity].
  right. assert (x = user) as ->
    by (apply (NoDup_map_eq WxUserLogin.ID (wx_user_logins db)); assumption).
  split; [exact Hrob|]. split; [exact Htok | reflexivity].
Qed.

Lemma X20_UpdateUserExtension_effect_witness :
  wx_user_logins (snd (UpdateUserExtension (envx_quiet (offline_env 90)) db_one_session
                         1 "tok-wx_a" 5000))
  = [extended_row (envx_quiet (offline_env 90)) 5000 (session 1 "wx_a" "A" 1 1)]
  /\ wx_groups (snd (UpdateUserExtension (envx_quiet (offline_env 90)) db_one_session
                       1 "tok-wx_a" 5000))
     = wx_groups db_one_session.
Proof.
  split; [reflexivity|].
  apply (X20_UpdateUserExtension_effect (envx_quiet (offline_env 90)) db_one_session
           1 "tok-wx_a" 5000 db_one_session_wf).
Defined.

(** ** Rotation across requests *)

Lemma sendText_round_robin env db groupId candidates pre x suf body req :
  queryMessageBots env db groupId = Ok candidates ->
  candidates = pre ++ x :: suf ->
  bindRequired SendTextBody.fields body = Ok req ->
  SendTextBody.to_user_name req = groupId ->
  sendText env db (RoundRobinMessageSendStrategy (Z.of_nat (List.length pre))) body
  = (text_answer_through env x req,
     RoundRobinMessageSendStrategy
       (match suf with [] => 0 | _ => Z.of_nat (List.length (pre ++ [x])) end)).
Proof.
  intros Hq Hc Hbind Hto. unfold sendText, GetMessageBotByStrategy. rewrite Hbind, Hto.
  rewrite (round_robin_step env db groupId candidates Hq pre suf x Hc).
  unfold text_answer_through. cbn [Robot User buildMessageBotInfo
    WxRobotConfig.Address WxUserLogin.Token]. rewrite Hto.
  destruct (SendText env _ _ _); reflexivity.
Qed.

(** X21.  A send consumes the turn of its bot whether it succeeds or not.
    With the round-robin strategy at candidate [x], followed in the
    candidate list by [y], a bound sendText request is attempted through
    [x] and answered with the outcome of that one attempt; the next bound
    sendText request for the same candidates, a retry included, is
    attempted through [y], and leaves the cursor behind [y] (at 0 when
    [y] is the last candidate). *)
Theorem X21_failed_send_consumes_turn (env env' : Env) (db : DB)
  (pre suf : list messageBotQueryResult) (x y : messageBotQueryResult)
  (body body' : HttpReply SendTextBody.t) (req req' : SendTextBody.t) :
  bindRequired SendTextBody.fields body = Ok req ->
  bindRequired SendTextBody.fields body' = Ok req' ->
  queryMessageBots env db (SendTextBody.to_user_name req)
  = Ok (pre ++ x :: y :: suf) ->
  queryMessageBots env' db (SendTextBody.to_user_name req')
  = Ok (pre ++ x :: y :: suf) ->
  fst (sendText env db
         (RoundRobinMessageSendStrategy (Z.of_nat (List.length pre))) body)
  = text_answer_through env x req
  /\ fst (sendText env' db
            (snd (sendText env db
                    (RoundRobinMessageSendStrategy (Z.of_nat (List.length pre)))
                    body))
            body')
     = text_answer_through env' y req'
  /\ snd (sendText env' db
            (snd (sendText env db
                    (RoundRobinMessageSendStrategy (Z.of_nat (List.length pre)))
                    body))
            body')
     = RoundRobinMessageSendStrategy
         (match suf with
          | [] => 0
          | _ => Z.of_nat (List.length pre) + 2
          end).
Proof.
  intros Hbind Hbind' Hq Hq'.
  rewrite (sendText_round_robin env db _ _ pre x (y :: suf) body req Hq eq_refl
             Hbind eq_refl).
  cbn [fst snd]. split; [reflexivity|].
  assert (Hc : pre ++ x :: y :: suf = (pre ++ [x]) ++ y :: suf)
    by (rewrite <- app_assoc; reflexivity).
  rewrite (sendText_round_robin env' db _ _ (pre ++ [x]) y suf body' req' Hq' Hc
             Hbind' eq_refl).
  cbn [fst snd]. split; [reflexivity|].
  destruct suf; [reflexivity|]. f_equal. rewrite !length_app. cbn [List.length]. lia.
Qed.

Lemma X21_failed_send_consumes_turn_witness :
  answer_Status
    (fst (sendText (offline_env 5) rr_db NewRoundRobinMessageSendStrategy
            (Parsed (SendTextBody.mk "hello" "g@chatroom")))) = 500
  /\ fst (sendText env_text_500 rr_db
            (snd (sendText (offline_env 5) rr_db NewRoundRobinMessageSendStrategy
                    (Parsed (SendTextBody.mk "hello" "g@chatroom"))))
            (Parsed (SendTextBody.mk "hello" "g@chatroom")))
     = text_answer_through env_text_500
         (selected_columns (session 2 "wx_b" "B" 1 1) robot1)
         (SendTextBody.mk "hello" "g@chatroom").
Proof.
  split; [reflexivity|].
  apply (X21_failed_send_consumes_turn (offline_env 5) env_text_500 rr_db
           [] [selected_columns (session 3 "wx_c" "C" 1 1) robot1]
           (selected_columns (session 1 "wx_a" "A" 1 1) robot1)
           (selected_columns (session 2 "wx_b" "B" 1 1) robot1)
           (Parsed (SendTextBody.mk "hello" "g@chatroom"))
           (Parsed (SendTextBody.mk "hello" "g@chatroom"))
           (SendTextBody.mk "hello" "g@chatroom")
           (SendTextBody.mk "hello" "g@chatroom"));
    reflexivity.
Defined.
